(** * The task subsystem and the syscall dispatcher of the teaching kernel

    A shallow embedding of [kernel/syscall.c] and [kernel/task.c]: the task
    table, [task_create], [task_free], [sys_kill], [sys_fork], [sys_sleep],
    [sys_getpid], [task_init] and [do_syscall].

    The kernel code is written in a state-and-error monad over the kernel
    globals ([tasks], [cur_task], the section sizes) and the state of the
    machine the external collaborators act on (physical memory and paging,
    console, timer, scheduler).  The collaborators are an interface
    ([Machine]); the kernel code is generic in it. *)

From Stdlib Require Import ZArith List Lia Bool.
From stdpp Require Import base list.
Import ListNotations.
Local Open Scope Z_scope.

(** ** Machine integers *)

(** Conversion of an integer to [uint32_t] and to [int32_t] (two's
    complement, as gcc does on x86). *)
Definition to_uint32 (z : Z) : Z := z mod 2 ^ 32.
Definition to_int32 (z : Z) : Z := (z + 2 ^ 31) mod 2 ^ 32 - 2 ^ 31.

(** Conversion to [char] (signed, eight bits). *)
Definition to_char (z : Z) : Z := (z + 2 ^ 7) mod 2 ^ 8 - 2 ^ 7.

(** A [NULL] pointer. *)
Definition NULL : Z := 0.

(** ** Data model *)

(** [struct PushRegs] and [struct Trapframe] of the x86 trap layer.  The
    header that declares them is not among the sources; the fields are the
    ones the code names ([tf_regs.reg_eax], [tf_cs], [tf_esp], ...) and the
    rest of the hardware frame.  Padding is left out. *)
Record PushRegs : Type := mkPushRegs {
  reg_edi : Z; reg_esi : Z; reg_ebp : Z; reg_oesp : Z;
  reg_ebx : Z; reg_edx : Z; reg_ecx : Z; reg_eax : Z
}.

Record Trapframe : Type := mkTrapframe {
  tf_regs : PushRegs;
  tf_es : Z; tf_ds : Z; tf_trapno : Z; tf_err : Z;
  tf_eip : Z; tf_cs : Z; tf_eflags : Z; tf_esp : Z; tf_ss : Z
}.

(** [TaskState] of [kernel/task.h]. *)
Inductive TaskState : Type :=
| TASK_FREE | TASK_RUNNABLE | TASK_RUNNING | TASK_SLEEP | TASK_STOP.

(** [Task] of [kernel/task.h]: one slot of the task table.  The ids are
    C [int]s; [remind_ticks] holds what the code stores in it, the
    [int32_t] value [(int32_t) time] in [sys_sleep]. *)
Record Task : Type := mkTask {
  task_id : Z;
  parent_id : Z;
  tf : Trapframe;
  remind_ticks : Z;
  state : TaskState;
  pgdir : Z
}.

(** The segment selectors, as the comments of the [gdt] table give them:
    0x18 is the user code segment and 0x20 the user data segment. *)
Definition GD_UT : Z := 0x18.
Definition GD_UD : Z := 0x20.
Definition GD_KD : Z := 0x10.
Definition GD_TSS0 : Z := 0x28.

(** The part of [struct tss_struct] that [task_init] fills in. *)
Record tss_struct : Type := mkTss {
  ts_esp0 : Z; ts_ss0 : Z; ts_fs : Z; ts_gs : Z
}.

(** The TSS descriptor [task_init] stores in [gdt[GD_TSS0 >> 3]]:
    [SEG16(type, base, lim, dpl)] and its [sd_s] bit. *)
Record Segdesc : Type := mkSegdesc {
  sd_type : Z; sd_base : Z; sd_lim : Z; sd_dpl : Z; sd_s : Z
}.

(** The system calls [do_syscall] has a [case] for. *)
Inductive Syscall : Type :=
| SYS_fork | SYS_getc | SYS_puts | SYS_getpid | SYS_sleep | SYS_kill
| SYS_get_num_free_page | SYS_get_num_used_page | SYS_get_ticks
| SYS_settextcolor | SYS_cls | SYS_test.

(** The constants of the headers and of the linker script, none of which is
    among the sources.  [syscall_of_number] reads a call number as the
    [case] label of that value, if there is one. *)
Record Config : Type := mkConfig {
  NR_TASKS : Z;
  TIME_QUANT : Z;
  USTACKTOP : Z;
  USR_STACK_SIZE : Z;
  PGSIZE : Z;
  KSTKSIZE : Z;
  PTE_U : Z;
  PTE_W : Z;
  STS_T32A : Z;
  sizeof_tss : Z;
  bootstack : Z;
  tss_addr : Z;
  user_entry : Z;
  UTEXT_start : Z; UTEXT_end : Z;
  UDATA_start : Z; UDATA_end : Z;
  UBSS_start : Z; UBSS_end : Z;
  URODATA_start : Z; URODATA_end : Z;
  syscall_of_number : Z -> option Syscall
}.

(** The globals of [kernel/task.c], and the state [mach] of everything the
    external collaborators own.  [cur_task] points into [tasks]: [Some i]
    is [&tasks[i]] and [None] is [NULL]. *)
Record Kernel (M : Type) : Type := mkKernel {
  tasks : list Task;
  cur_task : option Z;
  tss : tss_struct;
  gdt_tss0 : Segdesc;
  UTEXT_SZ : Z;
  UDATA_SZ : Z;
  UBSS_SZ : Z;
  URODATA_SZ : Z;
  mach : M
}.
Arguments mkKernel {M}.
Arguments tasks {M}.
Arguments cur_task {M}.
Arguments tss {M}.
Arguments gdt_tss0 {M}.
Arguments UTEXT_SZ {M}.
Arguments UDATA_SZ {M}.
Arguments UBSS_SZ {M}.
Arguments URODATA_SZ {M}.
Arguments mach {M}.

(** What the kernel prints with [printk] and [cprintf]. *)
Inductive Message : Type :=
| Msg_pgdir_num (pa : Z)           (* "pgdir num = %x\n" *)
| Msg_first_task (id parent : Z)   (* "first task id = %d parent id = %d\n" *)
| Msg_going_to_kill (pid : Z).     (* "Going to kill pid = %d\n" *)

(** The two [panic] calls. *)
Inductive PanicMsg : Type :=
| Panic_no_pgdir     (* "Not enough memory for per process page directory!\n" *)
| Panic_cant_sleep.  (* "Can't sleep the task\n" *)

(** ** The external collaborators

    The functions the kernel code calls and the sources do not define:
    the address-space service of [kernel/mem.c], the console and screen,
    the timer, the scheduler and the processor.  A function that changes
    the machine takes and returns its state; a pointer result is [NULL] on
    failure. *)
Class Machine (M : Type) : Type := {
  setupkvm : M -> Z * M;
  page_alloc : Z -> M -> Z * M;
  page_insert : Z -> Z -> Z -> Z -> M -> M;
  page_lookup : Z -> Z -> M -> Z;
  page_remove : Z -> Z -> M -> M;
  ptable_remove : Z -> M -> M;
  pgdir_remove : Z -> M -> M;
  setupvm : Z -> Z -> Z -> M -> M;
  page2kva : Z -> Z;
  PADDR : Z -> Z;
  kern_pgdir : M -> Z;
  memcpy : Z -> Z -> Z -> M -> M;
  load_char : Z -> M -> Z;
  lcr3 : Z -> M -> M;
  lgdt : M -> M;
  lldt : Z -> M -> M;
  ltr : Z -> M -> M;
  k_putch : Z -> M -> M;
  k_getc : M -> Z * M;
  printk : Message -> M -> M;
  cprintf : Message -> M -> M;
  sys_get_num_free_page : M -> Z;
  sys_get_num_used_page : M -> Z;
  sys_get_ticks : M -> Z;
  sys_settextcolor : Z -> Z -> M -> M;
  sys_cls : M -> M;
  sched_yield : Kernel M -> Kernel M
}.

(** ** The kernel monad *)

(** How a piece of kernel code ends: it returns, the kernel panics, or it
    reaches outside the task table (undefined behaviour in C). *)
Inductive outcome (S A : Type) : Type :=
| Done (a : A) (s : S)
| Panic (why : PanicMsg) (s : S)
| Fault (s : S).
Arguments Done {S A}.
Arguments Panic {S A}.
Arguments Fault {S A}.

Definition kern (M A : Type) : Type := Kernel M -> outcome (Kernel M) A.

Definition ret {M A} (a : A) : kern M A := fun k => Done a k.

Definition bind {M A B} (c : kern M A) (f : A -> kern M B) : kern M B :=
  fun k =>
    match c k with
    | Done a k' => f a k'
    | Panic why k' => Panic why k'
    | Fault k' => Fault k'
    end.

Declare Scope kern_scope.
Delimit Scope kern_scope with kern.
Notation "x <- c ;; f" := (bind c (fun x => f))
  (at level 100, c at next level, right associativity) : kern_scope.
Notation "c ;; f" := (bind c (fun _ => f))
  (at level 100, right associativity) : kern_scope.
Local Open Scope kern_scope.

Definition panic {M A} (why : PanicMsg) : kern M A := fun k => Panic why k.

(** ** Field updates *)

Definition set_eax (r : PushRegs) (v : Z) : PushRegs :=
  mkPushRegs (reg_edi r) (reg_esi r) (reg_ebp r) (reg_oesp r)
             (reg_ebx r) (reg_edx r) (reg_ecx r) v.

Definition tf_set_eax (f : Trapframe) (v : Z) : Trapframe :=
  mkTrapframe (set_eax (tf_regs f) v) (tf_es f) (tf_ds f) (tf_trapno f)
              (tf_err f) (tf_eip f) (tf_cs f) (tf_eflags f) (tf_esp f) (tf_ss f).

Definition tf_set_eip (f : Trapframe) (v : Z) : Trapframe :=
  mkTrapframe (tf_regs f) (tf_es f) (tf_ds f) (tf_trapno f)
              (tf_err f) v (tf_cs f) (tf_eflags f) (tf_esp f) (tf_ss f).

Definition tf_set_cs (f : Trapframe) (v : Z) : Trapframe :=
  mkTrapframe (tf_regs f) (tf_es f) (tf_ds f) (tf_trapno f)
              (tf_err f) (tf_eip f) v (tf_eflags f) (tf_esp f) (tf_ss f).

Definition tf_set_ds (f : Trapframe) (v : Z) : Trapframe :=
  mkTrapframe (tf_regs f) (tf_es f) v (tf_trapno f)
              (tf_err f) (tf_eip f) (tf_cs f) (tf_eflags f) (tf_esp f) (tf_ss f).

Definition tf_set_es (f : Trapframe) (v : Z) : Trapframe :=
  mkTrapframe (tf_regs f) v (tf_ds f) (tf_trapno f)
              (tf_err f) (tf_eip f) (tf_cs f) (tf_eflags f) (tf_esp f) (tf_ss f).

Definition tf_set_ss (f : Trapframe) (v : Z) : Trapframe :=
  mkTrapframe (tf_regs f) (tf_es f) (tf_ds f) (tf_trapno f)
              (tf_err f) (tf_eip f) (tf_cs f) (tf_eflags f) (tf_esp f) v.

Definition tf_set_esp (f : Trapframe) (v : Z) : Trapframe :=
  mkTrapframe (tf_regs f) (tf_es f) (tf_ds f) (tf_trapno f)
              (tf_err f) (tf_eip f) (tf_cs f) (tf_eflags f) v (tf_ss f).

Definition set_task_id (v : Z) (t : Task) : Task :=
  mkTask v (parent_id t) (tf t) (remind_ticks t) (state t) (pgdir t).
Definition set_parent_id (v : Z) (t : Task) : Task :=
  mkTask (task_id t) v (tf t) (remind_ticks t) (state t) (pgdir t).
Definition set_tf (v : Trapframe) (t : Task) : Task :=
  mkTask (task_id t) (parent_id t) v (remind_ticks t) (state t) (pgdir t).
Definition set_remind_ticks (v : Z) (t : Task) : Task :=
  mkTask (task_id t) (parent_id t) (tf t) v (state t) (pgdir t).
Definition set_state (v : TaskState) (t : Task) : Task :=
  mkTask (task_id t) (parent_id t) (tf t) (remind_ticks t) v (pgdir t).
Definition set_pgdir (v : Z) (t : Task) : Task :=
  mkTask (task_id t) (parent_id t) (tf t) (remind_ticks t) (state t) v.

(** What [memset(p, 0, sizeof *p)] leaves in a trap frame and in a task. *)
Definition zero_regs : PushRegs := mkPushRegs 0 0 0 0 0 0 0 0.
Definition zero_tf : Trapframe := mkTrapframe zero_regs 0 0 0 0 0 0 0 0 0.
Definition zero_task : Task := mkTask 0 0 zero_tf 0 TASK_FREE NULL.
Definition zero_tss : tss_struct := mkTss 0 0 0 0.

Definition state_eqb (a b : TaskState) : bool :=
  match a, b with
  | TASK_FREE, TASK_FREE | TASK_RUNNABLE, TASK_RUNNABLE
  | TASK_RUNNING, TASK_RUNNING | TASK_SLEEP, TASK_SLEEP
  | TASK_STOP, TASK_STOP => true
  | _, _ => false
  end.

(** The test [state == TASK_FREE || state == TASK_STOP]. *)
Definition free_or_stop (s : TaskState) : bool :=
  state_eqb s TASK_FREE || state_eqb s TASK_STOP.

(** ** Access to the globals *)

(** [tasks[i]] for a C [int] index: [None] outside the array. *)
Definition slot (ts : list Task) (i : Z) : option Task :=
  if 0 <=? i then ts !! Z.to_nat i else None.

Definition set_tasks {M} (ts : list Task) (k : Kernel M) : Kernel M :=
  mkKernel ts (cur_task k) (tss k) (gdt_tss0 k)
           (UTEXT_SZ k) (UDATA_SZ k) (UBSS_SZ k) (URODATA_SZ k) (mach k).
Definition set_cur_task {M} (c : option Z) (k : Kernel M) : Kernel M :=
  mkKernel (tasks k) c (tss k) (gdt_tss0 k)
           (UTEXT_SZ k) (UDATA_SZ k) (UBSS_SZ k) (URODATA_SZ k) (mach k).
Definition set_mach {M} (m : M) (k : Kernel M) : Kernel M :=
  mkKernel (tasks k) (cur_task k) (tss k) (gdt_tss0 k)
           (UTEXT_SZ k) (UDATA_SZ k) (UBSS_SZ k) (URODATA_SZ k) m.
Definition set_tss {M} (t : tss_struct) (k : Kernel M) : Kernel M :=
  mkKernel (tasks k) (cur_task k) t (gdt_tss0 k)
           (UTEXT_SZ k) (UDATA_SZ k) (UBSS_SZ k) (URODATA_SZ k) (mach k).
Definition set_gdt_tss0 {M} (d : Segdesc) (k : Kernel M) : Kernel M :=
  mkKernel (tasks k) (cur_task k) (tss k) d
           (UTEXT_SZ k) (UDATA_SZ k) (UBSS_SZ k) (URODATA_SZ k) (mach k).
Definition set_sizes {M} (t d b r : Z) (k : Kernel M) : Kernel M :=
  mkKernel (tasks k) (cur_task k) (tss k) (gdt_tss0 k) t d b r (mach k).

(** Read [tasks[i]]. *)
Definition get_task {M} (i : Z) : kern M Task :=
  fun k => match slot (tasks k) i with
           | Some t => Done t k
           | None => Fault k
           end.

(** Write one field of [tasks[i]]. *)
Definition modify_task {M} (i : Z) (f : Task -> Task) : kern M unit :=
  fun k => match slot (tasks k) i with
           | Some t => Done tt (set_tasks (<[Z.to_nat i := f t]> (tasks k)) k)
           | None => Fault k
           end.

Definition get_cur_task {M} : kern M (option Z) := fun k => Done (cur_task k) k.

(** Read a global, and change the globals. *)
Definition read {M A} (f : Kernel M -> A) : kern M A := fun k => Done (f k) k.
Definition update {M} (f : Kernel M -> Kernel M) : kern M unit :=
  fun k => Done tt (f k).

(** Calls of the collaborators. *)
Definition call {M A} (f : M -> A * M) : kern M A :=
  fun k => let (a, m) := f (mach k) in Done a (set_mach m k).
Definition exec {M} (f : M -> M) : kern M unit :=
  fun k => Done tt (set_mach (f (mach k)) k).
Definition ask {M A} (f : M -> A) : kern M A :=
  fun k => Done (f (mach k)) k.

(** ** The kernel code *)

Section KernelCode.

Context {M : Type} `{Machine M}.
Variable cfg : Config.

(** The header shared by the three user-stack loops,
    [for (i = USTACKTOP - USR_STACK_SIZE; i < USTACKTOP; i += PGSIZE)]:
    the values [i] takes, as 32-bit addresses.  [fuel] bounds the number
    of iterations; for constants with [config_ok] the loop ends before the
    fuel does ([ustack_vas_pages]). *)
Fixpoint va_loop (fuel : nat) (i hi step : Z) : list Z :=
  match fuel with
  | O => []
  | S fuel' =>
      if i <? hi then i :: va_loop fuel' (to_uint32 (i + step)) hi step
      else []
  end.

Definition ustack_vas : list Z :=
  va_loop (Z.to_nat (USR_STACK_SIZE cfg))
          (to_uint32 (USTACKTOP cfg - USR_STACK_SIZE cfg))
          (USTACKTOP cfg) (PGSIZE cfg).

(** [sys_getpid] *)
Definition sys_getpid : kern M Z :=
  cur <- get_cur_task ;;
  match cur with
  | Some c => t <- get_task c ;; ret (task_id t)
  | None => ret (-1)
  end.

(** [sys_sleep].  [panic] does not return: the [return -1] after it is
    never reached. *)
Definition sys_sleep (time : Z) : kern M Z :=
  cur <- get_cur_task ;;
  match cur with
  | Some c =>
      t <- get_task c ;;
      if state_eqb (state t) TASK_RUNNING then
        modify_task c (set_state TASK_SLEEP) ;;
        modify_task c (set_remind_ticks (to_int32 time)) ;;
        update sched_yield ;;
        ret 0
      else panic Panic_cant_sleep
  | None => panic Panic_cant_sleep
  end.

(** The scan of [task_create] for a free task structure: the value of [i]
    when the loop is left. *)
Fixpoint find_free (fuel : nat) (i : Z) : kern M Z :=
  match fuel with
  | O => ret i
  | S fuel' =>
      if i <? NR_TASKS cfg then
        t <- get_task i ;;
        if free_or_stop (state t) then ret i
        else find_free fuel' (i + 1)
      else ret i
  end.

(** The user-stack loop of [task_create]; [false] is its [return -1]. *)
Fixpoint alloc_ustack (id : Z) (vas : list Z) : kern M bool :=
  match vas with
  | [] => ret true
  | va :: rest =>
      ppage <- call (page_alloc 1) ;;
      if negb (ppage =? NULL) then
        ts <- get_task id ;;
        exec (page_insert (pgdir ts) ppage va (Z.lor (PTE_U cfg) (PTE_W cfg))) ;;
        alloc_ustack id rest
      else ret false
  end.

(** [task_create] *)
Definition task_create : kern M Z :=
  i <- find_free (S (Z.to_nat (NR_TASKS cfg))) 0 ;;
  if i >=? NR_TASKS cfg then ret (-1)
  else
    let id := i in
    pd <- call setupkvm ;;
    modify_task id (set_pgdir pd) ;;
    if pd =? NULL then panic Panic_no_pgdir
    else
      ts <- get_task id ;;
      exec (printk (Msg_pgdir_num (PADDR (pgdir ts)))) ;;
      ok <- alloc_ustack id ustack_vas ;;
      if negb ok then ret (-1)
      else
        modify_task id (set_tf zero_tf) ;;
        modify_task id (fun t => set_tf (tf_set_cs (tf t) (Z.lor GD_UT 3)) t) ;;
        modify_task id (fun t => set_tf (tf_set_ds (tf t) (Z.lor GD_UD 3)) t) ;;
        modify_task id (fun t => set_tf (tf_set_es (tf t) (Z.lor GD_UD 3)) t) ;;
        modify_task id (fun t => set_tf (tf_set_ss (tf t) (Z.lor GD_UD 3)) t) ;;
        modify_task id (fun t =>
          set_tf (tf_set_esp (tf t) (to_uint32 (USTACKTOP cfg - PGSIZE cfg))) t) ;;
        modify_task id (set_task_id id) ;;
        cur <- get_cur_task ;;
        match cur with
        | Some c => p <- get_task c ;; modify_task id (set_parent_id (task_id p))
        | None => modify_task id (set_parent_id (-1))
        end ;;
        modify_task id (set_remind_ticks (TIME_QUANT cfg)) ;;
        modify_task id (set_state TASK_RUNNABLE) ;;
        ts <- get_task id ;;
        ret (task_id ts)
  .

(** The user-stack loop of [task_free]. *)
Fixpoint remove_ustack (pid : Z) (vas : list Z) : kern M unit :=
  match vas with
  | [] => ret tt
  | va :: rest =>
      ts <- get_task pid ;;
      exec (page_remove (pgdir ts) va) ;;
      remove_ustack pid rest
  end.

(** [task_free] *)
Definition task_free (pid : Z) : kern M unit :=
  if (0 <? pid) && (pid <? NR_TASKS cfg) then
    kpd <- ask kern_pgdir ;;
    exec (lcr3 (PADDR kpd)) ;;
    remove_ustack pid ustack_vas ;;
    ts <- get_task pid ;;
    exec (ptable_remove (pgdir ts)) ;;
    ts <- get_task pid ;;
    exec (pgdir_remove (pgdir ts))
  else ret tt.

(** [sys_kill] *)
Definition sys_kill (pid : Z) : kern M unit :=
  if (0 <? pid) && (pid <? NR_TASKS cfg) then
    t <- get_task pid ;;
    if free_or_stop (state t) then ret tt
    else
      modify_task pid (set_state TASK_STOP) ;;
      task_free pid ;;
      update sched_yield
  else ret tt.

(** The stack-copy loop of [sys_fork]; [false] is its [return -1]. *)
Fixpoint copy_ustack (pid : Z) (vas : list Z) : kern M bool :=
  match vas with
  | [] => ret true
  | va :: rest =>
      child <- get_task pid ;;
      ppageNew <- ask (page_lookup (pgdir child) va) ;;
      if negb (ppageNew =? NULL) then
        let kvaNew := to_uint32 (page2kva ppageNew) in
        exec (memcpy kvaNew va (PGSIZE cfg)) ;;
        copy_ustack pid rest
      else ret false
  end.

(** [sys_fork] *)
Definition sys_fork : kern M Z :=
  cur <- get_cur_task ;;
  match cur with
  | Some c =>
      pid <- task_create ;;
      if pid =? 0 then ret (-1)
      else
        parent <- get_task c ;;
        modify_task pid (set_tf (tf parent)) ;;
        ok <- copy_ustack pid ustack_vas ;;
        if negb ok then ret (-1)
        else
          child <- get_task pid ;;
          usz <- read UTEXT_SZ ;;
          exec (setupvm (pgdir child) (UTEXT_start cfg) usz) ;;
          child <- get_task pid ;;
          usz <- read UDATA_SZ ;;
          exec (setupvm (pgdir child) (UDATA_start cfg) usz) ;;
          child <- get_task pid ;;
          usz <- read UBSS_SZ ;;
          exec (setupvm (pgdir child) (UBSS_start cfg) usz) ;;
          child <- get_task pid ;;
          usz <- read URODATA_SZ ;;
          exec (setupvm (pgdir child) (URODATA_start cfg) usz) ;;
          modify_task pid (fun t => set_tf (tf_set_eax (tf t) 0) t) ;;
          ret pid
  | None => ret (-1)
  end.

(** The initialisation loop of [task_init]. *)
Fixpoint clear_tasks (fuel : nat) (i : Z) : kern M unit :=
  match fuel with
  | O => ret tt
  | S fuel' =>
      if i <? NR_TASKS cfg then
        modify_task i (fun _ => zero_task) ;;
        modify_task i (set_state TASK_FREE) ;;
        clear_tasks fuel' (i + 1)
      else ret tt
  end.

(** [task_init] *)
Definition task_init : kern M unit :=
  update (set_sizes (to_uint32 (UTEXT_end cfg - UTEXT_start cfg))
                    (to_uint32 (UDATA_end cfg - UDATA_start cfg))
                    (to_uint32 (UBSS_end cfg - UBSS_start cfg))
                    (to_uint32 (URODATA_end cfg - URODATA_start cfg))) ;;
  clear_tasks (S (Z.to_nat (NR_TASKS cfg))) 0 ;;
  update (set_tss zero_tss) ;;
  update (set_tss (mkTss (to_uint32 (bootstack cfg + KSTKSIZE cfg)) GD_KD
                         (Z.lor GD_UD 3) (Z.lor GD_UD 3))) ;;
  update (set_gdt_tss0 (mkSegdesc (STS_T32A cfg) (to_uint32 (tss_addr cfg))
                                  (sizeof_tss cfg) 0 0)) ;;
  i <- task_create ;;
  update (set_cur_task (Some i)) ;;
  cur <- get_task i ;;
  exec (printk (Msg_first_task (task_id cur) (parent_id cur))) ;;
  usz <- read UTEXT_SZ ;;
  exec (setupvm (pgdir cur) (UTEXT_start cfg) usz) ;;
  usz <- read UDATA_SZ ;;
  exec (setupvm (pgdir cur) (UDATA_start cfg) usz) ;;
  usz <- read UBSS_SZ ;;
  exec (setupvm (pgdir cur) (UBSS_start cfg) usz) ;;
  usz <- read URODATA_SZ ;;
  exec (setupvm (pgdir cur) (URODATA_start cfg) usz) ;;
  modify_task i (fun t => set_tf (tf_set_eip (tf t) (to_uint32 (user_entry cfg))) t) ;;
  exec lgdt ;;
  exec (lldt 0) ;;
  exec (ltr GD_TSS0) ;;
  modify_task i (set_state TASK_RUNNING).

(** The loop of [do_puts]. *)
Fixpoint do_puts_loop (fuel : nat) (str i len : Z) : kern M unit :=
  match fuel with
  | O => ret tt
  | S fuel' =>
      if i <? len then
        c <- ask (load_char (to_uint32 (str + i))) ;;
        exec (k_putch c) ;;
        do_puts_loop fuel' str (i + 1) len
      else ret tt
  end.

(** [do_puts] *)
Definition do_puts (str len : Z) : kern M unit :=
  do_puts_loop (S (Z.to_nat len)) str 0 len.

(** [do_getc] *)
Definition do_getc : kern M Z := call k_getc.

(** [do_syscall].  The arguments are [uint32_t]; the result is [int32_t]. *)
Definition do_syscall (syscallno a1 a2 a3 a4 a5 : Z) : kern M Z :=
  let retVal := -1 in
  match syscall_of_number cfg syscallno with
  | Some SYS_fork => sys_fork
  | Some SYS_getc => do_getc
  | Some SYS_puts => do_puts a1 a2 ;; ret 0
  | Some SYS_getpid => sys_getpid
  | Some SYS_sleep => sys_sleep a1
  | Some SYS_kill =>
      exec (cprintf (Msg_going_to_kill a1)) ;;
      sys_kill (to_int32 a1) ;;
      ret 0
  | Some SYS_get_num_free_page => r <- ask sys_get_num_free_page ;; ret (to_int32 r)
  | Some SYS_get_num_used_page => r <- ask sys_get_num_used_page ;; ret (to_int32 r)
  | Some SYS_get_ticks => r <- ask sys_get_ticks ;; ret (to_int32 r)
  | Some SYS_settextcolor =>
      exec (sys_settextcolor (to_char a1) (to_char a2)) ;;
      ret 0
  | Some SYS_cls => exec sys_cls ;; ret 0
  | Some SYS_test => ret 12345678
  | None => ret retVal
  end.

End KernelCode.

(** ** What the user-stack loops do to the machine

    The three loops leave the task table alone; these are their effects on
    the machine, as functions of the page directory they work on. *)

Section MachineEffects.

Context {M : Type} `{Machine M}.
Variable cfg : Config.

(** The loop of [task_create]: a page is allocated and inserted at each
    address, until an allocation fails. *)
Fixpoint map_ustack (pd : Z) (vas : list Z) (m : M) : bool * M :=
  match vas with
  | [] => (true, m)
  | va :: rest =>
      let (ppage, m1) := page_alloc 1 m in
      if negb (ppage =? NULL) then
        map_ustack pd rest
          (page_insert pd ppage va (Z.lor (PTE_U cfg) (PTE_W cfg)) m1)
      else (false, m1)
  end.

(** The loop of [task_free]. *)
Definition unmap_ustack (pd : Z) (vas : list Z) (m : M) : M :=
  fold_left (fun m' va => page_remove pd va m') vas m.

(** The loop of [sys_fork]: each page of the running address space is
    copied to the page the child has at the same address, until the child
    has none. *)
Fixpoint copy_pages (pd : Z) (vas : list Z) (m : M) : bool * M :=
  match vas with
  | [] => (true, m)
  | va :: rest =>
      let ppageNew := page_lookup pd va m in
      if negb (ppageNew =? NULL) then
        copy_pages pd rest (memcpy (to_uint32 (page2kva ppageNew)) va (PGSIZE cfg) m)
      else (false, m)
  end.

(** Everything [task_free] does, in order: the kernel page directory is
    loaded, the user stack is unmapped, the page tables and then the page
    directory are freed. *)
Definition free_address_space (pd : Z) (m : M) : M :=
  pgdir_remove pd
    (ptable_remove pd
       (unmap_ustack pd (ustack_vas cfg) (lcr3 (PADDR (kern_pgdir m)) m))).

End MachineEffects.

(** ** Properties of task tables *)

(** The table has [NR_TASKS] slots. *)
Definition table_ok (cfg : Config) (ts : list Task) : Prop :=
  Z.of_nat (length ts) = NR_TASKS cfg.

(** Slot [i] is the lowest slot in state FREE or STOP, and holds [t]. *)
Definition lowest_free (ts : list Task) (i : Z) (t : Task) : Prop :=
  slot ts i = Some t /\ free_or_stop (state t) = true /\
  forall j u, 0 <= j < i -> slot ts j = Some u -> free_or_stop (state u) = false.

(** No slot is in state FREE or STOP. *)
Definition table_full (ts : list Task) : Prop :=
  forall j u, slot ts j = Some u -> free_or_stop (state u) = false.

(** The current task pointer is [NULL] or points into the table. *)
Definition cur_ok {M} (k : Kernel M) : Prop :=
  forall c, cur_task k = Some c -> is_Some (slot (tasks k) c).

(** The number of slots in state [s]. *)
Definition count_state (s : TaskState) (ts : list Task) : Z :=
  Z.of_nat (length (filter (fun t => state_eqb (state t) s = true) ts)).

(** The slot states of a table. *)
Definition states (ts : list Task) : list TaskState := state <$> ts.

(** The trap frame [task_create] sets up. *)
Definition initial_tf (cfg : Config) : Trapframe :=
  mkTrapframe zero_regs (Z.lor GD_UD 3) (Z.lor GD_UD 3) 0 0 0 (Z.lor GD_UT 3) 0
              (to_uint32 (USTACKTOP cfg - PGSIZE cfg)) (Z.lor GD_UD 3).

(** The constants are those of a 32-bit address space with a user stack
    of whole pages. *)
Record config_ok (cfg : Config) : Prop := {
  pgsize_pos : 0 < PGSIZE cfg;
  stack_nonempty : 0 < USR_STACK_SIZE cfg;
  stack_pages : USR_STACK_SIZE cfg mod PGSIZE cfg = 0;
  stack_low : USR_STACK_SIZE cfg <= USTACKTOP cfg;
  stack_high : USTACKTOP cfg + PGSIZE cfg <= 2 ^ 32
}.

(** The addresses of [n] consecutive pages from [lo] upwards. *)
Fixpoint pages_from (n : nat) (lo step : Z) : list Z :=
  match n with
  | O => []
  | S n' => lo :: pages_from n' (lo + step) step
  end.

(** The pages of the user-stack region, from [USTACKTOP - USR_STACK_SIZE]
    up to [USTACKTOP]. *)
Definition ustack_pages (cfg : Config) : list Z :=
  pages_from (Z.to_nat (USR_STACK_SIZE cfg / PGSIZE cfg))
             (USTACKTOP cfg - USR_STACK_SIZE cfg) (PGSIZE cfg).

(** ** A simulated machine

    Modelled from the spec: the collaborators of its section 6 (the
    address-space service, the scheduler, the console, the timer), whose
    code is not among the sources.  The kernel code runs on any [Machine];
    to run it on concrete inputs this module gives one: a frame counter, a
    list of mappings, a console log and a scheduler. *)

Module Sim.

Record machine : Type := mk {
  free_frames : Z;
  next_frame : Z;
  mappings : list (Z * Z * Z);
  cr3 : Z;
  log : list Message;
  out : list Z
}.

Definition KERNBASE : Z := 0xF0000000.

(** A frame is taken if one is left; the result is its kernel address. *)
Definition take_frame (m : machine) : Z * machine :=
  if 0 <? free_frames m then
    (KERNBASE + next_frame m,
     mk (free_frames m - 1) (next_frame m + 4096) (mappings m) (cr3 m) (log m) (out m))
  else (NULL, m).

Definition give_frame (m : machine) : machine :=
  mk (free_frames m + 1) (next_frame m) (mappings m) (cr3 m) (log m) (out m).

Definition same_place (pd va : Z) (e : Z * Z * Z) : bool :=
  (fst (fst e) =? pd) && (snd (fst e) =? va).

Definition insert_mapping (pd pp va perm : Z) (m : machine) : machine :=
  mk (free_frames m) (next_frame m) ((pd, va, pp) :: mappings m) (cr3 m) (log m) (out m).

Definition lookup_mapping (pd va : Z) (m : machine) : Z :=
  match List.find (same_place pd va) (mappings m) with
  | Some e => snd e
  | None => NULL
  end.

Definition remove_mapping (pd va : Z) (m : machine) : machine :=
  mk (if lookup_mapping pd va m =? NULL then free_frames m else free_frames m + 1)
     (next_frame m)
     (List.filter (fun e => negb (same_place pd va e)) (mappings m))
     (cr3 m) (log m) (out m).

Definition load_cr3 (v : Z) (m : machine) : machine :=
  mk (free_frames m) (next_frame m) (mappings m) v (log m) (out m).

Definition emit (msg : Message) (m : machine) : machine :=
  mk (free_frames m) (next_frame m) (mappings m) (cr3 m) (log m ++ [msg]) (out m).

Definition putch (c : Z) (m : machine) : machine :=
  mk (free_frames m) (next_frame m) (mappings m) (cr3 m) (log m) (out m ++ [c]).

(** The scheduler: the running task becomes runnable, then the lowest
    runnable slot runs.  Slots in other states are left as they are. *)
Definition demote (t : Task) : Task :=
  match state t with
  | TASK_RUNNING => set_state TASK_RUNNABLE t
  | _ => t
  end.

Fixpoint first_runnable (ts : list Task) (i : Z) : option Z :=
  match ts with
  | [] => None
  | t :: rest =>
      if state_eqb (state t) TASK_RUNNABLE then Some i
      else first_runnable rest (i + 1)
  end.

Definition yield (k : Kernel machine) : Kernel machine :=
  let ts := demote <$> tasks k in
  match first_runnable ts 0 with
  | Some i =>
      set_cur_task (Some i)
        (set_tasks (alter (set_state TASK_RUNNING) (Z.to_nat i) ts) k)
  | None => set_tasks ts k
  end.

#[global] Instance sim_machine : Machine machine := {
  setupkvm := take_frame;
  page_alloc := fun _ => take_frame;
  page_insert := insert_mapping;
  page_lookup := lookup_mapping;
  page_remove := remove_mapping;
  ptable_remove := fun _ m => m;
  pgdir_remove := fun _ => give_frame;
  setupvm := fun _ _ _ m => m;
  page2kva := fun pp => pp;
  PADDR := fun kva => kva - KERNBASE;
  kern_pgdir := fun _ => KERNBASE + 0x1000;
  memcpy := fun _ _ _ m => m;
  load_char := fun _ _ => 0;
  lcr3 := load_cr3;
  lgdt := fun m => m;
  lldt := fun _ m => m;
  ltr := fun _ m => m;
  k_putch := putch;
  k_getc := fun m => (-1, m);
  printk := emit;
  cprintf := emit;
  sys_get_num_free_page := free_frames;
  sys_get_num_used_page := fun m => next_frame m / 4096;
  sys_get_ticks := fun _ => 0;
  sys_settextcolor := fun _ _ m => m;
  sys_cls := fun m => m;
  sched_yield := yield
}.

(** The call numbers of this configuration. *)
Definition syscall_table (n : Z) : option Syscall :=
  match n with
  | 0 => Some SYS_puts
  | 1 => Some SYS_getc
  | 2 => Some SYS_getpid
  | 3 => Some SYS_fork
  | 4 => Some SYS_kill
  | 5 => Some SYS_sleep
  | 6 => Some SYS_get_num_used_page
  | 7 => Some SYS_get_num_free_page
  | 8 => Some SYS_get_ticks
  | 9 => Some SYS_settextcolor
  | 10 => Some SYS_cls
  | 11 => Some SYS_test
  | _ => None
  end.

(** A configuration with [slots] task slots and a user stack of two
    pages below 0xeebfe000. *)
Definition config (slots : Z) : Config :=
  mkConfig slots 100 0xeebfe000 8192 4096 32768 4 2 9 104
           0xf0110000 0xf0120000 0x800020
           0x800000 0x801000 0x801000 0x802000 0x802000 0x803000 0x803000 0x804000
           syscall_table.

Definition cfg3 : Config := config 3.

(** The machine at boot, with [n] free frames. *)
Definition fresh (n : Z) : machine := mk n 0x100000 [] 0 [] [].

(** The kernel before [task_init]: the globals are zero and [cur_task] is
    [NULL]. *)
Definition boot (slots : nat) (frames : Z) : Kernel machine :=
  mkKernel (repeat zero_task slots) None zero_tss (mkSegdesc 0 0 0 0 0)
           0 0 0 0 (fresh frames).

(** A task in state [s] with id [i]. *)
Definition task_in (s : TaskState) (i : Z) : Task :=
  mkTask i (-1) (initial_tf cfg3) 100 s (KERNBASE + 0x2000 + i * 0x1000).

(** A kernel with the given table and current task, and [frames] free
    frames. *)
Definition kernel_of (ts : list Task) (cur : option Z) (frames : Z) : Kernel machine :=
  mkKernel ts cur zero_tss (mkSegdesc 0 0 0 0 0) 0 0 0 0 (fresh frames).

(** Three tasks, none of them FREE or STOP; task 0 runs. *)
Definition full_table : list Task :=
  [task_in TASK_RUNNING 0; task_in TASK_RUNNABLE 1; task_in TASK_SLEEP 2].

(** Task 0 runs, slot 1 is stopped, slot 2 is runnable. *)
Definition table_with_stop : list Task :=
  [task_in TASK_RUNNING 0; task_in TASK_STOP 1; task_in TASK_RUNNABLE 2].

(** The kernel a run ends in. *)
Definition final {A} (o : outcome (Kernel machine) A) : Kernel machine :=
  match o with
  | Done _ k => k
  | Panic _ k => k
  | Fault k => k
  end.

(** The kernel after [task_init] ran on a machine with [frames] frames,
    and after task 0 then forked. *)
Definition booted (frames : Z) : Kernel machine :=
  final (task_init cfg3 (boot 3 frames)).
Definition forked (frames : Z) : Kernel machine :=
  final (sys_fork cfg3 (booted frames)).

(** Kernels with a stopped slot: with frames for a whole task, with frames
    for a page directory and one page only, and with none. *)
Definition roomy : Kernel machine := kernel_of table_with_stop (Some 0) 3.
Definition tight : Kernel machine := kernel_of table_with_stop (Some 0) 2.
Definition starved : Kernel machine := kernel_of table_with_stop (Some 0) 0.

(** A kernel with a full table. *)
Definition crowded : Kernel machine := kernel_of full_table (Some 0) 10.

(** The same table with no current task. *)
Definition idle : Kernel machine := kernel_of table_with_stop None 2.

(** A kernel whose current task sleeps. *)
Definition dozing : Kernel machine := kernel_of full_table (Some 2) 10.

End Sim.

(** ** The result of a successful creation *)

(** The parent id [task_create] stores in slot [i]: the [task_id] of the
    current task, read after [task_id] of slot [i] is written. *)
Definition parent_for {M} (k : Kernel M) (i : Z) : Z :=
  match cur_task k with
  | None => -1
  | Some c =>
      if c =? i then i
      else match slot (tasks k) c with
           | Some p => task_id p
           | None => 0
           end
  end.

(** The task [task_create] leaves in slot [i] when it succeeds with page
    directory [pd]. *)
Definition created_task {M} (cfg : Config) (k : Kernel M) (i pd : Z) : Task :=
  mkTask i (parent_for k i) (initial_tf cfg) (TIME_QUANT cfg) TASK_RUNNABLE pd.

(** The scheduler leaves a stopped slot stopped. *)
Definition sched_keeps_stopped (M : Type) `{Machine M} : Prop :=
  forall (k : Kernel M) (i : Z) (t : Task),
    slot (tasks k) i = Some t -> state t = TASK_STOP ->
    exists t', slot (tasks (sched_yield k)) i = Some t' /\ state t' = TASK_STOP.

(** ** Further notions *)

(** The kernel state a piece of code ends in, however it ends. *)
Definition outcome_state {S A : Type} (o : outcome S A) : S :=
  match o with
  | Done _ s => s
  | Panic _ s => s
  | Fault s => s
  end.

(** The number of slots in state FREE or STOP. *)
Definition count_free (ts : list Task) : Z :=
  Z.of_nat (length (filter (fun t => free_or_stop (state t) = true) ts)).

(** Every slot that was ever claimed holds its own index as [task_id]. *)
Definition ids_ok (ts : list Task) : Prop :=
  forall i t, slot ts i = Some t -> state t <> TASK_FREE -> task_id t = i.

(** [n] calls of [task_create] in a row, each of them successful, lead
    from [k] to [k']. *)
Inductive creations {M : Type} `{Machine M} (cfg : Config) :
  nat -> Kernel M -> Kernel M -> Prop :=
| creations_none k : creations cfg 0 k k
| creations_more n k k1 k2 id :
    task_create cfg k = Done id k1 -> id <> -1 ->
    creations cfg n k1 k2 -> creations cfg (S n) k k2.

(** The task [task_init] leaves in slot 0, with page directory [pd]. *)
Definition boot_task (cfg : Config) (pd : Z) : Task :=
  mkTask 0 (-1) (tf_set_eip (initial_tf cfg) (to_uint32 (user_entry cfg)))
         (TIME_QUANT cfg) TASK_RUNNING pd.

(** The scheduler keeps the slots of the table, turns no live slot into a
    FREE or STOP one and no FREE or STOP slot into a live one, and leaves
    the current task pointer inside the table. *)
Record sched_keeps_slots (M : Type) `{Machine M} : Prop := {
  sched_length : forall k : Kernel M,
    length (tasks (sched_yield k)) = length (tasks k);
  sched_free_or_stop : forall (k : Kernel M) i t,
    slot (tasks k) i = Some t ->
    exists t', slot (tasks (sched_yield k)) i = Some t' /\
               free_or_stop (state t') = free_or_stop (state t);
  sched_cur_ok : forall k : Kernel M, cur_ok k -> cur_ok (sched_yield k)
}.

(** The characters [do_puts str len] reads, when the memory is [m]. *)
Definition chars_at {M : Type} `{Machine M} (str len : Z) (m : M) : list Z :=
  (fun j => load_char (to_uint32 (str + j)) m) <$> seqZ 0 len.

(** Two trap frames hold the same value in every field other than
    [tf_regs.reg_eax]. *)
Definition same_but_eax (a b : Trapframe) : Prop :=
  reg_edi (tf_regs a) = reg_edi (tf_regs b) /\
  reg_esi (tf_regs a) = reg_esi (tf_regs b) /\
  reg_ebp (tf_regs a) = reg_ebp (tf_regs b) /\
  reg_oesp (tf_regs a) = reg_oesp (tf_regs b) /\
  reg_ebx (tf_regs a) = reg_ebx (tf_regs b) /\
  reg_edx (tf_regs a) = reg_edx (tf_regs b) /\
  reg_ecx (tf_regs a) = reg_ecx (tf_regs b) /\
  tf_es a = tf_es b /\ tf_ds a = tf_ds b /\
  tf_trapno a = tf_trapno b /\ tf_err a = tf_err b /\
  tf_eip a = tf_eip b /\ tf_cs a = tf_cs b /\
  tf_eflags a = tf_eflags b /\ tf_esp a = tf_esp b /\ tf_ss a = tf_ss b.

(** The globals other than [tasks], [cur_task] and the machine hold the
    same values in both kernels: the TSS, its descriptor and the four
    section sizes. *)
Definition same_globals {M} (k k' : Kernel M) : Prop :=
  tss k' = tss k /\ gdt_tss0 k' = gdt_tss0 k /\
  UTEXT_SZ k' = UTEXT_SZ k /\ UDATA_SZ k' = UDATA_SZ k /\
  UBSS_SZ k' = UBSS_SZ k /\ URODATA_SZ k' = URODATA_SZ k.

(** ** A machine without page tables

    Modelled from the spec: the collaborators of its section 6 once more,
    for a machine on which [page_insert] cannot allocate a page table: it
    leaves the machine as it is (the kernel code ignores its result), and
    [page_lookup] finds nothing.  The machine is its console output; the
    memory holds at every address the low byte of the address. *)

Module Bare.

Definition machine : Type := list Z.

#[global] Instance bare_machine : Machine machine := {
  setupkvm := fun m => (0xF0100000, m);
  page_alloc := fun _ m => (0xF0200000, m);
  page_insert := fun _ _ _ _ m => m;
  page_lookup := fun _ _ _ => NULL;
  page_remove := fun _ _ m => m;
  ptable_remove := fun _ m => m;
  pgdir_remove := fun _ m => m;
  setupvm := fun _ _ _ m => m;
  page2kva := fun pp => pp;
  PADDR := fun kva => kva - 0xF0000000;
  kern_pgdir := fun _ => 0xF0001000;
  memcpy := fun _ _ _ m => m;
  load_char := fun a _ => a mod 256;
  lcr3 := fun _ m => m;
  lgdt := fun m => m;
  lldt := fun _ m => m;
  ltr := fun _ m => m;
  k_putch := fun c m => m ++ [c];
  k_getc := fun m => (-1, m);
  printk := fun _ m => m;
  cprintf := fun _ m => m;
  sys_get_num_free_page := fun _ => 0;
  sys_get_num_used_page := fun _ => 0;
  sys_get_ticks := fun _ => 0;
  sys_settextcolor := fun _ _ m => m;
  sys_cls := fun m => m;
  sched_yield := fun k => k
}.

(** A kernel with the given table and current task, and an empty
    console. *)
Definition kernel_of (ts : list Task) (cur : option Z) : Kernel machine :=
  mkKernel ts cur zero_tss (mkSegdesc 0 0 0 0 0) 0 0 0 0 [].

(** Task 0 runs, slot 1 is stopped, slot 2 is runnable. *)
Definition plain : Kernel machine := kernel_of Sim.table_with_stop (Some 0).

End Bare.

(** ** More inputs for the simulated machine *)

Module Inputs.

(** Slot 0 is stopped and task 1 runs. *)
Definition zero_stopped : Kernel Sim.machine :=
  Sim.kernel_of [Sim.task_in TASK_STOP 0; Sim.task_in TASK_RUNNING 1;
                 Sim.task_in TASK_SLEEP 2] (Some 1) 10.

(** Three free slots, no current task and nine frames, and the kernels
    after one, two and three creations. *)
Definition empty : Kernel Sim.machine := Sim.boot 3 9.
Definition one : Kernel Sim.machine := Sim.final (task_create Sim.cfg3 empty).
Definition two : Kernel Sim.machine := Sim.final (task_create Sim.cfg3 one).
Definition three : Kernel Sim.machine := Sim.final (task_create Sim.cfg3 two).

(** Task 0 runs and tasks 1 and 2 are runnable, and the kernel after task
    1 was killed. *)
Definition busy : Kernel Sim.machine :=
  Sim.kernel_of [Sim.task_in TASK_RUNNING 0; Sim.task_in TASK_RUNNABLE 1;
                 Sim.task_in TASK_RUNNABLE 2] (Some 0) 10.
Definition busy_killed : Kernel Sim.machine :=
  Sim.final (sys_kill Sim.cfg3 1 busy).

(** The frame of a task that trapped for a fork: the call number 3 in
    [reg_eax], and a different value in every other register. *)
Definition trap_frame : Trapframe :=
  mkTrapframe (mkPushRegs 0x11 0x12 0x13 0x14 0x15 0x16 0x17 3)
              0x23 0x23 0x30 0 0x800123 0x1b 0x202 0xeebfdf80 0x23.

(** The kernel after boot, once task 0 has run and trapped for a fork:
    slot 0 holds the frame of the trap.  Then the kernel after the fork. *)
Definition trapped (frames : Z) : Kernel Sim.machine :=
  set_tasks (alter (set_tf trap_frame) 0%nat (tasks (Sim.booted frames)))
            (Sim.booted frames).
Definition trapped_forked (frames : Z) : Kernel Sim.machine :=
  Sim.final (sys_fork Sim.cfg3 (trapped frames)).

(** Task 0 as it is in slot 0 then, and the child the fork leaves in slot
    1: the frame of the trap with 0 in [reg_eax]. *)
Definition trapped_task0 : Task :=
  mkTask 0 (-1) trap_frame 100 TASK_RUNNING (Sim.KERNBASE + 0x100000).
Definition child_frame : Trapframe :=
  mkTrapframe (mkPushRegs 0x11 0x12 0x13 0x14 0x15 0x16 0x17 0)
              0x23 0x23 0x30 0 0x800123 0x1b 0x202 0xeebfdf80 0x23.
Definition forked_child : Task :=
  mkTask 1 0 child_frame 100 TASK_RUNNABLE (Sim.KERNBASE + 0x103000).

End Inputs.

(** * Proofs *)

(** ** Slots *)

Lemma slot_range (ts : list Task) i t :
  slot ts i = Some t -> 0 <= i < Z.of_nat (length ts).
Proof.
  unfold slot. destruct (0 <=? i) eqn:E; [|discriminate].
  intros L. apply lookup_lt_Some in L. lia.
Qed.

Lemma slot_exists (ts : list Task) i :
  0 <= i < Z.of_nat (length ts) -> is_Some (slot ts i).
Proof.
  intros R. unfold slot. destruct (0 <=? i) eqn:E; [|lia].
  apply lookup_lt_is_Some. lia.
Qed.

Lemma slot_insert_eq (ts : list Task) i t0 t :
  slot ts i = Some t0 -> slot (<[Z.to_nat i := t]> ts) i = Some t.
Proof.
  intros L. pose proof (slot_range _ _ _ L) as R.
  unfold slot. destruct (0 <=? i) eqn:E; [|lia].
  apply list_lookup_insert_eq. lia.
Qed.

Lemma slot_insert_ne (ts : list Task) i j t :
  0 <= i -> i <> j -> slot (<[Z.to_nat i := t]> ts) j = slot ts j.
Proof.
  intros R N. unfold slot. destruct (0 <=? j) eqn:E; [|reflexivity].
  apply list_lookup_insert_ne. lia.
Qed.

Lemma free_or_stop_true s :
  free_or_stop s = true <-> s = TASK_FREE \/ s = TASK_STOP.
Proof. destruct s; cbn; intuition congruence. Qed.

(** ** Counting states *)

Lemma count_state_insert s (ts : list Task) (n : nat) old new :
  ts !! n = Some old ->
  count_state s (<[n := new]> ts)
  = count_state s ts
    - (if state_eqb (state old) s then 1 else 0)
    + (if state_eqb (state new) s then 1 else 0).
Proof.
  unfold count_state. revert n.
  induction ts as [|a ts IH]; intros [|n] L; try discriminate.
  - injection L as ->.
    change (<[0%nat := new]> (old :: ts)) with (new :: ts).
    rewrite !filter_cons.
    destruct (state_eqb (state new) s); destruct (state_eqb (state old) s);
      repeat case_decide; try congruence; cbn [length];
      rewrite ?Nat2Z.inj_succ; lia.
  - change ((a :: ts) !! S n) with (ts !! n) in L. specialize (IH n L).
    change (<[S n := new]> (a :: ts)) with (a :: <[n := new]> ts).
    rewrite !filter_cons.
    case_decide; cbn [length]; rewrite ?Nat2Z.inj_succ, IH; lia.
Qed.

(** ** Running the monad *)

Section Run.

Context {M : Type} `{Machine M}.
Variable cfg : Config.

Lemma run_bind {A B} (c : kern M A) (f : A -> kern M B) k a k' :
  c k = Done a k' -> bind c f k = f a k'.
Proof. intros E. unfold bind. now rewrite E. Qed.

Lemma run_get_task (k : Kernel M) i t :
  slot (tasks k) i = Some t -> get_task i k = Done t k.
Proof. intros E. unfold get_task. now rewrite E. Qed.

Lemma run_modify_task (k : Kernel M) i t f :
  slot (tasks k) i = Some t ->
  modify_task i f k = Done tt (set_tasks (<[Z.to_nat i := f t]> (tasks k)) k).
Proof. intros E. unfold modify_task. now rewrite E. Qed.

(** The scan does not change the kernel; with enough fuel it stops at the
    first FREE or STOP slot at or after [i], or at the end of the table. *)
Lemma find_free_inv fuel : forall i (k k' : Kernel M) r,
  0 <= i -> (Z.to_nat (NR_TASKS cfg - i) < fuel)%nat ->
  find_free cfg fuel i k = Done r k' ->
  k' = k /\ i <= r /\
  (forall j u, i <= j < r -> slot (tasks k) j = Some u ->
               free_or_stop (state u) = false) /\
  (r < NR_TASKS cfg ->
     exists u, slot (tasks k) r = Some u /\ free_or_stop (state u) = true) /\
  (NR_TASKS cfg <= r -> r = Z.max i (NR_TASKS cfg)).
Proof.
  induction fuel as [|fuel IH]; intros i k k' r Hi Hf E; [lia|].
  cbn [find_free] in E.
  destruct (i <? NR_TASKS cfg) eqn:Lt.
  - apply Z.ltb_lt in Lt. unfold bind in E.
    unfold get_task in E. destruct (slot (tasks k) i) as [t|] eqn:S; [|discriminate].
    destruct (free_or_stop (state t)) eqn:F.
    + injection E as <- <-. repeat split; try lia; eauto.
    + apply IH in E; [|lia|lia].
      destruct E as (-> & Hr & Hlow & Hfree & Hend).
      repeat split; try lia; auto.
      intros j u Hj Sj. destruct (Z.eq_dec j i) as [->|Ne].
      * congruence.
      * apply (Hlow j u); [lia|assumption].
  - apply Z.ltb_ge in Lt. injection E as <- <-.
    repeat split; try lia.
Qed.

(** On a table with all its slots the scan returns. *)
Lemma find_free_total fuel : forall i (k : Kernel M),
  0 <= i ->
  (forall j, i <= j < NR_TASKS cfg -> is_Some (slot (tasks k) j)) ->
  exists r, find_free cfg fuel i k = Done r k.
Proof.
  induction fuel as [|fuel IH]; intros i k Hi Hs; [eexists; reflexivity|].
  cbn [find_free]. destruct (i <? NR_TASKS cfg) eqn:Lt; [|eexists; reflexivity].
  apply Z.ltb_lt in Lt. destruct (Hs i) as [t S]; [lia|].
  rewrite (run_bind _ _ _ _ _ (run_get_task _ _ _ S)).
  destruct (free_or_stop (state t)); [eexists; reflexivity|].
  apply IH; [lia|]. intros j Hj. apply Hs. lia.
Qed.

Lemma run_exec (f : M -> M) (k : Kernel M) :
  exec f k = Done tt (set_mach (f (mach k)) k).
Proof. reflexivity. Qed.

Lemma run_call {A} (f : M -> A * M) (k : Kernel M) a m :
  f (mach k) = (a, m) -> call f k = Done a (set_mach m k).
Proof. intros E. unfold call. now rewrite E. Qed.

Lemma run_ask {A} (f : M -> A) (k : Kernel M) :
  ask f k = Done (f (mach k)) k.
Proof. reflexivity. Qed.

Lemma run_get_cur_task (k : Kernel M) :
  get_cur_task k = Done (cur_task k) k.
Proof. reflexivity. Qed.

Lemma bind_assoc {A B C} (c : kern M A) (f : A -> kern M B) (g : B -> kern M C) k :
  bind (bind c f) g k = bind c (fun x => bind (f x) g) k.
Proof. unfold bind. destruct (c k); reflexivity. Qed.

End Run.

(** One statement of the code is run: [E] states what it does. *)
Ltac step E := rewrite (run_bind _ _ _ _ _ E); cbv beta.

(** The same for a read or a write of slot [i], which holds what [S] says. *)
Ltac step_get S :=
  match goal with
  | |- context [bind (get_task ?i) ?f ?k] =>
      rewrite (run_bind (get_task i) f k _ _ (run_get_task k i _ S)); cbv beta
  end.
Ltac step_exec :=
  match goal with
  | |- context [bind (exec ?g) ?f ?k] =>
      rewrite (run_bind (exec g) f k _ _ (run_exec g k)); cbv beta
  end.
Ltac step_ask :=
  match goal with
  | |- context [bind (ask ?g) ?f ?k] =>
      rewrite (run_bind (ask g) f k _ _ (run_ask g k)); cbv beta
  end.
Ltac step_read :=
  match goal with
  | |- context [bind (read ?g) ?f ?k] =>
      rewrite (run_bind (read g) f k _ _ (eq_refl (Done (g k) k))); cbv beta
  end.
Ltac step_update :=
  match goal with
  | |- context [bind (update ?g) ?f ?k] =>
      rewrite (run_bind (update g) f k _ _ (eq_refl (Done tt (g k)))); cbv beta
  end.
Ltac step_cur :=
  match goal with
  | |- context [bind get_cur_task ?f ?k] =>
      rewrite (run_bind get_cur_task f k _ _ (run_get_cur_task k)); cbv beta
  end.
Ltac step_modify S :=
  match goal with
  | |- context [bind (modify_task ?i ?g) ?f ?k] =>
      rewrite (run_bind (modify_task i g) f k _ _ (run_modify_task k i _ g S));
      cbv beta
  end.

Ltac norm :=
  cbn [set_tasks set_mach set_cur_task set_tss set_gdt_tss0 set_sizes
       tasks cur_task tss gdt_tss0 UTEXT_SZ UDATA_SZ UBSS_SZ URODATA_SZ mach];
  rewrite ?list_insert_insert_eq;
  cbn [set_task_id set_parent_id set_tf set_remind_ticks set_state set_pgdir
       task_id parent_id tf remind_ticks state pgdir
       tf_set_eax tf_set_eip tf_set_cs tf_set_ds tf_set_es tf_set_ss tf_set_esp
       set_eax tf_regs tf_es tf_ds tf_trapno tf_err tf_eip tf_cs tf_eflags
       tf_esp tf_ss zero_tf].

Ltac step_again S :=
  match goal with
  | |- context [bind (modify_task ?i ?g) ?f ?k] =>
      match k with
      | context [<[Z.to_nat i := ?x]> ?l] =>
          rewrite (run_bind (modify_task i g) f k _ _
                     (run_modify_task k i x g (slot_insert_eq l i _ x S)));
          cbv beta; norm
      end
  end.
Ltac step_get_again S :=
  match goal with
  | |- context [bind (get_task ?i) ?f ?k] =>
      match k with
      | context [<[Z.to_nat i := ?x]> ?l] =>
          rewrite (run_bind (get_task i) f k _ _
                     (run_get_task k i x (slot_insert_eq l i _ x S)));
          cbv beta; norm
      end
  end.

(** ** Creation *)

Section Create.

Context {M : Type} `{Machine M}.
Variable cfg : Config.

(** The user-stack loops: the table is only read. *)
Lemma alloc_ustack_run id ts : forall vas (k : Kernel M),
  slot (tasks k) id = Some ts ->
  alloc_ustack cfg id vas k
  = Done (fst (map_ustack cfg (pgdir ts) vas (mach k)))
         (set_mach (snd (map_ustack cfg (pgdir ts) vas (mach k))) k).
Proof.
  induction vas as [|va vas IH]; intros k S.
  - destruct k; reflexivity.
  - cbn [alloc_ustack map_ustack].
    destruct (page_alloc 1 (mach k)) as [pp m1] eqn:A.
    step (run_call _ _ _ _ A).
    destruct (negb (pp =? NULL)); [|reflexivity].
    step_get S.
    step_exec.
    rewrite IH by exact S. reflexivity.
Qed.

Lemma remove_ustack_run pid ts : forall vas (k : Kernel M),
  slot (tasks k) pid = Some ts ->
  remove_ustack pid vas k
  = Done tt (set_mach (unmap_ustack (pgdir ts) vas (mach k)) k).
Proof.
  induction vas as [|va vas IH]; intros k S.
  - destruct k; reflexivity.
  - cbn [remove_ustack].
    step_get S.
    step_exec.
    rewrite IH by exact S. reflexivity.
Qed.

Lemma copy_ustack_run pid ts : forall vas (k : Kernel M),
  slot (tasks k) pid = Some ts ->
  copy_ustack cfg pid vas k
  = Done (fst (copy_pages cfg (pgdir ts) vas (mach k)))
         (set_mach (snd (copy_pages cfg (pgdir ts) vas (mach k))) k).
Proof.
  induction vas as [|va vas IH]; intros k S.
  - destruct k; reflexivity.
  - cbn [copy_ustack copy_pages].
    step_get S.
    step_ask.
    destruct (negb (page_lookup (pgdir ts) va (mach k) =? NULL)); [|destruct k; reflexivity].
    step_exec.
    rewrite IH by exact S. reflexivity.
Qed.


Lemma task_create_at_ok (k : Kernel M) i t0 pd m1 m2 :
  find_free cfg (S (Z.to_nat (NR_TASKS cfg))) 0 k = Done i k ->
  i < NR_TASKS cfg ->
  slot (tasks k) i = Some t0 ->
  setupkvm (mach k) = (pd, m1) ->
  pd <> NULL ->
  map_ustack cfg pd (ustack_vas cfg) (printk (Msg_pgdir_num (PADDR pd)) m1) = (true, m2) ->
  cur_ok k ->
  task_create cfg k
  = Done i (set_tasks (<[Z.to_nat i := created_task cfg k i pd]> (tasks k)) (set_mach m2 k)).
Proof.
  intros Hscan Hlt S Hkvm Hpd Hmap Hcur.
  unfold task_create. step Hscan.
  destruct (i >=? NR_TASKS cfg) eqn:Ge; [lia|].
  step (run_call _ _ _ _ Hkvm).
  step_modify S.
  destruct (pd =? NULL) eqn:Epd; [lia|].
  norm.
  step_get_again S. step_exec. norm.
  match goal with |- context [bind (alloc_ustack cfg i ?v) ?f ?k0] =>
    rewrite (run_bind _ f k0 _ _ (alloc_ustack_run i _ v k0 (slot_insert_eq _ i _ _ S)))
  end.
  cbv beta. norm. cbn [pgdir set_pgdir]. rewrite Hmap. cbn [fst snd negb].
  do 7 step_again S.
  step_cur. norm.
  unfold created_task, parent_for, initial_tf.
  destruct (cur_task k) as [c|] eqn:Ec.
  - destruct (Z.eq_dec c i) as [->|Ne].
    + rewrite Z.eqb_refl, bind_assoc. step_get_again S. do 3 step_again S. step_get_again S.
      reflexivity.
    + destruct (Hcur c Ec) as [p Sp].
      apply Z.eqb_neq in Ne as Ne'. rewrite Ne', Sp, bind_assoc.
      pose proof (slot_range _ _ _ S) as R.
      match goal with |- context [bind (get_task c) ?f ?k0] =>
        assert (Sp' : slot (tasks k0) c = Some p)
          by (norm; rewrite slot_insert_ne by lia; exact Sp);
        rewrite (run_bind (get_task c) f k0 _ _ (run_get_task k0 c p Sp'))
      end.
      cbv beta. do 3 step_again S. step_get_again S. reflexivity.
  - do 3 step_again S. step_get_again S. reflexivity.
Qed.

(** The scan as [task_create] starts it. *)
Lemma find_free_top (k k' : Kernel M) r :
  find_free cfg (S (Z.to_nat (NR_TASKS cfg))) 0 k = Done r k' ->
  k' = k /\ 0 <= r /\
  (forall j u, 0 <= j < r -> slot (tasks k) j = Some u ->
               free_or_stop (state u) = false) /\
  (r < NR_TASKS cfg ->
     exists u, slot (tasks k) r = Some u /\ free_or_stop (state u) = true) /\
  (NR_TASKS cfg <= r -> r = Z.max 0 (NR_TASKS cfg)).
Proof. apply find_free_inv; lia. Qed.

Lemma task_create_at_panic (k : Kernel M) i t0 m1 :
  find_free cfg (S (Z.to_nat (NR_TASKS cfg))) 0 k = Done i k ->
  i < NR_TASKS cfg ->
  slot (tasks k) i = Some t0 ->
  setupkvm (mach k) = (NULL, m1) ->
  task_create cfg k
  = Panic Panic_no_pgdir
      (set_tasks (<[Z.to_nat i := set_pgdir NULL t0]> (tasks k)) (set_mach m1 k)).
Proof.
  intros Hscan Hlt S Hkvm.
  unfold task_create. step Hscan.
  destruct (i >=? NR_TASKS cfg) eqn:Ge; [lia|].
  step (run_call _ _ _ _ Hkvm).
  step_modify S. reflexivity.
Qed.

Lemma task_create_at_nomem (k : Kernel M) i t0 pd m1 m2 :
  find_free cfg (S (Z.to_nat (NR_TASKS cfg))) 0 k = Done i k ->
  i < NR_TASKS cfg ->
  slot (tasks k) i = Some t0 ->
  setupkvm (mach k) = (pd, m1) ->
  pd <> NULL ->
  map_ustack cfg pd (ustack_vas cfg) (printk (Msg_pgdir_num (PADDR pd)) m1) = (false, m2) ->
  task_create cfg k
  = Done (-1) (set_tasks (<[Z.to_nat i := set_pgdir pd t0]> (tasks k)) (set_mach m2 k)).
Proof.
  intros Hscan Hlt S Hkvm Hpd Hmap.
  unfold task_create. step Hscan.
  destruct (i >=? NR_TASKS cfg) eqn:Ge; [lia|].
  step (run_call _ _ _ _ Hkvm).
  step_modify S.
  destruct (pd =? NULL) eqn:Epd; [lia|].
  norm.
  step_get_again S. step_exec. norm.
  match goal with |- context [bind (alloc_ustack cfg i ?v) ?f ?k0] =>
    rewrite (run_bind _ f k0 _ _ (alloc_ustack_run i _ v k0 (slot_insert_eq _ i _ _ S)))
  end.
  cbv beta. norm. rewrite Hmap. reflexivity.
Qed.

Lemma task_create_at_bad_cur (k : Kernel M) i t0 pd m1 m2 c :
  find_free cfg (S (Z.to_nat (NR_TASKS cfg))) 0 k = Done i k ->
  i < NR_TASKS cfg ->
  slot (tasks k) i = Some t0 ->
  setupkvm (mach k) = (pd, m1) ->
  pd <> NULL ->
  map_ustack cfg pd (ustack_vas cfg) (printk (Msg_pgdir_num (PADDR pd)) m1) = (true, m2) ->
  cur_task k = Some c -> slot (tasks k) c = None ->
  exists k', task_create cfg k = Fault k'.
Proof.
  intros Hscan Hlt S Hkvm Hpd Hmap Ec Sc.
  unfold task_create. step Hscan.
  destruct (i >=? NR_TASKS cfg) eqn:Ge; [lia|].
  step (run_call _ _ _ _ Hkvm).
  step_modify S.
  destruct (pd =? NULL) eqn:Epd; [lia|].
  norm.
  step_get_again S. step_exec. norm.
  match goal with |- context [bind (alloc_ustack cfg i ?v) ?f ?k0] =>
    rewrite (run_bind _ f k0 _ _ (alloc_ustack_run i _ v k0 (slot_insert_eq _ i _ _ S)))
  end.
  cbv beta. norm. rewrite Hmap. cbn [fst snd negb].
  do 7 step_again S.
  step_cur. norm. rewrite Ec, bind_assoc.
  pose proof (slot_range _ _ _ S) as R.
  assert (c <> i) by congruence.
  unfold bind at 1, get_task at 1. norm.
  rewrite slot_insert_ne by lia. rewrite Sc. eexists; reflexivity.
Qed.

Lemma task_create_at_end (k : Kernel M) i :
  find_free cfg (S (Z.to_nat (NR_TASKS cfg))) 0 k = Done i k ->
  NR_TASKS cfg <= i ->
  task_create cfg k = Done (-1) k.
Proof.
  intros Hscan Hge. unfold task_create. step Hscan.
  destruct (i >=? NR_TASKS cfg) eqn:Ge; [reflexivity|lia].
Qed.

(** What a successful [task_create] did. *)
Lemma task_create_inv (k k' : Kernel M) r :
  task_create cfg k = Done r k' -> r <> -1 ->
  exists t0 pd m1 m2,
    0 <= r < NR_TASKS cfg /\
    lowest_free (tasks k) r t0 /\
    setupkvm (mach k) = (pd, m1) /\ pd <> NULL /\
    map_ustack cfg pd (ustack_vas cfg) (printk (Msg_pgdir_num (PADDR pd)) m1)
    = (true, m2) /\
    cur_ok k /\
    k' = set_tasks (<[Z.to_nat r := created_task cfg k r pd]> (tasks k))
                   (set_mach m2 k).
Proof.
  intros E Hr.
  destruct (find_free cfg (S (Z.to_nat (NR_TASKS cfg))) 0 k) as [i k0|w k0|k0] eqn:Hscan;
    try (unfold task_create, bind in E; rewrite Hscan in E; discriminate).
  destruct (find_free_top _ _ _ Hscan)
    as (-> & Hi & Hlow & Hfree & Hend).
  destruct (Z_lt_le_dec i (NR_TASKS cfg)) as [Lt|Ge].
  2:{ rewrite (task_create_at_end _ _ Hscan Ge) in E. congruence. }
  destruct (Hfree Lt) as (t0 & S & F).
  destruct (setupkvm (mach k)) as [pd m1] eqn:Hkvm.
  destruct (Z.eq_dec pd NULL) as [->|Hpd].
  { rewrite (task_create_at_panic _ _ _ _ Hscan Lt S Hkvm) in E. discriminate. }
  destruct (map_ustack cfg pd (ustack_vas cfg) (printk (Msg_pgdir_num (PADDR pd)) m1))
    as [[|] m2] eqn:Hmap.
  2:{ rewrite (task_create_at_nomem _ _ _ _ _ _ Hscan Lt S Hkvm Hpd Hmap) in E.
      congruence. }
  assert (Hcur : cur_ok k).
  { intros c Ec. destruct (slot (tasks k) c) eqn:Sc; [eauto|].
    destruct (task_create_at_bad_cur _ _ _ _ _ _ _ Hscan Lt S Hkvm Hpd Hmap Ec Sc)
      as [k1 E1]. congruence. }
  rewrite (task_create_at_ok _ _ _ _ _ _ Hscan Lt S Hkvm Hpd Hmap Hcur) in E.
  injection E as <- <-.
  exists t0, pd, m1, m2. unfold lowest_free. repeat split; auto; lia.
Qed.

(** On a table with all its slots, the scan finds the lowest free slot. *)
Lemma find_free_lowest (k : Kernel M) i t0 :
  table_ok cfg (tasks k) -> lowest_free (tasks k) i t0 ->
  find_free cfg (S (Z.to_nat (NR_TASKS cfg))) 0 k = Done i k /\ i < NR_TASKS cfg.
Proof.
  intros Hok (S & F & Hlow).
  pose proof (slot_range _ _ _ S) as R. unfold table_ok in Hok.
  destruct (find_free_total cfg (Datatypes.S (Z.to_nat (NR_TASKS cfg))) 0 k) as [r Hscan];
    [lia| |].
  { intros j Hj. apply slot_exists. lia. }
  destruct (find_free_top _ _ _ Hscan)
    as (_ & Hr & Hlow' & Hfree & Hend).
  assert (r = i); [|subst; split; [assumption|lia]].
  destruct (Z_lt_le_dec i r) as [L|L].
  { specialize (Hlow' i t0 ltac:(lia) S). congruence. }
  destruct (Z_lt_le_dec r i) as [L'|L']; [|lia].
  destruct (Hfree ltac:(lia)) as (u & Su & Fu).
  specialize (Hlow r u ltac:(lia) Su). congruence.
Qed.

(** On a full table with all its slots, the scan reaches the end. *)
Lemma find_free_full (k : Kernel M) :
  table_ok cfg (tasks k) -> table_full (tasks k) ->
  exists i, find_free cfg (S (Z.to_nat (NR_TASKS cfg))) 0 k = Done i k /\
            NR_TASKS cfg <= i.
Proof.
  intros Hok Hfull. unfold table_ok in Hok.
  destruct (find_free_total cfg (Datatypes.S (Z.to_nat (NR_TASKS cfg))) 0 k) as [r Hscan];
    [lia| |].
  { intros j Hj. apply slot_exists. lia. }
  exists r. split; [assumption|].
  destruct (find_free_top _ _ _ Hscan)
    as (_ & Hr & Hlow' & Hfree & Hend).
  destruct (Z_lt_le_dec r (NR_TASKS cfg)) as [L|L]; [|lia].
  destruct (Hfree L) as (u & Su & Fu).
  specialize (Hfull r u Su). congruence.
Qed.

Lemma task_create_full (k : Kernel M) :
  table_ok cfg (tasks k) -> table_full (tasks k) ->
  task_create cfg k = Done (-1) k.
Proof.
  intros Hok Hfull. destruct (find_free_full k Hok Hfull) as (i & Hscan & Hge).
  exact (task_create_at_end _ _ Hscan Hge).
Qed.

(** The scan, started at or below the lowest FREE or STOP slot, stops at
    that slot when it is below [NR_TASKS]. *)
Lemma find_free_reaches fuel : forall j (k : Kernel M) i t0,
  0 <= j <= i -> i < NR_TASKS cfg -> (Z.to_nat (i - j) < fuel)%nat ->
  lowest_free (tasks k) i t0 ->
  find_free cfg fuel j k = Done i k.
Proof.
  induction fuel as [|fuel IH]; intros j k i t0 Hj Hi Hf Hlow; [lia|].
  cbn [find_free]. destruct (j <? NR_TASKS cfg) eqn:L; [|lia].
  pose proof Hlow as (S & F & Hmin).
  destruct (Z.eq_dec j i) as [->|Ne].
  - step_get S. now rewrite F.
  - pose proof (slot_range _ _ _ S) as R.
    destruct (slot_exists (tasks k) j ltac:(lia)) as [u Su].
    step_get Su. rewrite (Hmin j u ltac:(lia) Su).
    apply (IH (j + 1) k i t0); [lia|lia|lia|assumption].
Qed.

End Create.

(** ** Fork *)

Section Fork.

Context {M : Type} `{Machine M}.
Variable cfg : Config.

(** [sys_fork] after a creation that returned [pid], which slot [created]
    now holds, with [parent] the current task. *)
Lemma sys_fork_after_create (k k1 : Kernel M) c pid created parent :
  cur_task k = Some c ->
  task_create cfg k = Done pid k1 ->
  pid <> 0 ->
  slot (tasks k1) pid = Some created ->
  slot (tasks k1) c = Some parent ->
  sys_fork cfg k
  = let r := copy_pages cfg (pgdir created) (ustack_vas cfg) (mach k1) in
    if fst r then
      Done pid
        (set_tasks
           (<[Z.to_nat pid := set_tf (tf_set_eax (tf parent) 0) created]> (tasks k1))
           (set_mach
              (setupvm (pgdir created) (URODATA_start cfg) (URODATA_SZ k1)
                 (setupvm (pgdir created) (UBSS_start cfg) (UBSS_SZ k1)
                    (setupvm (pgdir created) (UDATA_start cfg) (UDATA_SZ k1)
                       (setupvm (pgdir created) (UTEXT_start cfg) (UTEXT_SZ k1)
                          (snd r))))) k1))
    else
      Done (-1)
        (set_tasks (<[Z.to_nat pid := set_tf (tf parent) created]> (tasks k1))
                   (set_mach (snd r) k1)).
Proof.
  intros Ec Hcreate Hpid Sc Sp.
  unfold sys_fork. step_cur. rewrite Ec. step Hcreate.
  destruct (Z.eqb_spec pid 0) as [->|_]; [congruence|].
  step_get Sp. step_modify Sc. norm.
  match goal with |- context [bind (copy_ustack cfg pid ?v) ?f ?k0] =>
    rewrite (run_bind _ f k0 _ _ (copy_ustack_run cfg pid _ v k0 (slot_insert_eq _ pid _ _ Sc)))
  end.
  cbv beta. norm.
  destruct (copy_pages cfg (pgdir created) (ustack_vas cfg) (mach k1)) as [[|] m'];
    cbn [fst snd negb]; [|reflexivity].
  step_get_again Sc. step_read.
  norm. step_exec. norm.
  step_get_again Sc. step_read.
  norm. step_exec. norm.
  step_get_again Sc. step_read.
  norm. step_exec. norm.
  step_get_again Sc. step_read.
  norm. step_exec. norm.
  step_again Sc. reflexivity.
Qed.

(** When the creation returns -1, [sys_fork] goes on to [tasks[-1]]. *)
Lemma sys_fork_create_failed (k k1 : Kernel M) c :
  cur_task k = Some c ->
  task_create cfg k = Done (-1) k1 ->
  sys_fork cfg k = Fault k1.
Proof.
  intros Ec Hcreate.
  unfold sys_fork. step_cur. rewrite Ec. step Hcreate.
  change (-1 =? 0) with false. cbv iota.
  unfold bind, get_task, modify_task.
  destruct (slot (tasks k1) c); reflexivity.
Qed.

(** When the creation returns 0, [sys_fork] returns -1. *)
Lemma sys_fork_create_zero (k k1 : Kernel M) c :
  cur_task k = Some c ->
  task_create cfg k = Done 0 k1 ->
  sys_fork cfg k = Done (-1) k1.
Proof.
  intros Ec Hcreate.
  unfold sys_fork. step_cur. rewrite Ec. step Hcreate. reflexivity.
Qed.

Lemma sys_fork_create_stops (k : Kernel M) c :
  cur_task k = Some c ->
  (forall r k1, task_create cfg k <> Done r k1) ->
  forall r k1, sys_fork cfg k <> Done r k1.
Proof.
  intros Ec Hcreate r k1.
  unfold sys_fork. step_cur. rewrite Ec. unfold bind at 1.
  destruct (task_create cfg k) as [r' k'| |]; try discriminate.
  exfalso. eapply Hcreate. reflexivity.
Qed.

(** What a successful [sys_fork] did. *)
Lemma sys_fork_inv (k k' : Kernel M) c pid :
  cur_task k = Some c ->
  sys_fork cfg k = Done pid k' -> pid <> -1 ->
  exists t0 pd m1 m2 parent,
    0 < pid < NR_TASKS cfg /\
    lowest_free (tasks k) pid t0 /\
    setupkvm (mach k) = (pd, m1) /\ pd <> NULL /\
    map_ustack cfg pd (ustack_vas cfg) (printk (Msg_pgdir_num (PADDR pd)) m1)
    = (true, m2) /\
    cur_ok k /\
    slot (<[Z.to_nat pid := created_task cfg k pid pd]> (tasks k)) c = Some parent /\
    tasks k'
    = <[Z.to_nat pid := set_tf (tf_set_eax (tf parent) 0) (created_task cfg k pid pd)]>
        (tasks k) /\
    cur_task k' = cur_task k.
Proof.
  intros Ec E Hpid.
  destruct (task_create cfg k) as [r k1|w k1|k1] eqn:Hcreate;
    try (exfalso; eapply (sys_fork_create_stops k c Ec); [|exact E];
         intros; rewrite Hcreate; discriminate).
  destruct (Z.eq_dec r (-1)) as [->|Hr].
  { rewrite (sys_fork_create_failed k k1 c Ec Hcreate) in E. discriminate. }
  destruct (Z.eq_dec r 0) as [->|Hr0].
  { rewrite (sys_fork_create_zero k k1 c Ec Hcreate) in E. congruence. }
  destruct (task_create_inv cfg k k1 r Hcreate Hr)
    as (t0 & pd & m1 & m2 & Hrange & Hlow & Hkvm & Hpd & Hmap & Hcur & ->).
  destruct Hlow as (S & F & Hmin).
  assert (Sc : slot (tasks (set_tasks (<[Z.to_nat r := created_task cfg k r pd]> (tasks k))
                                      (set_mach m2 k))) r
               = Some (created_task cfg k r pd)).
  { cbn [tasks set_tasks]. eapply slot_insert_eq; eassumption. }
  destruct (Hcur c Ec) as [p0 Sp0].
  assert (exists parent,
             slot (<[Z.to_nat r := created_task cfg k r pd]> (tasks k)) c = Some parent)
    as [parent Sp].
  { destruct (Z.eq_dec c r) as [->|Ne]; [eauto|].
    exists p0. rewrite slot_insert_ne by lia. assumption. }
  rewrite (sys_fork_after_create k _ c r _ parent Ec Hcreate Hr0 Sc Sp) in E.
  cbv zeta in E.
  destruct (fst (copy_pages cfg _ _ _)); [|congruence].
  injection E as <- <-.
  exists t0, pd, m1, m2, parent. cbn [tasks cur_task set_tasks set_mach].
  rewrite list_insert_insert_eq.
  unfold lowest_free. repeat split; auto; lia.
Qed.

(** [sys_fork] by a live current task, when slot [i] is the lowest FREE or
    STOP slot and the allocations and the copy of the stack succeed. *)
Lemma sys_fork_run (k : Kernel M) c p0 i t0 pd m1 m2 m3 :
  cur_task k = Some c -> slot (tasks k) c = Some p0 ->
  free_or_stop (state p0) = false ->
  lowest_free (tasks k) i t0 -> 0 < i < NR_TASKS cfg ->
  setupkvm (mach k) = (pd, m1) -> pd <> NULL ->
  map_ustack cfg pd (ustack_vas cfg) (printk (Msg_pgdir_num (PADDR pd)) m1)
  = (true, m2) ->
  copy_pages cfg pd (ustack_vas cfg) m2 = (true, m3) ->
  sys_fork cfg k
  = Done i
      (set_tasks
         (<[Z.to_nat i := set_tf (tf_set_eax (tf p0) 0) (created_task cfg k i pd)]>
            (tasks k))
         (set_mach
            (setupvm pd (URODATA_start cfg) (URODATA_SZ k)
               (setupvm pd (UBSS_start cfg) (UBSS_SZ k)
                  (setupvm pd (UDATA_start cfg) (UDATA_SZ k)
                     (setupvm pd (UTEXT_start cfg) (UTEXT_SZ k) m3)))) k)).
Proof.
  intros Ec S0 F0 Hlow Hi Hkvm Hpd Hmap Hcopy.
  assert (Hcur : cur_ok k).
  { intros c' E. rewrite Ec in E. injection E as <-. rewrite S0. eauto. }
  assert (Hscan : find_free cfg (S (Z.to_nat (NR_TASKS cfg))) 0 k = Done i k)
    by (apply (find_free_reaches cfg _ 0 k i t0); [lia|lia|lia|assumption]).
  destruct Hlow as (S & F & Hmin).
  pose proof (task_create_at_ok cfg k i t0 pd m1 m2 Hscan ltac:(lia) S Hkvm Hpd Hmap Hcur)
    as Hcreate.
  assert (Ne : c <> i) by congruence.
  pose proof (slot_range _ _ _ S) as R.
  rewrite (sys_fork_after_create k _ c i (created_task cfg k i pd) p0 Ec Hcreate
             ltac:(lia)).
  - cbv zeta. norm. cbn [pgdir created_task]. rewrite Hcopy. cbn [fst snd]. norm.
    reflexivity.
  - norm. eapply slot_insert_eq; eassumption.
  - norm. rewrite slot_insert_ne by lia. assumption.
Qed.

End Fork.

(** ** Kill and sleep *)

Section Kill.

Context {M : Type} `{Machine M}.
Variable cfg : Config.

Lemma task_free_run (k : Kernel M) pid t :
  0 < pid < NR_TASKS cfg -> slot (tasks k) pid = Some t ->
  task_free cfg pid k
  = Done tt (set_mach (free_address_space cfg (pgdir t) (mach k)) k).
Proof.
  intros R S. unfold task_free.
  destruct (0 <? pid) eqn:E1; [|lia]. destruct (pid <? NR_TASKS cfg) eqn:E2; [|lia].
  cbn [andb]. step_ask. step_exec.
  match goal with |- context [bind (remove_ustack pid ?v) ?f ?k0] =>
    rewrite (run_bind _ f k0 _ _ (remove_ustack_run pid t v k0 S))
  end.
  cbv beta. step_get S. step_exec.
  unfold bind, get_task. cbn [tasks set_mach]. rewrite S. reflexivity.
Qed.

Lemma sys_kill_run (k : Kernel M) pid t :
  0 < pid < NR_TASKS cfg -> slot (tasks k) pid = Some t ->
  free_or_stop (state t) = false ->
  sys_kill cfg pid k
  = Done tt
      (sched_yield
         (set_mach (free_address_space cfg (pgdir t) (mach k))
            (set_tasks (<[Z.to_nat pid := set_state TASK_STOP t]> (tasks k)) k))).
Proof.
  intros R S F. unfold sys_kill.
  destruct (0 <? pid) eqn:E1; [|lia]. destruct (pid <? NR_TASKS cfg) eqn:E2; [|lia].
  cbn [andb]. step_get S. rewrite F. step_modify S.
  match goal with |- context [bind (task_free cfg pid) ?f ?k0] =>
    rewrite (run_bind _ f k0 _ _
               (task_free_run k0 pid (set_state TASK_STOP t) R
                  (slot_insert_eq _ pid _ _ S)))
  end.
  reflexivity.
Qed.

Lemma sys_kill_skip (k : Kernel M) pid :
  pid <= 0 \/ NR_TASKS cfg <= pid \/
  (exists t, slot (tasks k) pid = Some t /\ free_or_stop (state t) = true) ->
  sys_kill cfg pid k = Done tt k.
Proof.
  intros C. unfold sys_kill.
  destruct ((0 <? pid) && (pid <? NR_TASKS cfg)) eqn:G; [|reflexivity].
  apply andb_true_iff in G as [G1 G2].
  destruct C as [C|[C|(t & S & F)]]; [lia|lia|].
  step_get S. now rewrite F.
Qed.

(** [sys_kill] either returns or reads a slot the table does not have. *)
Lemma sys_kill_cases (k k1 : Kernel M) pid :
  sys_kill cfg pid k = Done tt k1 ->
  k1 = k \/
  exists t, 0 < pid < NR_TASKS cfg /\ slot (tasks k) pid = Some t /\
            free_or_stop (state t) = false /\
            k1 = sched_yield
                   (set_mach (free_address_space cfg (pgdir t) (mach k))
                      (set_tasks (<[Z.to_nat pid := set_state TASK_STOP t]> (tasks k)) k)).
Proof.
  intros E.
  destruct ((0 <? pid) && (pid <? NR_TASKS cfg)) eqn:G.
  - apply andb_true_iff in G as [G1 G2].
    destruct (slot (tasks k) pid) as [t|] eqn:S.
    + destruct (free_or_stop (state t)) eqn:F.
      * rewrite sys_kill_skip in E by eauto. left. congruence.
      * rewrite (sys_kill_run k pid t) in E by (auto; lia).
        right. exists t. repeat split; try lia; congruence.
    + unfold sys_kill in E. rewrite G1, G2 in E. cbn [andb] in E.
      unfold bind, get_task in E. rewrite S in E. discriminate.
  - unfold sys_kill in E. rewrite G in E. left. unfold ret in E. congruence.
Qed.

Lemma sys_sleep_run (k : Kernel M) time c t :
  cur_task k = Some c -> slot (tasks k) c = Some t -> state t = TASK_RUNNING ->
  sys_sleep time k
  = Done 0
      (sched_yield
         (set_tasks
            (<[Z.to_nat c := set_remind_ticks (to_int32 time) (set_state TASK_SLEEP t)]>
               (tasks k)) k)).
Proof.
  intros Ec S R. unfold sys_sleep. step_cur. rewrite Ec. step_get S. rewrite R.
  cbn [state_eqb]. step_modify S. step_again S. step_update. reflexivity.
Qed.

Lemma to_int32_small z : 0 <= z < 2 ^ 31 -> to_int32 z = z.
Proof. intros R. unfold to_int32. rewrite Z.mod_small; lia. Qed.

Lemma to_int32_large z : 2 ^ 31 <= z < 2 ^ 32 -> to_int32 z = z - 2 ^ 32.
Proof.
  intros R. unfold to_int32.
  replace (z + 2 ^ 31) with (z - 2 ^ 31 + 1 * 2 ^ 32) by lia.
  rewrite Z.mod_add by lia. rewrite Z.mod_small; lia.
Qed.

End Kill.

(** ** The user-stack region *)

Lemma va_loop_pages step hi : forall (n fuel : nat) i,
  0 < step -> 0 <= i -> hi = i + Z.of_nat n * step -> hi + step <= 2 ^ 32 ->
  (Z.to_nat (hi - i) <= fuel)%nat ->
  va_loop fuel i hi step = pages_from n i step.
Proof.
  induction n as [|n IH]; intros fuel i Hstep Hi Hhi Hmax Hfuel.
  - destruct fuel as [|fuel]; [reflexivity|].
    cbn [va_loop pages_from]. destruct (i <? hi) eqn:L; [lia|reflexivity].
  - destruct fuel as [|fuel]; [nia|].
    cbn [va_loop pages_from]. destruct (i <? hi) eqn:L; [|nia].
    unfold to_uint32. rewrite Z.mod_small by nia.
    f_equal. apply IH; nia.
Qed.

Lemma ustack_vas_pages cfg : config_ok cfg -> ustack_vas cfg = ustack_pages cfg.
Proof.
  intros [Hpg Hne Hmod Hlow Hhigh]. unfold ustack_vas, ustack_pages.
  pose proof (Z.div_mod (USR_STACK_SIZE cfg) (PGSIZE cfg) ltac:(lia)) as D.
  rewrite Hmod in D.
  assert (0 <= USR_STACK_SIZE cfg / PGSIZE cfg) by (apply Z.div_pos; lia).
  unfold to_uint32. rewrite Z.mod_small by lia.
  apply va_loop_pages; lia.
Qed.

Lemma pages_from_cover step : forall (n : nat) lo va,
  0 < step -> lo <= va < lo + Z.of_nat n * step ->
  exists p, In p (pages_from n lo step) /\ p <= va < p + step.
Proof.
  induction n as [|n IH]; intros lo va Hstep R; [lia|].
  cbn [pages_from]. destruct (Z_lt_le_dec va (lo + step)) as [L|L].
  - exists lo. split; [now left|lia].
  - destruct (IH (lo + step) va Hstep ltac:(lia)) as (p & Hin & Hp).
    exists p. split; [now right|assumption].
Qed.

Lemma pages_from_last step : forall (n : nat) lo,
  last (pages_from (S n) lo step) = Some (lo + Z.of_nat n * step).
Proof.
  induction n as [|n IH]; intros lo.
  - cbn. f_equal. lia.
  - change (pages_from (S (S n)) lo step)
      with (lo :: pages_from (S n) (lo + step) step).
    rewrite last_cons, IH. f_equal. lia.
Qed.

(** Every address of the region lies in one of the pages, and the highest
    page starts at [USTACKTOP - PGSIZE]. *)
Lemma ustack_pages_region cfg :
  config_ok cfg ->
  (forall va, USTACKTOP cfg - USR_STACK_SIZE cfg <= va < USTACKTOP cfg ->
     exists p, In p (ustack_pages cfg) /\ p <= va < p + PGSIZE cfg) /\
  last (ustack_pages cfg) = Some (USTACKTOP cfg - PGSIZE cfg).
Proof.
  intros [Hpg Hne Hmod Hlow Hhigh]. unfold ustack_pages.
  pose proof (Z.div_mod (USR_STACK_SIZE cfg) (PGSIZE cfg) ltac:(lia)) as D.
  rewrite Hmod in D.
  assert (0 < USR_STACK_SIZE cfg / PGSIZE cfg) by nia.
  split.
  - intros va R. apply pages_from_cover; [assumption|].
    rewrite Z2Nat.id by lia. lia.
  - destruct (Z.to_nat (USR_STACK_SIZE cfg / PGSIZE cfg)) as [|n] eqn:E; [lia|].
    rewrite pages_from_last. f_equal.
    assert (Z.of_nat n = USR_STACK_SIZE cfg / PGSIZE cfg - 1) by lia. nia.
Qed.

(** ** Initialisation *)

Section Init.

Context {M : Type} `{Machine M}.
Variable cfg : Config.

Lemma bind_Done_inv {A B} (c : kern M A) (f : A -> kern M B) k b k' :
  bind c f k = Done b k' -> exists a k1, c k = Done a k1 /\ f a k1 = Done b k'.
Proof. unfold bind. destruct (c k) as [a k1| |]; try discriminate. eauto. Qed.

(** The loop of [task_init] leaves every slot from [i] on zeroed and FREE,
    and nothing else changed. *)
Lemma clear_tasks_inv fuel : forall i (k k' : Kernel M),
  0 <= i -> (Z.to_nat (NR_TASKS cfg - i) < fuel)%nat ->
  clear_tasks cfg fuel i k = Done tt k' ->
  k' = set_tasks (tasks k') k /\
  (forall j, i <= j < NR_TASKS cfg -> slot (tasks k') j = Some zero_task) /\
  (forall j, j < i -> slot (tasks k') j = slot (tasks k) j).
Proof.
  induction fuel as [|fuel IH]; intros i k k' Hi Hf E; [lia|].
  cbn [clear_tasks] in E. destruct (i <? NR_TASKS cfg) eqn:L.
  - apply Z.ltb_lt in L.
    destruct (slot (tasks k) i) as [t|] eqn:S.
    2:{ unfold bind, modify_task in E. rewrite S in E. discriminate. }
    revert E. step_modify S. step_again S. intros E.
    apply IH in E; [|lia|lia]. destruct E as (Hk & Hz & Hs).
    cbn [tasks set_tasks] in Hs. split; [|split].
    + rewrite Hk at 1. reflexivity.
    + intros j Hj. destruct (Z.eq_dec j i) as [->|Ne].
      * rewrite Hs by lia. eapply slot_insert_eq; eassumption.
      * apply Hz. lia.
    + intros j Hj. rewrite Hs by lia. apply slot_insert_ne; lia.
  - apply Z.ltb_ge in L. injection E as <-. destruct k.
    repeat split; intros; try lia; reflexivity.
Qed.

(** What [task_init] did, when it returns. *)
Lemma task_init_inv (k0 k1 : Kernel M) :
  cur_task k0 = None -> task_init cfg k0 = Done tt k1 ->
  cur_task k1 = Some 0 /\ 0 < NR_TASKS cfg /\
  (exists t, slot (tasks k1) 0 = Some t /\ task_id t = 0 /\ parent_id t = -1 /\
             state t = TASK_RUNNING) /\
  (forall j, 1 <= j < NR_TASKS cfg -> slot (tasks k1) j = Some zero_task).
Proof.
  intros Ec. unfold task_init. step_update.
  intros E. apply bind_Done_inv in E as ([] & kB & Hclear & E).
  apply clear_tasks_inv in Hclear as (HkB & Hzero & _); [|lia|lia].
  assert (EcB : cur_task kB = None) by (rewrite HkB; exact Ec).
  clear HkB. revert E. do 3 step_update.
  match goal with |- bind _ _ ?k = _ -> _ => set (kC := k) end.
  assert (HtC : tasks kC = tasks kB) by reflexivity.
  assert (EcC : cur_task kC = None) by exact EcB.
  clearbody kC. rewrite <- HtC in Hzero. clear HtC EcB kB.
  intros E. apply bind_Done_inv in E as (i & kD & Hcreate & E).
  revert E. step_update. intros E.
  apply bind_Done_inv in E as (cur & kE & Hget & E).
  assert (Hi : i <> -1).
  { intros ->. unfold get_task in Hget. cbn in Hget. discriminate. }
  destruct (task_create_inv cfg _ _ _ Hcreate Hi)
    as (t0 & pd & m1 & m2 & Hrange & (S & F & Hmin) & Hkvm & Hpd & Hmap & Hcur & ->).
  assert (i = 0) as ->.
  { destruct (Z.eq_dec i 0) as [|Ne]; [assumption|].
    specialize (Hmin 0 zero_task ltac:(lia) (Hzero 0 ltac:(lia))). discriminate. }
  pose proof (slot_insert_eq _ 0 _ (created_task cfg kC 0 pd) S) as Sc.
  match type of Hget with
  | get_task 0 ?k = _ => rewrite (run_get_task k 0 _ Sc) in Hget
  end.
  injection Hget as <- <-.
  revert E. step_exec. norm. do 4 (step_read; step_exec; norm).
  step_modify Sc. norm. do 3 (step_exec; norm).
  unfold modify_task. norm.
  rewrite (slot_insert_eq _ 0 _ _ S). intros E. injection E as <-.
  norm.
  split; [reflexivity|]. split; [lia|]. split.
  - eexists. split; [eapply slot_insert_eq; eassumption|].
    unfold created_task, parent_for. norm. rewrite EcC. repeat split.
  - intros j Hj. rewrite slot_insert_ne by lia. apply Hzero. lia.
Qed.

End Init.

(** * The claims *)

Section Claims.

Context {M : Type} `{Machine M}.
Variable cfg : Config.

(** ** Task creation *)

(** C2 (as amended): on a table of [NR_TASKS] slots, if slot [i] is the
    lowest slot in state FREE or STOP, and the page directory and a page
    for every page of the user stack are allocated, [task_create] returns
    [i]; slot [i] is
    then RUNNABLE with [task_id = i], the default quantum, and the id of the
    current task as [parent_id] (-1 when no task is current); no other slot
    changes and the number of RUNNABLE slots grows by one.  If no slot is
    FREE or STOP, [task_create] returns -1 and the kernel state is
    unchanged. *)
Theorem task_create_lowest_free_slot (k : Kernel M) :
  config_ok cfg -> table_ok cfg (tasks k) -> cur_ok k ->
  (forall i t0 pd m1 m2,
      lowest_free (tasks k) i t0 ->
      setupkvm (mach k) = (pd, m1) -> pd <> NULL ->
      map_ustack cfg pd (ustack_pages cfg) (printk (Msg_pgdir_num (PADDR pd)) m1)
      = (true, m2) ->
      exists k' new,
        task_create cfg k = Done i k' /\
        slot (tasks k') i = Some new /\
        state new = TASK_RUNNABLE /\
        task_id new = i /\
        remind_ticks new = TIME_QUANT cfg /\
        match cur_task k with
        | Some c => exists p, slot (tasks k') c = Some p /\ parent_id new = task_id p
        | None => parent_id new = -1
        end /\
        (forall j, j <> i -> slot (tasks k') j = slot (tasks k) j) /\
        count_state TASK_RUNNABLE (tasks k')
        = count_state TASK_RUNNABLE (tasks k) + 1) /\
  (table_full (tasks k) -> task_create cfg k = Done (-1) k).
Proof.
  intros Hcfg Hok Hcur. split; [|apply task_create_full; assumption].
  intros i t0 pd m1 m2 Hlow Hkvm Hpd Hmap.
  rewrite <- (ustack_vas_pages cfg Hcfg) in Hmap.
  destruct (find_free_lowest cfg k i t0 Hok Hlow) as [Hscan Hlt].
  destruct Hlow as (S & F & Hmin).
  pose proof (slot_range _ _ _ S) as R.
  eexists _, (created_task cfg k i pd). split.
  { exact (task_create_at_ok cfg k i t0 pd m1 m2 Hscan Hlt S Hkvm Hpd Hmap Hcur). }
  cbn [tasks set_tasks set_mach].
  split; [eapply slot_insert_eq; eassumption|].
  do 3 (split; [reflexivity|]). split; [|split].
  - unfold created_task, parent_for. cbn [parent_id].
    destruct (cur_task k) as [c|] eqn:Ec; [|reflexivity].
    destruct (Z.eqb_spec c i) as [->|Ne].
    + eexists. split; [eapply slot_insert_eq; eassumption|]. reflexivity.
    + destruct (Hcur c Ec) as [p Sp]. exists p.
      rewrite slot_insert_ne by lia. split; [assumption|]. now rewrite Sp.
  - intros j Ne. apply slot_insert_ne; lia.
  - unfold slot in S. destruct (0 <=? i); [|discriminate].
    rewrite (count_state_insert _ _ _ _ _ S). cbn [state created_task state_eqb].
    apply free_or_stop_true in F. destruct F as [-> | ->]; cbn; lia.
Qed.

(** C3 (as amended): when the task table is full, [task_create] returns -1
    and leaves the kernel state as it was.  When the page directory cannot
    be allocated, the kernel panics.  When a user-stack page cannot be
    allocated, [task_create] returns -1.  The claimed slot then keeps its
    state, FREE or STOP, and every other field but [pgdir], which holds the
    new page directory; the other slots, the current task pointer and the
    other globals are as they were; and the machine is the one the
    allocations and insertions made up to the failing [page_alloc] left:
    neither the page directory nor the pages are released. *)
Theorem task_create_exhaustion (k : Kernel M) :
  config_ok cfg -> table_ok cfg (tasks k) ->
  (table_full (tasks k) -> task_create cfg k = Done (-1) k) /\
  (forall i t0 pd m1,
      lowest_free (tasks k) i t0 -> setupkvm (mach k) = (pd, m1) ->
      (pd = NULL -> exists k', task_create cfg k = Panic Panic_no_pgdir k') /\
      (pd <> NULL ->
       forall m2,
         map_ustack cfg pd (ustack_pages cfg) (printk (Msg_pgdir_num (PADDR pd)) m1)
         = (false, m2) ->
         exists k' t1,
           task_create cfg k = Done (-1) k' /\
           slot (tasks k') i = Some t1 /\
           state t1 = state t0 /\
           task_id t1 = task_id t0 /\ parent_id t1 = parent_id t0 /\
           tf t1 = tf t0 /\ remind_ticks t1 = remind_ticks t0 /\
           pgdir t1 = pd /\
           (forall j, j <> i -> slot (tasks k') j = slot (tasks k) j) /\
           length (tasks k') = length (tasks k) /\
           states (tasks k') = states (tasks k) /\
           cur_task k' = cur_task k /\
           same_globals k k' /\
           mach k' = m2)).
Proof.
  intros Hcfg Hok. split; [apply task_create_full; assumption|].
  intros i t0 pd m1 Hlow Hkvm.
  destruct (find_free_lowest cfg k i t0 Hok Hlow) as [Hscan Hlt].
  destruct Hlow as (S & F & Hmin). split.
  - intros ->. eexists.
    exact (task_create_at_panic cfg k i t0 m1 Hscan Hlt S Hkvm).
  - intros Hpd m2 Hmap. rewrite <- (ustack_vas_pages cfg Hcfg) in Hmap.
    pose proof (task_create_at_nomem cfg k i t0 pd m1 m2 Hscan Hlt S Hkvm Hpd Hmap)
      as E.
    pose proof (slot_range _ _ _ S) as R.
    destruct (task_create cfg k) as [r k'| |]; try discriminate.
    injection E as -> ->. eexists _, _. split; [reflexivity|].
    cbn [tasks cur_task mach set_tasks set_mach].
    split; [eapply slot_insert_eq; eassumption|].
    destruct t0 as [id0 par0 tf0 ticks0 st0 pd0].
    do 6 (split; [reflexivity|]). split; [|split; [|split]].
    + intros j Ne. apply slot_insert_ne; lia.
    + apply length_insert.
    + unfold states. rewrite list_fmap_insert.
      apply list_insert_id. rewrite list_lookup_fmap.
      unfold slot in S. destruct (0 <=? i); [|discriminate]. now rewrite S.
    + repeat split.
Qed.

(** ** Fork *)

(** C1 (the code does otherwise): on a full table of [NR_TASKS] slots with
    a current task, [task_create] fails with -1 and changes nothing, but
    [sys_fork] does not return -1: its test [!(pid = task_create())] lets
    -1 through, and the next statement writes to [tasks[-1]], outside the
    table. *)
Theorem sys_fork_full_table_faults (k : Kernel M) c :
  table_ok cfg (tasks k) -> table_full (tasks k) -> cur_task k = Some c ->
  task_create cfg k = Done (-1) k /\ sys_fork cfg k = Fault k.
Proof.
  intros Hok Hfull Ec.
  pose proof (task_create_full cfg k Hok Hfull) as Hcreate.
  split; [assumption|].
  exact (sys_fork_create_failed cfg k k c Ec Hcreate).
Qed.

(** C4: after a successful [sys_fork] with current task [c], the trap
    frame of the child holds 0 in [reg_eax] and in every other field the
    value the trap frame of the parent holds, and the value returned is the
    id of the child.  A current task in a state other than FREE and STOP
    is not the child, and its record, trap frame included, is the one it
    had before the call. *)
Theorem sys_fork_child_context (k k' : Kernel M) c pid :
  cur_task k = Some c -> sys_fork cfg k = Done pid k' -> pid <> -1 ->
  exists parent child,
    slot (tasks k') c = Some parent /\
    slot (tasks k') pid = Some child /\
    task_id child = pid /\
    reg_eax (tf_regs (tf child)) = 0 /\
    reg_edi (tf_regs (tf child)) = reg_edi (tf_regs (tf parent)) /\
    reg_esi (tf_regs (tf child)) = reg_esi (tf_regs (tf parent)) /\
    reg_ebp (tf_regs (tf child)) = reg_ebp (tf_regs (tf parent)) /\
    reg_oesp (tf_regs (tf child)) = reg_oesp (tf_regs (tf parent)) /\
    reg_ebx (tf_regs (tf child)) = reg_ebx (tf_regs (tf parent)) /\
    reg_edx (tf_regs (tf child)) = reg_edx (tf_regs (tf parent)) /\
    reg_ecx (tf_regs (tf child)) = reg_ecx (tf_regs (tf parent)) /\
    tf_es (tf child) = tf_es (tf parent) /\
    tf_ds (tf child) = tf_ds (tf parent) /\
    tf_trapno (tf child) = tf_trapno (tf parent) /\
    tf_err (tf child) = tf_err (tf parent) /\
    tf_eip (tf child) = tf_eip (tf parent) /\
    tf_cs (tf child) = tf_cs (tf parent) /\
    tf_eflags (tf child) = tf_eflags (tf parent) /\
    tf_esp (tf child) = tf_esp (tf parent) /\
    tf_ss (tf child) = tf_ss (tf parent) /\
    (forall p0, slot (tasks k) c = Some p0 ->
                free_or_stop (state p0) = false -> pid <> c /\ parent = p0).
Proof.
  intros Ec E Hpid.
  destruct (sys_fork_inv cfg k k' c pid Ec E Hpid)
    as (t0 & pd & m1 & m2 & parent & Hrange & (S & F & Hmin) & Hkvm & Hpd & Hmap
        & Hcur & Sp & -> & Hc).
  destruct (Z.eq_dec c pid) as [->|Ne].
  - rewrite (slot_insert_eq _ _ _ _ S) in Sp. injection Sp as <-.
    eexists _, _. split; [eapply slot_insert_eq; eassumption|].
    split; [eapply slot_insert_eq; eassumption|].
    cbn. repeat split; congruence.
  - rewrite slot_insert_ne in Sp by lia.
    exists parent. eexists. split; [rewrite slot_insert_ne by lia; assumption|].
    split; [eapply slot_insert_eq; eassumption|].
    cbn. repeat split; congruence.
Qed.

(** C10: after a successful [task_create] the saved stack pointer of the
    new task is [USTACKTOP - PGSIZE], the start of the highest page of the
    user stack, while the loop has allocated and inserted a page for every
    page of the region from [USTACKTOP - USR_STACK_SIZE] up to
    [USTACKTOP]. *)
Theorem task_create_stack_pointer (k k' : Kernel M) id :
  config_ok cfg -> task_create cfg k = Done id k' -> id <> -1 ->
  exists t m1,
    slot (tasks k') id = Some t /\
    tf_esp (tf t) = USTACKTOP cfg - PGSIZE cfg /\
    setupkvm (mach k) = (pgdir t, m1) /\
    map_ustack cfg (pgdir t) (ustack_pages cfg)
               (printk (Msg_pgdir_num (PADDR (pgdir t))) m1)
    = (true, mach k') /\
    (forall va, USTACKTOP cfg - USR_STACK_SIZE cfg <= va < USTACKTOP cfg ->
       exists p, In p (ustack_pages cfg) /\ p <= va < p + PGSIZE cfg) /\
    last (ustack_pages cfg) = Some (USTACKTOP cfg - PGSIZE cfg).
Proof.
  intros Hcfg E Hid.
  destruct (task_create_inv cfg k k' id E Hid)
    as (t0 & pd & m1 & m2 & Hrange & (S & F & Hmin) & Hkvm & Hpd & Hmap & Hcur & ->).
  destruct (ustack_pages_region cfg Hcfg) as [Hcover Hlast].
  exists (created_task cfg k id pd), m1. cbn [tasks mach set_tasks set_mach].
  split; [eapply slot_insert_eq; eassumption|].
  split.
  { cbn [tf tf_esp created_task initial_tf]. unfold to_uint32.
    destruct Hcfg as [Hpg Hne Hmod Hlow Hhigh].
    assert (PGSIZE cfg <= USR_STACK_SIZE cfg).
    { apply Z.divide_pos_le; [lia|]. apply Z.mod_divide; lia. }
    apply Z.mod_small. lia. }
  cbn [pgdir created_task]. rewrite (ustack_vas_pages cfg Hcfg) in Hmap.
  repeat split; assumption.
Qed.

(** ** Termination *)

(** C5: for [0 < pid < NR_TASKS] and a slot in a state other than FREE
    and STOP, [sys_kill] returns, and the scheduler is entered last, on a
    kernel in which the slot is in state STOP with its other fields as
    they were, no other slot and not the current task pointer changed, and
    the machine is the result of loading the kernel page directory,
    then removing the page at every page address of the user stack from
    the page directory of the task, then freeing its page tables, then
    freeing its page directory. *)
Theorem sys_kill_live_task (k : Kernel M) pid t :
  config_ok cfg ->
  0 < pid < NR_TASKS cfg -> slot (tasks k) pid = Some t ->
  free_or_stop (state t) = false ->
  exists k1 t1,
    sys_kill cfg pid k = Done tt (sched_yield k1) /\
    slot (tasks k1) pid = Some t1 /\
    state t1 = TASK_STOP /\
    task_id t1 = task_id t /\ parent_id t1 = parent_id t /\ tf t1 = tf t /\
    remind_ticks t1 = remind_ticks t /\ pgdir t1 = pgdir t /\
    (forall j, j <> pid -> slot (tasks k1) j = slot (tasks k) j) /\
    length (tasks k1) = length (tasks k) /\
    cur_task k1 = cur_task k /\
    same_globals k k1 /\
    mach k1
    = pgdir_remove (pgdir t)
        (ptable_remove (pgdir t)
           (fold_left (fun m va => page_remove (pgdir t) va m) (ustack_pages cfg)
              (lcr3 (PADDR (kern_pgdir (mach k))) (mach k)))).
Proof.
  intros Hcfg R S F. rewrite <- (ustack_vas_pages cfg Hcfg).
  eexists _, _. split; [exact (sys_kill_run cfg k pid t R S F)|].
  cbn [tasks cur_task mach set_tasks set_mach].
  split; [eapply slot_insert_eq; eassumption|].
  destruct t as [id0 par0 tf0 ticks0 st0 pd0].
  do 6 (split; [reflexivity|]). split; [|split; [|split; [|split]]].
  - intros j Ne. apply slot_insert_ne; lia.
  - apply length_insert.
  - reflexivity.
  - repeat split.
  - reflexivity.
Qed.

(** C6: for a [pid] outside [0 < pid < NR_TASKS] (the bootstrap id 0
    among them) or of a slot already FREE or STOP, [sys_kill] changes
    nothing; the kill system call returns 0 whenever it returns, and for
    such a [pid] it only prints its message; and when the scheduler leaves
    stopped slots stopped, a second [sys_kill] of the same [pid] changes
    nothing. *)
Theorem sys_kill_noop (k : Kernel M) pid :
  (pid <= 0 \/ NR_TASKS cfg <= pid \/
   (exists t, slot (tasks k) pid = Some t /\ free_or_stop (state t) = true) ->
   sys_kill cfg pid k = Done tt k /\
   forall n a1 a2 a3 a4 a5,
     syscall_of_number cfg n = Some SYS_kill -> to_int32 a1 = pid ->
     do_syscall cfg n a1 a2 a3 a4 a5 k
     = Done 0 (set_mach (cprintf (Msg_going_to_kill a1) (mach k)) k)) /\
  (forall n a1 a2 a3 a4 a5 r k',
     syscall_of_number cfg n = Some SYS_kill ->
     do_syscall cfg n a1 a2 a3 a4 a5 k = Done r k' -> r = 0) /\
  (sched_keeps_stopped M ->
   forall k1, sys_kill cfg pid k = Done tt k1 -> sys_kill cfg pid k1 = Done tt k1).
Proof.
  split; [|split].
  - intros C. split; [apply sys_kill_skip; assumption|].
    intros n a1 a2 a3 a4 a5 Hn Ha. unfold do_syscall. rewrite Hn.
    step_exec. rewrite Ha.
    match goal with |- context [bind (sys_kill cfg pid) ?f ?k0] =>
      rewrite (run_bind _ f k0 _ _ (sys_kill_skip cfg k0 pid C))
    end.
    reflexivity.
  - intros n a1 a2 a3 a4 a5 r k' Hn E. unfold do_syscall in E. rewrite Hn in E.
    unfold bind in E. cbn [exec] in E.
    destruct (sys_kill cfg (to_int32 a1) _); try discriminate.
    unfold ret in E. congruence.
  - intros Hsched k1 E.
    destruct (sys_kill_cases cfg k k1 pid E) as [->|(t & R & S & F & ->)];
      [assumption|].
    apply sys_kill_skip. right. right.
    destruct (Hsched
                (set_mach (free_address_space cfg (pgdir t) (mach k))
                   (set_tasks (<[Z.to_nat pid := set_state TASK_STOP t]> (tasks k)) k))
                pid (set_state TASK_STOP t)) as (t' & S' & F').
    + cbn [tasks set_tasks set_mach]. eapply slot_insert_eq; eassumption.
    + reflexivity.
    + exists t'. split; [assumption|]. now rewrite F'.
Qed.

(** ** Sleep *)

(** C7 (as amended): when the current task is RUNNING, [sys_sleep] returns
    0 after it entered the scheduler, on a kernel in which the state of the
    current task is SLEEP and its [remind_ticks] is the duration converted
    to [int32_t]: the duration itself below 2^31, and the duration minus
    2^32 from 2^31 on; nothing else changed.  With no current task, or a
    current task that is not RUNNING, the kernel panics. *)
Theorem sys_sleep_running_or_panic (k : Kernel M) time :
  (forall c t,
      cur_task k = Some c -> slot (tasks k) c = Some t -> state t = TASK_RUNNING ->
      exists k1 t1,
        sys_sleep time k = Done 0 (sched_yield k1) /\
        slot (tasks k1) c = Some t1 /\
        state t1 = TASK_SLEEP /\
        remind_ticks t1 = to_int32 time /\
        (0 <= time < 2 ^ 31 -> remind_ticks t1 = time) /\
        (2 ^ 31 <= time < 2 ^ 32 -> remind_ticks t1 = time - 2 ^ 32) /\
        task_id t1 = task_id t /\ parent_id t1 = parent_id t /\ tf t1 = tf t /\
        pgdir t1 = pgdir t /\
        (forall j, j <> c -> slot (tasks k1) j = slot (tasks k) j) /\
        length (tasks k1) = length (tasks k) /\
        cur_task k1 = cur_task k /\
        same_globals k k1 /\
        mach k1 = mach k) /\
  (cur_task k = None -> sys_sleep time k = Panic Panic_cant_sleep k) /\
  (forall c t,
      cur_task k = Some c -> slot (tasks k) c = Some t -> state t <> TASK_RUNNING ->
      sys_sleep time k = Panic Panic_cant_sleep k).
Proof.
  split; [|split].
  - intros c t Ec S R. pose proof (slot_range _ _ _ S) as Hc.
    eexists _, _. split; [exact (sys_sleep_run k time c t Ec S R)|].
    cbn [tasks cur_task mach set_tasks].
    split; [eapply slot_insert_eq; eassumption|].
    destruct t as [id0 par0 tf0 ticks0 st0 pd0]. cbn.
    do 2 (split; [reflexivity|]).
    split; [intros Ht; now apply to_int32_small|].
    split; [intros Ht; now apply to_int32_large|].
    do 4 (split; [reflexivity|]). split; [|split; [|split; [|split]]].
    + intros j Ne. apply slot_insert_ne; lia.
    + apply length_insert.
    + reflexivity.
    + repeat split.
    + reflexivity.
  - intros Ec. unfold sys_sleep. step_cur. now rewrite Ec.
  - intros c t Ec S R. unfold sys_sleep. step_cur. rewrite Ec. step_get S.
    destruct (state t); try reflexivity. congruence.
Qed.

(** ** Dispatch *)

(** C8: for a call number with no [case] in the switch, [do_syscall]
    returns -1 and the kernel state, the machine with its console
    included, is unchanged. *)
Theorem do_syscall_unknown_number (k : Kernel M) n a1 a2 a3 a4 a5 :
  syscall_of_number cfg n = None ->
  do_syscall cfg n a1 a2 a3 a4 a5 k = Done (-1) k.
Proof. intros Hn. unfold do_syscall. now rewrite Hn. Qed.

(** ** Boot and first fork *)

(** C9 (as amended): when [task_init], started with no current task,
    returns, task 0 is current and slot 0 holds it with id 0, state RUNNING
    and parent id -1.  Take any later kernel in which task 0 is still the
    running current task, with whatever trap frame its trap saved, and the
    slots above it are as [task_init] left them.  A fork system call issued
    there returns 1 when the table has a second slot, the page directory
    and the stack pages of the child are allocated and the copy of the
    stack finds them; and whenever it returns a value other than -1, that
    value is 1, slot 0 is unchanged, and slot 1 holds a task with id 1,
    state RUNNABLE, parent id 0, 0 in the [reg_eax] of its saved trap frame
    and in every other field of the frame the value task 0 trapped
    with. *)
Theorem boot_then_fork (k0 k1 : Kernel M) :
  cur_task k0 = None -> task_init cfg k0 = Done tt k1 ->
  (cur_task k1 = Some 0 /\
   exists t0, slot (tasks k1) 0 = Some t0 /\ task_id t0 = 0 /\
              state t0 = TASK_RUNNING /\ parent_id t0 = -1) /\
  (forall (k : Kernel M) (p : Task) n a1 a2 a3 a4 a5,
      cur_task k = Some 0 -> slot (tasks k) 0 = Some p ->
      task_id p = 0 -> state p = TASK_RUNNING ->
      (forall j, 1 <= j -> slot (tasks k) j = slot (tasks k1) j) ->
      syscall_of_number cfg n = Some SYS_fork ->
      (forall pd m1 m2 m3,
          config_ok cfg -> 1 < NR_TASKS cfg ->
          setupkvm (mach k) = (pd, m1) -> pd <> NULL ->
          map_ustack cfg pd (ustack_pages cfg) (printk (Msg_pgdir_num (PADDR pd)) m1)
          = (true, m2) ->
          copy_pages cfg pd (ustack_pages cfg) m2 = (true, m3) ->
          exists k2, do_syscall cfg n a1 a2 a3 a4 a5 k = Done 1 k2) /\
      (forall r k2,
          do_syscall cfg n a1 a2 a3 a4 a5 k = Done r k2 -> r <> -1 ->
          r = 1 /\
          slot (tasks k2) 0 = Some p /\
          exists t1, slot (tasks k2) 1 = Some t1 /\ task_id t1 = 1 /\
                     state t1 = TASK_RUNNABLE /\ parent_id t1 = 0 /\
                     reg_eax (tf_regs (tf t1)) = 0 /\
                     same_but_eax (tf t1) (tf p))).
Proof.
  intros Ec Hinit.
  destruct (task_init_inv cfg k0 k1 Ec Hinit)
    as (Ec1 & Hnr & (t0 & S0 & Hid & Hparent & Hstate) & Hzero).
  split; [split; [assumption|]; exists t0; auto|].
  intros k p n a1 a2 a3 a4 a5 Ek Sp Hp Rp Hrest Hn.
  assert (Fp : free_or_stop (state p) = false) by now rewrite Rp.
  unfold do_syscall. rewrite Hn. split.
  - intros pd m1 m2 m3 Hcfg Htwo Hkvm Hpd Hmap Hcopy.
    rewrite <- (ustack_vas_pages cfg Hcfg) in Hmap, Hcopy.
    assert (Hlow : lowest_free (tasks k) 1 zero_task).
    { split; [rewrite Hrest by lia; apply Hzero; lia|]. split; [reflexivity|].
      intros j u Hj Su. assert (j = 0) as -> by lia. congruence. }
    eexists.
    exact (sys_fork_run cfg k 0 p 1 zero_task pd m1 m2 m3 Ek Sp Fp Hlow
             ltac:(lia) Hkvm Hpd Hmap Hcopy).
  - intros r k2 E Hr.
    destruct (sys_fork_inv cfg k k2 0 r Ek E Hr)
      as (u & pd & m1 & m2 & parent & Hrange & (S & F & Hmin) & Hkvm & Hpd & Hmap
          & Hcur & Spar & Ht & Hc).
    assert (r = 1) as ->.
    { destruct (Z.eq_dec r 1) as [|Ne]; [assumption|].
      assert (S1 : slot (tasks k) 1 = Some zero_task)
        by (rewrite Hrest by lia; apply Hzero; lia).
      specialize (Hmin 1 zero_task ltac:(lia) S1). discriminate. }
    rewrite slot_insert_ne in Spar by lia.
    assert (parent = p) as -> by congruence.
    split; [reflexivity|]. rewrite Ht.
    split; [rewrite slot_insert_ne by lia; assumption|].
    eexists. split; [eapply slot_insert_eq; eassumption|].
    unfold created_task, parent_for, same_but_eax.
    cbn [task_id state parent_id set_tf tf].
    rewrite Ek. cbn [Z.eqb]. rewrite Sp, Hp. cbn. repeat split.
Qed.

End Claims.

(** * The simulated machine: facts, and the claims on concrete inputs *)

Lemma sim_first_runnable ts : forall o i,
  Sim.first_runnable ts o = Some i ->
  o <= i /\ exists u, ts !! Z.to_nat (i - o) = Some u /\ state u = TASK_RUNNABLE.
Proof.
  induction ts as [|t ts IH]; intros o i E; [discriminate|].
  cbn [Sim.first_runnable] in E.
  destruct (state_eqb (state t) TASK_RUNNABLE) eqn:R.
  - injection E as <-. split; [lia|]. rewrite Z.sub_diag. exists t.
    split; [reflexivity|]. destruct (state t); cbn in R; congruence.
  - apply IH in E as (L & u & Su & Ru). split; [lia|]. exists u. split; [|assumption].
    replace (Z.to_nat (i - o)) with (S (Z.to_nat (i - (o + 1)))) by lia.
    exact Su.
Qed.

(** The simulated scheduler leaves stopped slots stopped. *)
Lemma sim_yield_keeps_stopped : sched_keeps_stopped Sim.machine.
Proof.
  intros k i t S St. cbn [sched_yield Sim.sim_machine]. unfold Sim.yield.
  unfold slot in *. destruct (0 <=? i) eqn:Hi; [|discriminate].
  assert (D : (Sim.demote <$> tasks k) !! Z.to_nat i = Some t).
  { rewrite list_lookup_fmap, S. cbn. unfold Sim.demote. now rewrite St. }
  destruct (Sim.first_runnable (Sim.demote <$> tasks k) 0) as [r|] eqn:E.
  - apply sim_first_runnable in E as (L & u & Su & Ru).
    rewrite Z.sub_0_r in Su. cbn [tasks set_tasks set_cur_task].
    exists t. split; [|assumption].
    rewrite list_lookup_alter_ne; [assumption|]. intros Heq.
    rewrite Heq in Su. congruence.
  - cbn [tasks set_tasks]. eauto.
Qed.

Lemma sim_table_with_stop_lowest :
  lowest_free Sim.table_with_stop 1 (Sim.task_in TASK_STOP 1).
Proof.
  split; [reflexivity|]. split; [reflexivity|].
  intros j u Hj S. assert (j = 0) as -> by lia.
  injection S as <-. reflexivity.
Qed.

Lemma sim_full_table_full : table_full Sim.full_table.
Proof.
  intros j u S. pose proof (slot_range _ _ _ S) as R. cbn in R.
  assert (j = 0 \/ j = 1 \/ j = 2) as [->|[->| ->]] by lia;
    injection S as <-; reflexivity.
Qed.

Lemma sim_cur_ok ts c t frames :
  slot ts c = Some t -> cur_ok (Sim.kernel_of ts (Some c) frames).
Proof. intros S c' E. injection E as <-. cbn [tasks Sim.kernel_of]. eauto. Qed.

Lemma sim_config_ok : config_ok Sim.cfg3.
Proof. constructor; vm_compute; congruence. Qed.

(** C1, on a full table of three tasks: [task_create] returns -1 and
    [sys_fork] leaves the table. *)
Lemma sys_fork_full_table_faults_witness :
  table_ok Sim.cfg3 (tasks Sim.crowded) /\ table_full (tasks Sim.crowded) /\
  cur_task Sim.crowded = Some 0 /\
  task_create Sim.cfg3 Sim.crowded = Done (-1) Sim.crowded /\
  sys_fork Sim.cfg3 Sim.crowded = Fault Sim.crowded.
Proof.
  split; [reflexivity|]. split; [exact sim_full_table_full|].
  split; [reflexivity|].
  exact (sys_fork_full_table_faults Sim.cfg3 Sim.crowded 0
           eq_refl sim_full_table_full eq_refl).
Defined.

(** C2, as stated, fails: slot 1 is the lowest free slot, but with frames
    for a page directory and one stack page only, [task_create] returns -1
    and not 1. *)
Lemma task_create_out_of_pages :
  table_ok Sim.cfg3 (tasks Sim.tight) /\
  lowest_free (tasks Sim.tight) 1 (Sim.task_in TASK_STOP 1) /\
  (exists k', task_create Sim.cfg3 Sim.tight = Done (-1) k') /\
  forall k', task_create Sim.cfg3 Sim.tight <> Done 1 k'.
Proof.
  split; [reflexivity|]. split; [exact sim_table_with_stop_lowest|]. split.
  - eexists. vm_compute. reflexivity.
  - intros k' E. vm_compute in E. discriminate.
Qed.

(** C2 as amended, on a table whose slot 1 is stopped, with frames for a
    whole task. *)
Lemma task_create_lowest_free_slot_witness :
  config_ok Sim.cfg3 /\ table_ok Sim.cfg3 (tasks Sim.roomy) /\ cur_ok Sim.roomy /\
  lowest_free (tasks Sim.roomy) 1 (Sim.task_in TASK_STOP 1) /\
  exists k' new,
    task_create Sim.cfg3 Sim.roomy = Done 1 k' /\
    slot (tasks k') 1 = Some new /\
    state new = TASK_RUNNABLE /\
    task_id new = 1 /\
    remind_ticks new = 100 /\
    (exists p, slot (tasks k') 0 = Some p /\ parent_id new = task_id p) /\
    (forall j, j <> 1 -> slot (tasks k') j = slot (tasks Sim.roomy) j) /\
    count_state TASK_RUNNABLE (tasks k')
    = count_state TASK_RUNNABLE (tasks Sim.roomy) + 1.
Proof.
  assert (Hcur : cur_ok Sim.roomy) by (eapply sim_cur_ok; reflexivity).
  split; [exact sim_config_ok|]. split; [reflexivity|]. split; [exact Hcur|].
  split; [exact sim_table_with_stop_lowest|].
  refine (proj1 (task_create_lowest_free_slot Sim.cfg3 Sim.roomy sim_config_ok
                   eq_refl Hcur)
            1 (Sim.task_in TASK_STOP 1) _ _ _ sim_table_with_stop_lowest _ _ _).
  - vm_compute. reflexivity.
  - vm_compute. discriminate.
  - vm_compute. reflexivity.
Defined.

(** C3, as stated, fails: with no frame left for the page directory,
    [task_create] does not return: the kernel panics. *)
Lemma task_create_no_pgdir_panics :
  table_ok Sim.cfg3 (tasks Sim.starved) /\
  lowest_free (tasks Sim.starved) 1 (Sim.task_in TASK_STOP 1) /\
  fst (setupkvm (mach Sim.starved)) = NULL /\
  (exists k', task_create Sim.cfg3 Sim.starved = Panic Panic_no_pgdir k') /\
  forall r k', task_create Sim.cfg3 Sim.starved <> Done r k'.
Proof.
  split; [reflexivity|]. split; [exact sim_table_with_stop_lowest|].
  split; [reflexivity|]. split.
  - eexists. vm_compute. reflexivity.
  - intros r k' E. vm_compute in E. discriminate.
Qed.

(** C3 as amended, in its three cases: a full table, no frame for the
    page directory, and no frame for the second stack page.  In the last
    case the stopped slot 1 keeps its record but for [pgdir], and the two
    frames taken, for the page directory and for the first stack page,
    stay taken. *)
Lemma task_create_exhaustion_witness :
  config_ok Sim.cfg3 /\
  (table_ok Sim.cfg3 (tasks Sim.crowded) /\ table_full (tasks Sim.crowded) /\
   task_create Sim.cfg3 Sim.crowded = Done (-1) Sim.crowded) /\
  (table_ok Sim.cfg3 (tasks Sim.starved) /\
   lowest_free (tasks Sim.starved) 1 (Sim.task_in TASK_STOP 1) /\
   exists k', task_create Sim.cfg3 Sim.starved = Panic Panic_no_pgdir k') /\
  (table_ok Sim.cfg3 (tasks Sim.tight) /\
   lowest_free (tasks Sim.tight) 1 (Sim.task_in TASK_STOP 1) /\
   exists k' t1,
     task_create Sim.cfg3 Sim.tight = Done (-1) k' /\
     slot (tasks k') 1 = Some t1 /\
     state t1 = TASK_STOP /\
     task_id t1 = 1 /\ parent_id t1 = -1 /\
     tf t1 = initial_tf Sim.cfg3 /\ remind_ticks t1 = 100 /\
     pgdir t1 = Sim.KERNBASE + 0x100000 /\
     (forall j, j <> 1 -> slot (tasks k') j = slot (tasks Sim.tight) j) /\
     length (tasks k') = length (tasks Sim.tight) /\
     states (tasks k') = states (tasks Sim.tight) /\
     cur_task k' = cur_task Sim.tight /\
     same_globals Sim.tight k' /\
     mach k'
     = Sim.mk 0 0x102000
         [(Sim.KERNBASE + 0x100000, 0xeebfc000, Sim.KERNBASE + 0x101000)]
         0 [Msg_pgdir_num 0x100000] []).
Proof.
  split; [exact sim_config_ok|]. split; [|split].
  - split; [reflexivity|]. split; [exact sim_full_table_full|].
    exact (proj1 (task_create_exhaustion Sim.cfg3 Sim.crowded sim_config_ok eq_refl)
             sim_full_table_full).
  - split; [reflexivity|]. split; [exact sim_table_with_stop_lowest|].
    refine (proj1 (proj2 (task_create_exhaustion Sim.cfg3 Sim.starved sim_config_ok eq_refl)
                     1 (Sim.task_in TASK_STOP 1) NULL _
                     sim_table_with_stop_lowest _) eq_refl).
    vm_compute. reflexivity.
  - split; [reflexivity|]. split; [exact sim_table_with_stop_lowest|].
    refine (proj2 (proj2 (task_create_exhaustion Sim.cfg3 Sim.tight sim_config_ok eq_refl)
                     1 (Sim.task_in TASK_STOP 1) (Sim.KERNBASE + 0x100000) _
                     sim_table_with_stop_lowest _) _ _ _).
    + vm_compute. reflexivity.
    + vm_compute. discriminate.
    + vm_compute. reflexivity.
Defined.

(** C4, for the fork of task 0 once it has trapped with the call number 3
    in [reg_eax] and a different value in every other register. *)
Lemma sys_fork_child_context_witness :
  cur_task (Inputs.trapped 10) = Some 0 /\
  slot (tasks (Inputs.trapped 10)) 0 = Some Inputs.trapped_task0 /\
  tf Inputs.trapped_task0 = Inputs.trap_frame /\
  sys_fork Sim.cfg3 (Inputs.trapped 10) = Done 1 (Inputs.trapped_forked 10) /\
  1 <> -1 /\
  exists parent child,
    slot (tasks (Inputs.trapped_forked 10)) 0 = Some parent /\
    slot (tasks (Inputs.trapped_forked 10)) 1 = Some child /\
    task_id child = 1 /\
    reg_eax (tf_regs (tf child)) = 0 /\
    reg_edi (tf_regs (tf child)) = reg_edi (tf_regs (tf parent)) /\
    reg_esi (tf_regs (tf child)) = reg_esi (tf_regs (tf parent)) /\
    reg_ebp (tf_regs (tf child)) = reg_ebp (tf_regs (tf parent)) /\
    reg_oesp (tf_regs (tf child)) = reg_oesp (tf_regs (tf parent)) /\
    reg_ebx (tf_regs (tf child)) = reg_ebx (tf_regs (tf parent)) /\
    reg_edx (tf_regs (tf child)) = reg_edx (tf_regs (tf parent)) /\
    reg_ecx (tf_regs (tf child)) = reg_ecx (tf_regs (tf parent)) /\
    tf_es (tf child) = tf_es (tf parent) /\
    tf_ds (tf child) = tf_ds (tf parent) /\
    tf_trapno (tf child) = tf_trapno (tf parent) /\
    tf_err (tf child) = tf_err (tf parent) /\
    tf_eip (tf child) = tf_eip (tf parent) /\
    tf_cs (tf child) = tf_cs (tf parent) /\
    tf_eflags (tf child) = tf_eflags (tf parent) /\
    tf_esp (tf child) = tf_esp (tf parent) /\
    tf_ss (tf child) = tf_ss (tf parent) /\
    (forall p0, slot (tasks (Inputs.trapped 10)) 0 = Some p0 ->
                free_or_stop (state p0) = false -> 1 <> 0 /\ parent = p0).
Proof.
  assert (E : sys_fork Sim.cfg3 (Inputs.trapped 10) = Done 1 (Inputs.trapped_forked 10))
    by (vm_compute; reflexivity).
  split; [vm_compute; reflexivity|]. split; [vm_compute; reflexivity|].
  split; [reflexivity|]. split; [exact E|]. split; [lia|].
  apply (sys_fork_child_context Sim.cfg3 (Inputs.trapped 10)
           (Inputs.trapped_forked 10) 0 1).
  - vm_compute. reflexivity.
  - exact E.
  - lia.
Defined.

(** C5, for the kill of task 1 after the fork: both pages of its user
    stack are mapped before, and after the call its mappings are gone and
    the frames of the two pages and of the page directory are free
    again. *)
Lemma sys_kill_live_task_witness :
  config_ok Sim.cfg3 /\
  0 < 1 < NR_TASKS Sim.cfg3 /\
  slot (tasks (Inputs.trapped_forked 10)) 1 = Some Inputs.forked_child /\
  free_or_stop (state Inputs.forked_child) = false /\
  mach (Inputs.trapped_forked 10)
  = Sim.mk 4 0x106000
      [(Sim.KERNBASE + 0x103000, 0xeebfd000, Sim.KERNBASE + 0x105000);
       (Sim.KERNBASE + 0x103000, 0xeebfc000, Sim.KERNBASE + 0x104000);
       (Sim.KERNBASE + 0x100000, 0xeebfd000, Sim.KERNBASE + 0x102000);
       (Sim.KERNBASE + 0x100000, 0xeebfc000, Sim.KERNBASE + 0x101000)]
      0 [Msg_pgdir_num 0x100000; Msg_first_task 0 (-1); Msg_pgdir_num 0x103000] [] /\
  exists k1 t1,
    sys_kill Sim.cfg3 1 (Inputs.trapped_forked 10) = Done tt (sched_yield k1) /\
    slot (tasks k1) 1 = Some t1 /\
    state t1 = TASK_STOP /\
    task_id t1 = 1 /\ parent_id t1 = 0 /\ tf t1 = Inputs.child_frame /\
    remind_ticks t1 = 100 /\ pgdir t1 = Sim.KERNBASE + 0x103000 /\
    (forall j, j <> 1 -> slot (tasks k1) j = slot (tasks (Inputs.trapped_forked 10)) j) /\
    length (tasks k1) = length (tasks (Inputs.trapped_forked 10)) /\
    cur_task k1 = cur_task (Inputs.trapped_forked 10) /\
    same_globals (Inputs.trapped_forked 10) k1 /\
    mach k1
    = Sim.mk 7 0x106000
        [(Sim.KERNBASE + 0x100000, 0xeebfd000, Sim.KERNBASE + 0x102000);
         (Sim.KERNBASE + 0x100000, 0xeebfc000, Sim.KERNBASE + 0x101000)]
        0x1000
        [Msg_pgdir_num 0x100000; Msg_first_task 0 (-1); Msg_pgdir_num 0x103000] [].
Proof.
  assert (R : 0 < 1 < NR_TASKS Sim.cfg3) by (split; reflexivity).
  assert (S : slot (tasks (Inputs.trapped_forked 10)) 1 = Some Inputs.forked_child)
    by (vm_compute; reflexivity).
  split; [exact sim_config_ok|]. split; [exact R|]. split; [exact S|].
  split; [reflexivity|]. split; [vm_compute; reflexivity|].
  destruct (sys_kill_live_task Sim.cfg3 (Inputs.trapped_forked 10) 1 Inputs.forked_child
              sim_config_ok R S eq_refl)
    as (k1 & t1 & E & S1 & H1 & H2 & H3 & H4 & H5 & H6 & H7 & H8 & H9 & H10 & H11).
  exists k1, t1. repeat (split; [assumption|]).
  rewrite H11. vm_compute. reflexivity.
Defined.

(** C6: the kill of the stopped task 1 and of the ids 0 and 3 changes
    nothing, the system call returns 0, and task 2 is killed twice as
    once. *)
Lemma sys_kill_noop_witness :
  (sys_kill Sim.cfg3 1 Sim.tight = Done tt Sim.tight /\
   do_syscall Sim.cfg3 4 1 0 0 0 0 Sim.tight
   = Done 0 (set_mach (cprintf (Msg_going_to_kill 1) (mach Sim.tight)) Sim.tight)) /\
  sys_kill Sim.cfg3 0 Sim.tight = Done tt Sim.tight /\
  sys_kill Sim.cfg3 3 Sim.tight = Done tt Sim.tight /\
  (syscall_of_number Sim.cfg3 4 = Some SYS_kill /\
   do_syscall Sim.cfg3 4 2 0 0 0 0 Sim.tight
   = Done 0 (Sim.final (do_syscall Sim.cfg3 4 2 0 0 0 0 Sim.tight)) /\
   0 = 0) /\
  (sched_keeps_stopped Sim.machine /\
   sys_kill Sim.cfg3 2 Sim.tight = Done tt (Sim.final (sys_kill Sim.cfg3 2 Sim.tight)) /\
   sys_kill Sim.cfg3 2 (Sim.final (sys_kill Sim.cfg3 2 Sim.tight))
   = Done tt (Sim.final (sys_kill Sim.cfg3 2 Sim.tight))).
Proof.
  split; [|split; [|split; [|split]]].
  - destruct (proj1 (sys_kill_noop Sim.cfg3 Sim.tight 1)) as [E D].
    { right. right. exists (Sim.task_in TASK_STOP 1). split; reflexivity. }
    split; [exact E|]. apply D; reflexivity.
  - apply (proj1 (sys_kill_noop Sim.cfg3 Sim.tight 0)). left. lia.
  - apply (proj1 (sys_kill_noop Sim.cfg3 Sim.tight 3)). right. left. cbn. lia.
  - assert (E : do_syscall Sim.cfg3 4 2 0 0 0 0 Sim.tight
                = Done 0 (Sim.final (do_syscall Sim.cfg3 4 2 0 0 0 0 Sim.tight)))
      by (vm_compute; reflexivity).
    split; [reflexivity|]. split; [exact E|].
    exact (proj1 (proj2 (sys_kill_noop Sim.cfg3 Sim.tight 2))
             4 2 0 0 0 0 0 _ eq_refl E).
  - assert (E : sys_kill Sim.cfg3 2 Sim.tight
                = Done tt (Sim.final (sys_kill Sim.cfg3 2 Sim.tight)))
      by (vm_compute; reflexivity).
    split; [exact sim_yield_keeps_stopped|]. split; [exact E|].
    exact (proj2 (proj2 (sys_kill_noop Sim.cfg3 Sim.tight 2))
             sim_yield_keeps_stopped _ E).
Defined.

(** C7, as stated, fails: a sleep of 2^31 ticks leaves -2^31 in
    [remind_ticks]. *)
Lemma sys_sleep_long_duration :
  cur_task Sim.tight = Some 0 /\
  slot (tasks Sim.tight) 0 = Some (Sim.task_in TASK_RUNNING 0) /\
  exists k' t,
    sys_sleep (2 ^ 31) Sim.tight = Done 0 k' /\
    slot (tasks k') 0 = Some t /\
    state t = TASK_SLEEP /\
    remind_ticks t = - 2 ^ 31 /\
    remind_ticks t <> 2 ^ 31.
Proof.
  split; [reflexivity|]. split; [reflexivity|].
  eexists _, _. split; [vm_compute; reflexivity|].
  split; [vm_compute; reflexivity|].
  split; [reflexivity|]. split; [reflexivity|]. cbn. lia.
Qed.

(** C7 as amended: the running task 0 sleeps for 7 ticks, and for 2^31
    ticks, which leaves -2^31 in [remind_ticks]; with no current task, and
    with the sleeping task 2 as current task, the kernel panics. *)
Lemma sys_sleep_running_or_panic_witness :
  (cur_task Sim.tight = Some 0 /\
   slot (tasks Sim.tight) 0 = Some (Sim.task_in TASK_RUNNING 0) /\
   exists k1 t1,
     sys_sleep 7 Sim.tight = Done 0 (sched_yield k1) /\
     slot (tasks k1) 0 = Some t1 /\
     state t1 = TASK_SLEEP /\
     remind_ticks t1 = 7 /\
     task_id t1 = 0 /\ parent_id t1 = -1 /\ tf t1 = initial_tf Sim.cfg3 /\
     pgdir t1 = pgdir (Sim.task_in TASK_RUNNING 0) /\
     (forall j, j <> 0 -> slot (tasks k1) j = slot (tasks Sim.tight) j) /\
     length (tasks k1) = length (tasks Sim.tight) /\
     cur_task k1 = cur_task Sim.tight /\
     same_globals Sim.tight k1 /\
     mach k1 = mach Sim.tight) /\
  (exists k1 t1,
     sys_sleep (2 ^ 31) Sim.tight = Done 0 (sched_yield k1) /\
     slot (tasks k1) 0 = Some t1 /\
     state t1 = TASK_SLEEP /\
     remind_ticks t1 = 2 ^ 31 - 2 ^ 32) /\
  (cur_task Sim.idle = None /\
   sys_sleep 7 Sim.idle = Panic Panic_cant_sleep Sim.idle) /\
  (cur_task Sim.dozing = Some 2 /\
   slot (tasks Sim.dozing) 2 = Some (Sim.task_in TASK_SLEEP 2) /\
   sys_sleep 7 Sim.dozing = Panic Panic_cant_sleep Sim.dozing).
Proof.
  split; [|split; [|split]].
  - split; [reflexivity|]. split; [reflexivity|].
    destruct (proj1 (sys_sleep_running_or_panic Sim.tight 7)
                0 (Sim.task_in TASK_RUNNING 0) eq_refl eq_refl eq_refl)
      as (k1 & t1 & E & S1 & H1 & H2 & H3 & H4 & H5 & H6 & H7 & H8 & H9 & H10 & H11 & H12 & H13).
    exists k1, t1. split; [exact E|]. split; [exact S1|]. split; [exact H1|].
    split; [apply H3; lia|]. repeat (split; [assumption|]). assumption.
  - destruct (proj1 (sys_sleep_running_or_panic Sim.tight (2 ^ 31))
                0 (Sim.task_in TASK_RUNNING 0) eq_refl eq_refl eq_refl)
      as (k1 & t1 & E & S1 & H1 & H2 & H3 & H4 & _).
    exists k1, t1. split; [exact E|]. split; [exact S1|]. split; [exact H1|].
    apply H4. lia.
  - split; [reflexivity|].
    exact (proj1 (proj2 (sys_sleep_running_or_panic Sim.idle 7)) eq_refl).
  - split; [reflexivity|]. split; [reflexivity|].
    apply (proj2 (proj2 (sys_sleep_running_or_panic Sim.dozing 7))
             2 (Sim.task_in TASK_SLEEP 2)); [reflexivity|reflexivity|discriminate].
Defined.

(** C8, for the call number 99. *)
Lemma do_syscall_unknown_number_witness :
  syscall_of_number Sim.cfg3 99 = None /\
  do_syscall Sim.cfg3 99 1 2 3 4 5 Sim.tight = Done (-1) Sim.tight.
Proof.
  split; [reflexivity|].
  exact (do_syscall_unknown_number Sim.cfg3 Sim.tight 99 1 2 3 4 5 eq_refl).
Defined.

(** C9, as stated, fails: on a machine with three frames [task_init]
    returns, having taken them all for task 0, and the fork that task 0
    then asks for finds no frame for a page directory: the kernel panics,
    and no task 1 is created. *)
Lemma boot_then_fork_out_of_frames :
  cur_task (Sim.boot 3 3) = None /\
  task_init Sim.cfg3 (Sim.boot 3 3) = Done tt (Sim.booted 3) /\
  cur_task (Sim.booted 3) = Some 0 /\
  syscall_of_number Sim.cfg3 3 = Some SYS_fork /\
  fst (setupkvm (mach (Sim.booted 3))) = NULL /\
  (exists k2,
      do_syscall Sim.cfg3 3 0 0 0 0 0 (Sim.booted 3) = Panic Panic_no_pgdir k2 /\
      slot (tasks k2) 1 = Some zero_task) /\
  forall r k2, do_syscall Sim.cfg3 3 0 0 0 0 0 (Sim.booted 3) <> Done r k2.
Proof.
  split; [reflexivity|]. split; [vm_compute; reflexivity|].
  split; [vm_compute; reflexivity|]. split; [reflexivity|].
  split; [vm_compute; reflexivity|]. split.
  - eexists. split; vm_compute; reflexivity.
  - intros r k2 E. vm_compute in E. discriminate.
Qed.

(** C9 as amended, on a machine with three slots and ten frames: after
    boot, task 0 traps with the call number 3 in [reg_eax]; the fork
    returns 1, and task 1 has 0 in [reg_eax] and the frame of the trap in
    every other field. *)
Lemma boot_then_fork_witness :
  cur_task (Sim.boot 3 10) = None /\
  task_init Sim.cfg3 (Sim.boot 3 10) = Done tt (Sim.booted 10) /\
  (cur_task (Sim.booted 10) = Some 0 /\
   exists t0, slot (tasks (Sim.booted 10)) 0 = Some t0 /\ task_id t0 = 0 /\
              state t0 = TASK_RUNNING /\ parent_id t0 = -1) /\
  cur_task (Inputs.trapped 10) = Some 0 /\
  slot (tasks (Inputs.trapped 10)) 0 = Some Inputs.trapped_task0 /\
  task_id Inputs.trapped_task0 = 0 /\ state Inputs.trapped_task0 = TASK_RUNNING /\
  reg_eax (tf_regs (tf Inputs.trapped_task0)) = 3 /\
  (forall j, 1 <= j ->
     slot (tasks (Inputs.trapped 10)) j = slot (tasks (Sim.booted 10)) j) /\
  syscall_of_number Sim.cfg3 3 = Some SYS_fork /\
  config_ok Sim.cfg3 /\ 1 < NR_TASKS Sim.cfg3 /\
  (exists k2, do_syscall Sim.cfg3 3 0 0 0 0 0 (Inputs.trapped 10) = Done 1 k2) /\
  do_syscall Sim.cfg3 3 0 0 0 0 0 (Inputs.trapped 10)
  = Done 1 (Inputs.trapped_forked 10) /\
  slot (tasks (Inputs.trapped_forked 10)) 0 = Some Inputs.trapped_task0 /\
  exists t1, slot (tasks (Inputs.trapped_forked 10)) 1 = Some t1 /\ task_id t1 = 1 /\
             state t1 = TASK_RUNNABLE /\ parent_id t1 = 0 /\
             reg_eax (tf_regs (tf t1)) = 0 /\
             same_but_eax (tf t1) (tf Inputs.trapped_task0).
Proof.
  assert (I : task_init Sim.cfg3 (Sim.boot 3 10) = Done tt (Sim.booted 10))
    by (vm_compute; reflexivity).
  assert (F : do_syscall Sim.cfg3 3 0 0 0 0 0 (Inputs.trapped 10)
              = Done 1 (Inputs.trapped_forked 10))
    by (vm_compute; reflexivity).
  assert (Sp : slot (tasks (Inputs.trapped 10)) 0 = Some Inputs.trapped_task0)
    by (vm_compute; reflexivity).
  assert (Hrest : forall j, 1 <= j ->
            slot (tasks (Inputs.trapped 10)) j = slot (tasks (Sim.booted 10)) j).
  { intros j Hj. unfold slot. destruct (0 <=? j); [|reflexivity].
    destruct (Z.to_nat j) as [|n] eqn:Ej; [lia|]. vm_compute. reflexivity. }
  assert (Ek : cur_task (Inputs.trapped 10) = Some 0) by (vm_compute; reflexivity).
  destruct (boot_then_fork Sim.cfg3 (Sim.boot 3 10) (Sim.booted 10) eq_refl I)
    as [B K].
  destruct (K (Inputs.trapped 10) Inputs.trapped_task0 3 0 0 0 0 0
              Ek Sp eq_refl eq_refl Hrest eq_refl) as [Kforward Kback].
  split; [reflexivity|]. split; [exact I|]. split; [exact B|].
  split; [exact Ek|]. split; [exact Sp|]. split; [reflexivity|].
  split; [reflexivity|]. split; [reflexivity|]. split; [exact Hrest|].
  split; [reflexivity|]. split; [exact sim_config_ok|]. split; [reflexivity|].
  split.
  { eapply (Kforward _ _ _ _ sim_config_ok eq_refl).
    - vm_compute. reflexivity.
    - vm_compute. discriminate.
    - vm_compute. reflexivity.
    - vm_compute. reflexivity. }
  split; [exact F|].
  exact (proj2 (Kback 1 (Inputs.trapped_forked 10) F ltac:(lia))).
Defined.

(** C10, for the creation of a task in the stopped slot 1. *)
Lemma task_create_stack_pointer_witness :
  config_ok Sim.cfg3 /\
  task_create Sim.cfg3 Sim.roomy = Done 1 (Sim.final (task_create Sim.cfg3 Sim.roomy)) /\
  exists t m1,
    slot (tasks (Sim.final (task_create Sim.cfg3 Sim.roomy))) 1 = Some t /\
    tf_esp (tf t) = 0xeebfe000 - 4096 /\
    setupkvm (mach Sim.roomy) = (pgdir t, m1) /\
    map_ustack Sim.cfg3 (pgdir t) (ustack_pages Sim.cfg3)
               (printk (Msg_pgdir_num (PADDR (pgdir t))) m1)
    = (true, mach (Sim.final (task_create Sim.cfg3 Sim.roomy))) /\
    (forall va, 0xeebfe000 - 8192 <= va < 0xeebfe000 ->
       exists p, In p (ustack_pages Sim.cfg3) /\ p <= va < p + 4096) /\
    last (ustack_pages Sim.cfg3) = Some (0xeebfe000 - 4096).
Proof.
  assert (E : task_create Sim.cfg3 Sim.roomy
              = Done 1 (Sim.final (task_create Sim.cfg3 Sim.roomy)))
    by (vm_compute; reflexivity).
  split; [exact sim_config_ok|]. split; [exact E|].
  apply (task_create_stack_pointer Sim.cfg3 Sim.roomy _ 1 sim_config_ok E).
  lia.
Defined.

(** * Further properties of the code *)

(** ** Creation: what it leaves alone, and the capacity of the table *)

Section MoreCreate.

Context {M : Type} `{Machine M}.
Variable cfg : Config.

(** The current task pointer is inside the table, or names a slot the
    table does not have. *)
Lemma classic_cur_ok (k : Kernel M) :
  cur_ok k \/ exists c, cur_task k = Some c /\ slot (tasks k) c = None.
Proof.
  unfold cur_ok. destruct (cur_task k) as [c|]; [|left; intros; discriminate].
  destruct (slot (tasks k) c) as [t|] eqn:S.
  - left. intros c' E. injection E as <-. rewrite S. eauto.
  - right. eauto.
Qed.

(** What a [task_create] that returned -1 did. *)
Lemma task_create_failed_inv (k k' : Kernel M) :
  task_create cfg k = Done (-1) k' ->
  k' = k \/
  exists i t0 pd m2,
    lowest_free (tasks k) i t0 /\
    k' = set_tasks (<[Z.to_nat i := set_pgdir pd t0]> (tasks k)) (set_mach m2 k).
Proof.
  intros E.
  destruct (find_free cfg (S (Z.to_nat (NR_TASKS cfg))) 0 k) as [i k0|w k0|k0] eqn:Hscan;
    try (unfold task_create, bind in E; rewrite Hscan in E; discriminate).
  destruct (find_free_top cfg _ _ _ Hscan) as (-> & Hi & Hlow & Hfree & Hend).
  destruct (Z_lt_le_dec i (NR_TASKS cfg)) as [Lt|Ge].
  2:{ rewrite (task_create_at_end cfg _ _ Hscan Ge) in E. left. congruence. }
  destruct (Hfree Lt) as (t0 & S & F).
  destruct (setupkvm (mach k)) as [pd m1] eqn:Hkvm.
  destruct (Z.eq_dec pd NULL) as [->|Hpd].
  { rewrite (task_create_at_panic cfg _ _ _ _ Hscan Lt S Hkvm) in E. discriminate. }
  destruct (map_ustack cfg pd (ustack_vas cfg) (printk (Msg_pgdir_num (PADDR pd)) m1))
    as [[|] m2] eqn:Hmap.
  - destruct (classic_cur_ok k) as [Hcur|(c & Ec & Sc)].
    + rewrite (task_create_at_ok cfg _ _ _ _ _ _ Hscan Lt S Hkvm Hpd Hmap Hcur) in E.
      injection E as E _. lia.
    + destruct (task_create_at_bad_cur cfg _ _ _ _ _ _ _ Hscan Lt S Hkvm Hpd Hmap Ec Sc)
        as [k1 E1]. congruence.
  - rewrite (task_create_at_nomem cfg _ _ _ _ _ _ Hscan Lt S Hkvm Hpd Hmap) in E.
    injection E as <-. right. exists i, t0, pd, m2. unfold lowest_free. auto.
Qed.

(** X1: Every [task_create] that returns, with an id or with -1, leaves the
    current task pointer, the size of the table and every live task as
    they were. *)
Theorem task_create_keeps_live_tasks (k k' : Kernel M) r :
  task_create cfg k = Done r k' ->
  cur_task k' = cur_task k /\
  length (tasks k') = length (tasks k) /\
  forall j u, slot (tasks k) j = Some u -> free_or_stop (state u) = false ->
              slot (tasks k') j = Some u.
Proof.
  intros E.
  assert (Hins : forall i t0 x m,
             slot (tasks k) i = Some t0 -> free_or_stop (state t0) = true ->
             k' = set_tasks (<[Z.to_nat i := x]> (tasks k)) (set_mach m k) ->
             cur_task k' = cur_task k /\
             length (tasks k') = length (tasks k) /\
             forall j u, slot (tasks k) j = Some u ->
                         free_or_stop (state u) = false ->
                         slot (tasks k') j = Some u).
  { intros i t0 x m S F ->. cbn [tasks cur_task set_tasks set_mach].
    split; [reflexivity|]. split; [apply length_insert|].
    intros j u Sj Fj. pose proof (slot_range _ _ _ S) as R.
    rewrite slot_insert_ne; [assumption|lia|congruence]. }
  destruct (Z.eq_dec r (-1)) as [->|Hr].
  - destruct (task_create_failed_inv k k' E)
      as [->|(i & t0 & pd & m2 & (S & F & _) & Hk)]; [auto|].
    exact (Hins i t0 _ m2 S F Hk).
  - destruct (task_create_inv cfg k k' r E Hr)
      as (t0 & pd & m1 & m2 & _ & (S & F & _) & _ & _ & _ & _ & Hk).
    exact (Hins r t0 _ m2 S F Hk).
Qed.

(** X2: After a successful [task_create] the new task has a fresh user-mode
    frame: the code selector 0x1b and the data selectors 0x23, all of
    privilege level 3, every general register, [eip] and [eflags] zero;
    its id is a slot index below [NR_TASKS], and the slot was FREE or STOP
    before. *)
Theorem task_create_user_mode_frame (k k' : Kernel M) id :
  task_create cfg k = Done id k' -> id <> -1 ->
  0 <= id < NR_TASKS cfg /\
  (exists old, slot (tasks k) id = Some old /\ free_or_stop (state old) = true) /\
  exists t,
    slot (tasks k') id = Some t /\
    tf_cs (tf t) = 0x1b /\ tf_ds (tf t) = 0x23 /\ tf_es (tf t) = 0x23 /\
    tf_ss (tf t) = 0x23 /\
    Z.land (tf_cs (tf t)) 3 = 3 /\ Z.land (tf_ss (tf t)) 3 = 3 /\
    tf_regs (tf t) = zero_regs /\ tf_eip (tf t) = 0 /\ tf_eflags (tf t) = 0.
Proof.
  intros E Hid.
  destruct (task_create_inv cfg k k' id E Hid)
    as (t0 & pd & m1 & m2 & Hrange & (S & F & _) & _ & _ & _ & _ & ->).
  split; [assumption|]. split; [eauto|].
  exists (created_task cfg k id pd). cbn [tasks set_tasks set_mach].
  split; [eapply slot_insert_eq; eassumption|]. repeat split.
Qed.

End MoreCreate.

(** ** Counting free slots *)

Lemma count_free_insert (ts : list Task) (n : nat) old new :
  ts !! n = Some old ->
  count_free (<[n := new]> ts)
  = count_free ts
    - (if free_or_stop (state old) then 1 else 0)
    + (if free_or_stop (state new) then 1 else 0).
Proof.
  unfold count_free. revert n.
  induction ts as [|a ts IH]; intros [|n] L; try discriminate.
  - injection L as ->.
    change (<[0%nat := new]> (old :: ts)) with (new :: ts).
    rewrite !filter_cons.
    destruct (free_or_stop (state new)); destruct (free_or_stop (state old));
      repeat case_decide; try congruence; cbn [length];
      rewrite ?Nat2Z.inj_succ; lia.
  - change ((a :: ts) !! S n) with (ts !! n) in L. specialize (IH n L).
    change (<[S n := new]> (a :: ts)) with (a :: <[n := new]> ts).
    rewrite !filter_cons.
    case_decide; cbn [length]; rewrite ?Nat2Z.inj_succ, IH; lia.
Qed.

Lemma count_free_nonneg ts : 0 <= count_free ts.
Proof. unfold count_free. lia. Qed.

Lemma count_free_none ts : count_free ts = 0 -> table_full ts.
Proof.
  unfold count_free. intros Hz j u S.
  destruct (free_or_stop (state u)) eqn:F; [|reflexivity]. exfalso.
  assert (Hnil : filter (fun t => free_or_stop (state t) = true) ts = [])
    by (apply length_zero_iff_nil; lia).
  unfold slot in S. destruct (0 <=? j); [|discriminate].
  apply list_elem_of_lookup_2 in S.
  exact (filter_nil_not_elem_of _ _ u Hnil F S).
Qed.


Section Capacity.

Context {M : Type} `{Machine M}.
Variable cfg : Config.

Lemma task_create_count_free (k k' : Kernel M) id :
  task_create cfg k = Done id k' -> id <> -1 ->
  count_free (tasks k') = count_free (tasks k) - 1 /\
  length (tasks k') = length (tasks k).
Proof.
  intros E Hid.
  destruct (task_create_inv cfg k k' id E Hid)
    as (t0 & pd & m1 & m2 & Hrange & (S & F & _) & _ & _ & _ & _ & ->).
  cbn [tasks set_tasks set_mach]. split; [|apply length_insert].
  unfold slot in S. destruct (0 <=? id); [|discriminate].
  rewrite (count_free_insert _ _ _ _ S), F. cbn. lia.
Qed.

(** X3: The capacity of the table: [n] successful creations in a row use up
    [n] of the FREE or STOP slots, so there are at most as many as the
    table had such slots; and once they are used up, the next
    [task_create] returns -1 and changes nothing. *)
Theorem creations_use_up_the_table n (k k' : Kernel M) :
  creations cfg n k k' -> table_ok cfg (tasks k) ->
  table_ok cfg (tasks k') /\
  count_free (tasks k') = count_free (tasks k) - Z.of_nat n /\
  Z.of_nat n <= count_free (tasks k) /\
  (Z.of_nat n = count_free (tasks k) -> task_create cfg k' = Done (-1) k').
Proof.
  intros C. induction C as [k|n k k1 k2 id E Hid C IH]; intros Hok.
  - split; [assumption|]. split; [lia|]. split; [apply count_free_nonneg|].
    intros Hz. apply task_create_full; [assumption|].
    apply count_free_none. cbn in Hz. lia.
  - destruct (task_create_count_free k k1 id E Hid) as [Hc Hl].
    assert (Hok1 : table_ok cfg (tasks k1)).
    { unfold table_ok in *. rewrite Hl. assumption. }
    destruct (IH Hok1) as (Hok2 & Hc2 & Hle & Hfull).
    split; [assumption|]. split; [lia|]. split; [lia|].
    intros Hn. apply Hfull. lia.
Qed.

End Capacity.

(** ** Fork: the record of the child, and what a failed fork leaves *)

Section MoreFork.

Context {M : Type} `{Machine M}.
Variable cfg : Config.

(** X4: After a successful [sys_fork] by a live current task, the child is
    RUNNABLE with the default quantum and the id of the parent as
    [parent_id]; its slot was the lowest FREE or STOP one and is not the
    slot of the parent; no other slot and not the current task pointer
    changed, and there is one more RUNNABLE task. *)
Theorem sys_fork_child_record (k k' : Kernel M) c pid p0 :
  cur_task k = Some c -> slot (tasks k) c = Some p0 ->
  free_or_stop (state p0) = false ->
  sys_fork cfg k = Done pid k' -> pid <> -1 ->
  0 < pid < NR_TASKS cfg /\ pid <> c /\
  (exists old, lowest_free (tasks k) pid old) /\
  (exists child,
      slot (tasks k') pid = Some child /\
      state child = TASK_RUNNABLE /\
      parent_id child = task_id p0 /\
      remind_ticks child = TIME_QUANT cfg) /\
  (forall j, j <> pid -> slot (tasks k') j = slot (tasks k) j) /\
  cur_task k' = cur_task k /\
  count_state TASK_RUNNABLE (tasks k') = count_state TASK_RUNNABLE (tasks k) + 1.
Proof.
  intros Ec S0 F0 E Hpid.
  destruct (sys_fork_inv cfg k k' c pid Ec E Hpid)
    as (t0 & pd & m1 & m2 & parent & Hrange & Hlow & Hkvm & Hpd & Hmap
        & Hcur & Sp & Ht & Hc).
  pose proof Hlow as (S & F & Hmin).
  assert (Ne : pid <> c) by congruence.
  split; [assumption|]. split; [assumption|]. split; [eauto|].
  rewrite Ht. split; [|split; [|split]].
  - eexists. split; [eapply slot_insert_eq; eassumption|].
    unfold created_task, parent_for. cbn [state parent_id remind_ticks set_tf].
    rewrite Ec. destruct (Z.eqb_spec c pid) as [|_]; [congruence|].
    rewrite S0. repeat split.
  - intros j Hj. apply slot_insert_ne; lia.
  - assumption.
  - unfold slot in S. destruct (0 <=? pid); [|discriminate].
    rewrite (count_state_insert _ _ _ _ _ S). cbn [state created_task set_tf state_eqb].
    apply free_or_stop_true in F. destruct F as [-> | ->]; cbn; lia.
Qed.

(** X5: [sys_fork] does not undo the creation when it fails after it: when
    [task_create] returned the id 0, and when the child has no page at
    some address of the user stack, [sys_fork] returns -1 and the created
    task stays in its slot, RUNNABLE. *)
Theorem sys_fork_failure_keeps_task (k k1 : Kernel M) c pid :
  cur_task k = Some c ->
  task_create cfg k = Done pid k1 -> pid <> -1 ->
  pid = 0 \/
  (exists t, slot (tasks k1) pid = Some t /\
             fst (copy_pages cfg (pgdir t) (ustack_vas cfg) (mach k1)) = false) ->
  exists k' t',
    sys_fork cfg k = Done (-1) k' /\
    slot (tasks k') pid = Some t' /\ state t' = TASK_RUNNABLE /\
    exists old, slot (tasks k) pid = Some old /\ free_or_stop (state old) = true.
Proof.
  intros Ec Hcreate Hpid Hcase.
  destruct (task_create_inv cfg k k1 pid Hcreate Hpid)
    as (t0 & pd & m1 & m2 & Hrange & (S & F & _) & _ & _ & _ & Hcur & Hk1).
  assert (Sc : slot (tasks k1) pid = Some (created_task cfg k pid pd)).
  { rewrite Hk1. cbn [tasks set_tasks]. eapply slot_insert_eq; eassumption. }
  destruct (Z.eq_dec pid 0) as [->|Hz].
  { exists k1, (created_task cfg k 0 pd).
    split; [exact (sys_fork_create_zero cfg k k1 c Ec Hcreate)|].
    split; [assumption|]. split; [reflexivity|eauto]. }
  destruct Hcase as [|(t & St & Hcopy)]; [contradiction|].
  rewrite Sc in St. injection St as <-.
  assert (exists parent, slot (tasks k1) c = Some parent) as [parent Sp].
  { destruct (Z.eq_dec c pid) as [->|Ne]; [eauto|].
    destruct (Hcur c Ec) as [p Sp]. exists p. rewrite Hk1. cbn [tasks set_tasks].
    rewrite slot_insert_ne by lia. assumption. }
  rewrite (sys_fork_after_create cfg k k1 c pid _ parent Ec Hcreate Hz Sc Sp).
  cbv zeta. rewrite Hcopy.
  eexists _, _. split; [reflexivity|]. cbn [tasks set_tasks set_mach].
  split; [eapply slot_insert_eq; eassumption|]. split; [reflexivity|eauto].
Qed.

(** Every way [sys_fork] returns. *)
Lemma sys_fork_done_cases (k k' : Kernel M) r :
  sys_fork cfg k = Done r k' ->
  k' = k \/
  exists id k1, task_create cfg k = Done id k1 /\ id <> -1 /\
    (k' = k1 \/
     exists created f,
       slot (tasks k1) id = Some created /\
       tasks k' = <[Z.to_nat id := set_tf f created]> (tasks k1) /\
       cur_task k' = cur_task k1).
Proof.
  intros E. destruct (cur_task k) as [c|] eqn:Ec.
  2:{ unfold sys_fork in E. revert E. step_cur. rewrite Ec.
      intros E. injection E as _ <-. now left. }
  destruct (task_create cfg k) as [id k1|w k1|k1] eqn:Hcreate;
    try (exfalso; eapply (sys_fork_create_stops cfg k c Ec); [|exact E];
         intros; rewrite Hcreate; discriminate).
  right. exists id, k1. split; [reflexivity|].
  destruct (Z.eq_dec id (-1)) as [->|Hid].
  { rewrite (sys_fork_create_failed cfg k k1 c Ec Hcreate) in E. discriminate. }
  split; [assumption|].
  destruct (Z.eq_dec id 0) as [->|Hz].
  { rewrite (sys_fork_create_zero cfg k k1 c Ec Hcreate) in E.
    injection E as _ <-. now left. }
  destruct (task_create_inv cfg k k1 id Hcreate Hid)
    as (t0 & pd & m1 & m2 & Hrange & (S & F & _) & _ & _ & _ & Hcur & Hk1).
  assert (Sc : slot (tasks k1) id = Some (created_task cfg k id pd)).
  { rewrite Hk1. cbn [tasks set_tasks]. eapply slot_insert_eq; eassumption. }
  assert (exists parent, slot (tasks k1) c = Some parent) as [parent Sp].
  { destruct (Z.eq_dec c id) as [->|Ne]; [eauto|].
    destruct (Hcur c Ec) as [p Sp]. exists p. rewrite Hk1. cbn [tasks set_tasks].
    rewrite slot_insert_ne by lia. assumption. }
  rewrite (sys_fork_after_create cfg k k1 c id _ parent Ec Hcreate Hz Sc Sp) in E.
  cbv zeta in E. right. exists (created_task cfg k id pd).
  destruct (fst (copy_pages cfg _ _ _)); injection E as _ <-;
    eexists; (split; [assumption|]); cbn [tasks cur_task set_tasks set_mach];
    split; reflexivity.
Qed.

(** X13: [sys_fork] never returns 0 to its caller: what it returns is -1
    or the id of the child, a slot index from 1 to [NR_TASKS - 1]; with no
    current task it returns -1 and changes nothing. *)
Theorem sys_fork_result_range (k : Kernel M) :
  (forall r k', sys_fork cfg k = Done r k' -> r = -1 \/ 0 < r < NR_TASKS cfg) /\
  (cur_task k = None -> sys_fork cfg k = Done (-1) k).
Proof.
  split.
  - intros r k' E. destruct (Z.eq_dec r (-1)) as [|Hr]; [now left|right].
    destruct (cur_task k) as [c|] eqn:Ec.
    + destruct (sys_fork_inv cfg k k' c r Ec E Hr)
        as (t0 & pd & m1 & m2 & parent & Hrange & _). exact Hrange.
    + unfold sys_fork in E. revert E. step_cur. rewrite Ec.
      intros E. injection E as E _. congruence.
  - intros Ec. unfold sys_fork. step_cur. now rewrite Ec.
Qed.

End MoreFork.

(** ** Dispatch: the calls that leave the task table alone, and the ids *)

Section MoreDispatch.

Context {M : Type} `{Machine M}.
Variable cfg : Config.

Lemma do_puts_loop_mach fuel str len : forall i (k : Kernel M),
  exists m, do_puts_loop fuel str i len k = Done tt (set_mach m k).
Proof.
  induction fuel as [|fuel IH]; intros i k.
  - exists (mach k). destruct k; reflexivity.
  - cbn [do_puts_loop]. destruct (i <? len).
    + step_ask. step_exec.
      destruct (IH (i + 1) (set_mach (k_putch (load_char (to_uint32 (str + i)) (mach k))
                                        (mach k)) k)) as [m E].
      exists m. rewrite E. reflexivity.
    + exists (mach k). destruct k; reflexivity.
Qed.

(** A call other than fork, sleep and kill changes the machine at most,
    however it ends. *)
Lemma do_syscall_other_state (k : Kernel M) n a1 a2 a3 a4 a5 :
  syscall_of_number cfg n <> Some SYS_fork ->
  syscall_of_number cfg n <> Some SYS_sleep ->
  syscall_of_number cfg n <> Some SYS_kill ->
  exists m, outcome_state (do_syscall cfg n a1 a2 a3 a4 a5 k) = set_mach m k.
Proof.
  intros Hf Hs Hk. unfold do_syscall.
  assert (Hid : exists m, k = set_mach m k) by (exists (mach k); destruct k; reflexivity).
  destruct (syscall_of_number cfg n) as [[]|]; try congruence; try exact Hid.
  - unfold do_getc, call. destruct (k_getc (mach k)) as [c m]. exists m. reflexivity.
  - unfold do_puts.
    destruct (do_puts_loop_mach (S (Z.to_nat a2)) a1 a2 0 k) as [m E].
    exists m. unfold bind. rewrite E. reflexivity.
  - unfold sys_getpid. unfold bind, get_cur_task, get_task.
    destruct (cur_task k) as [c|]; [|exact Hid].
    destruct (slot (tasks k) c); exact Hid.
  - eexists. reflexivity.
  - eexists. reflexivity.
Qed.

(** X6: The calls that only print, read or query (every call number that is
    not the one of fork, sleep or kill, unknown numbers among them) never
    change the task table, the current task pointer or any other global of
    the kernel, whatever they return: only the machine may differ. *)
Theorem do_syscall_keeps_table (k : Kernel M) n a1 a2 a3 a4 a5 :
  syscall_of_number cfg n <> Some SYS_fork ->
  syscall_of_number cfg n <> Some SYS_sleep ->
  syscall_of_number cfg n <> Some SYS_kill ->
  let k' := outcome_state (do_syscall cfg n a1 a2 a3 a4 a5 k) in
  k' = set_mach (mach k') k /\ tasks k' = tasks k /\ cur_task k' = cur_task k.
Proof.
  intros Hf Hs Hk k'.
  destruct (do_syscall_other_state k n a1 a2 a3 a4 a5 Hf Hs Hk) as [m E].
  subst k'. rewrite E. repeat split.
Qed.

Lemma free_or_stop_true_false s : free_or_stop s = false -> s <> TASK_FREE.
Proof. destruct s; cbn; congruence. Qed.

Lemma ids_ok_insert (ts : list Task) i old x :
  ids_ok ts -> slot ts i = Some old ->
  (state x <> TASK_FREE -> task_id x = i) ->
  ids_ok (<[Z.to_nat i := x]> ts).
Proof.
  intros Hids S Hx j t Sj Hj. pose proof (slot_range _ _ _ S) as R.
  destruct (Z.eq_dec j i) as [->|Ne].
  - rewrite (slot_insert_eq _ _ _ _ S) in Sj. injection Sj as <-. auto.
  - rewrite slot_insert_ne in Sj by lia. auto.
Qed.

Lemma task_create_keeps_ids (k k' : Kernel M) r :
  ids_ok (tasks k) -> task_create cfg k = Done r k' -> ids_ok (tasks k').
Proof.
  intros Hids E. destruct (Z.eq_dec r (-1)) as [->|Hr].
  - destruct (task_create_failed_inv cfg k k' E)
      as [->|(i & t0 & pd & m2 & (S & F & _) & ->)]; [assumption|].
    cbn [tasks set_tasks set_mach]. eapply ids_ok_insert; [assumption|eassumption|].
    cbn [state task_id set_pgdir]. intros Hs. exact (Hids i t0 S Hs).
  - destruct (task_create_inv cfg k k' r E Hr)
      as (t0 & pd & m1 & m2 & _ & (S & F & _) & _ & _ & _ & _ & ->).
    cbn [tasks set_tasks set_mach]. eapply ids_ok_insert; [assumption|eassumption|].
    reflexivity.
Qed.

Lemma sys_fork_keeps_ids (k k' : Kernel M) r :
  ids_ok (tasks k) -> sys_fork cfg k = Done r k' -> ids_ok (tasks k').
Proof.
  intros Hids E.
  destruct (sys_fork_done_cases cfg k k' r E)
    as [->|(id & k1 & Hcreate & Hid & Hk')]; [assumption|].
  pose proof (task_create_keeps_ids k k1 id Hids Hcreate) as Hids1.
  destruct Hk' as [->|(created & f & Sc & -> & _)]; [assumption|].
  eapply ids_ok_insert; [assumption|eassumption|].
  cbn [state task_id set_tf]. intros Hs. exact (Hids1 id created Sc Hs).
Qed.

(** Every way [sys_sleep] returns. *)
Lemma sys_sleep_done_inv (k k' : Kernel M) time r :
  sys_sleep time k = Done r k' ->
  exists c t, cur_task k = Some c /\ slot (tasks k) c = Some t /\
              state t = TASK_RUNNING /\
              k' = sched_yield
                     (set_tasks
                        (<[Z.to_nat c := set_remind_ticks (to_int32 time)
                                           (set_state TASK_SLEEP t)]> (tasks k)) k).
Proof.
  intros E. destruct (cur_task k) as [c|] eqn:Ec.
  2:{ unfold sys_sleep in E. revert E. step_cur. rewrite Ec. discriminate. }
  destruct (slot (tasks k) c) as [t|] eqn:S.
  2:{ unfold sys_sleep in E. revert E. step_cur. rewrite Ec.
      unfold bind, get_task. rewrite S. discriminate. }
  destruct (state t) eqn:St;
    try (unfold sys_sleep in E; revert E; step_cur; rewrite Ec; step_get S;
         rewrite St; discriminate).
  rewrite (sys_sleep_run k time c t Ec S St) in E. injection E as _ <-.
  exists c, t. auto.
Qed.

(** X7: The ids are kept by the whole system-call interface: when the
    scheduler keeps them, every system call that returns leaves a table
    in which each claimed slot holds its own index as [task_id]. *)
Theorem do_syscall_keeps_ids (k k' : Kernel M) n a1 a2 a3 a4 a5 r :
  (forall k0 : Kernel M, ids_ok (tasks k0) -> ids_ok (tasks (sched_yield k0))) ->
  ids_ok (tasks k) ->
  do_syscall cfg n a1 a2 a3 a4 a5 k = Done r k' ->
  ids_ok (tasks k').
Proof.
  intros Hsched Hids E.
  destruct (syscall_of_number cfg n) as [s|] eqn:Hn.
  2:{ pose proof (do_syscall_other_state k n a1 a2 a3 a4 a5) as [m Em];
        try (rewrite Hn; discriminate).
      rewrite E in Em. cbn in Em. subst k'. assumption. }
  destruct s;
    try (pose proof (do_syscall_other_state k n a1 a2 a3 a4 a5) as [m Em];
         try (rewrite Hn; discriminate);
         rewrite E in Em; cbn in Em; subst k'; assumption);
    unfold do_syscall in E; rewrite Hn in E.
  - exact (sys_fork_keeps_ids k k' r Hids E).
  - apply sys_sleep_done_inv in E as (c & t & Ec & S & St & ->).
    apply Hsched. cbn [tasks set_tasks].
    eapply ids_ok_insert; [assumption|eassumption|].
    intros _. cbn [task_id set_remind_ticks set_state].
    apply (Hids c t S). rewrite St. discriminate.
  - revert E. step_exec. intros E.
    apply bind_Done_inv in E as ([] & k1 & Hkill & E). injection E as _ <-.
    apply sys_kill_cases in Hkill as [->|(t & R & S & F & ->)]; [assumption|].
    apply Hsched. cbn [tasks set_tasks set_mach].
    eapply ids_ok_insert; [assumption|eassumption|].
    intros _. cbn [task_id set_state].
    apply (Hids _ t S). apply free_or_stop_true_false in F. exact F.
Qed.

(** X8: [sys_getpid] returns the slot index of the current task when the ids
    are in order, and -1 when no task is current; it changes nothing. *)
Theorem sys_getpid_slot_index (k : Kernel M) :
  (forall c t, ids_ok (tasks k) -> cur_task k = Some c ->
               slot (tasks k) c = Some t -> state t <> TASK_FREE ->
               sys_getpid k = Done c k) /\
  (cur_task k = None -> sys_getpid k = Done (-1) k).
Proof.
  split.
  - intros c t Hids Ec S Hs. unfold sys_getpid. step_cur. rewrite Ec. step_get S.
    rewrite (Hids c t S Hs). reflexivity.
  - intros Ec. unfold sys_getpid. step_cur. now rewrite Ec.
Qed.

End MoreDispatch.

(** ** Console output *)

Section Puts.

Context {M : Type} `{Machine M}.
Variable cfg : Config.

(** Writing a character does not change what the memory holds. *)
Hypothesis putch_keeps_memory :
  forall c a (m : M), load_char a (k_putch c m) = load_char a m.

Lemma do_puts_loop_run str len fuel : forall i (k : Kernel M),
  (Z.to_nat (len - i) < fuel)%nat ->
  do_puts_loop fuel str i len k
  = Done tt
      (set_mach
         (fold_left (fun m c => k_putch c m)
            ((fun j => load_char (to_uint32 (str + j)) (mach k)) <$> seqZ i (len - i))
            (mach k)) k).
Proof.
  induction fuel as [|fuel IH]; intros i k Hf; [lia|].
  cbn [do_puts_loop]. destruct (i <? len) eqn:L.
  - apply Z.ltb_lt in L. step_ask. step_exec.
    rewrite IH by lia. cbn [mach set_mach].
    rewrite (seqZ_cons i (len - i)) by lia.
    replace (Z.pred (len - i)) with (len - (i + 1)) by lia.
    replace (Z.succ i) with (i + 1) by lia.
    rewrite fmap_cons. cbn [fold_left].
    rewrite (list_fmap_ext
               (fun j => load_char (to_uint32 (str + j))
                           (k_putch (load_char (to_uint32 (str + i)) (mach k)) (mach k)))
               (fun j => load_char (to_uint32 (str + j)) (mach k)))
      by (intros; apply putch_keeps_memory).
    reflexivity.
  - apply Z.ltb_ge in L. rewrite seqZ_nil by lia. destruct k; reflexivity.
Qed.

(** X9: [do_puts str len] writes exactly the [len] characters at [str],
    [str + 1], ... to the console, in that order, and nothing when [len]
    is 0; the write system call does this and returns 0; nothing but the
    machine changes. *)
Theorem do_puts_emits_in_order (k : Kernel M) str len :
  let chars := chars_at str len (mach k) in
  let k' := set_mach (fold_left (fun m c => k_putch c m) chars (mach k)) k in
  do_puts str len k = Done tt k' /\
  length chars = Z.to_nat len /\
  forall n a3 a4 a5,
    syscall_of_number cfg n = Some SYS_puts ->
    do_syscall cfg n str len a3 a4 a5 k = Done 0 k'.
Proof.
  intros chars k'.
  assert (E : do_puts str len k = Done tt k').
  { unfold do_puts. rewrite do_puts_loop_run by lia.
    rewrite Z.sub_0_r. reflexivity. }
  split; [exact E|]. split.
  - unfold chars, chars_at. rewrite length_fmap. apply length_seqZ.
  - intros n a3 a4 a5 Hn. unfold do_syscall. rewrite Hn. step E. reflexivity.
Qed.

End Puts.

(** ** Initialisation: the table and the globals after boot *)

Section MoreInit.

Context {M : Type} `{Machine M}.
Variable cfg : Config.

Lemma clear_tasks_length fuel : forall i (k k' : Kernel M),
  clear_tasks cfg fuel i k = Done tt k' -> length (tasks k') = length (tasks k).
Proof.
  induction fuel as [|fuel IH]; intros i k k' E.
  - injection E as <-. reflexivity.
  - cbn [clear_tasks] in E. destruct (i <? NR_TASKS cfg).
    + destruct (slot (tasks k) i) as [t|] eqn:S.
      2:{ unfold bind, modify_task in E. rewrite S in E. discriminate. }
      revert E. step_modify S. step_again S. intros E.
      apply IH in E. rewrite E. cbn [tasks set_tasks]. apply length_insert.
    + injection E as <-. reflexivity.
Qed.

(** Everything [task_init] did, when it returns. *)
Lemma task_init_result (k0 k1 : Kernel M) :
  cur_task k0 = None -> task_init cfg k0 = Done tt k1 ->
  exists pd,
    pd <> NULL /\
    cur_task k1 = Some 0 /\
    slot (tasks k1) 0 = Some (boot_task cfg pd) /\
    (forall j, 1 <= j < NR_TASKS cfg -> slot (tasks k1) j = Some zero_task) /\
    length (tasks k1) = length (tasks k0) /\
    UTEXT_SZ k1 = to_uint32 (UTEXT_end cfg - UTEXT_start cfg) /\
    UDATA_SZ k1 = to_uint32 (UDATA_end cfg - UDATA_start cfg) /\
    UBSS_SZ k1 = to_uint32 (UBSS_end cfg - UBSS_start cfg) /\
    URODATA_SZ k1 = to_uint32 (URODATA_end cfg - URODATA_start cfg) /\
    tss k1 = mkTss (to_uint32 (bootstack cfg + KSTKSIZE cfg)) GD_KD
                   (Z.lor GD_UD 3) (Z.lor GD_UD 3) /\
    gdt_tss0 k1 = mkSegdesc (STS_T32A cfg) (to_uint32 (tss_addr cfg))
                            (sizeof_tss cfg) 0 0.
Proof.
  intros Ec. unfold task_init. step_update.
  intros E. apply bind_Done_inv in E as ([] & kB & Hclear & E).
  pose proof (clear_tasks_length _ _ _ _ Hclear) as HlB. cbn [tasks set_sizes] in HlB.
  apply clear_tasks_inv in Hclear as (HkB & Hzero & _); [|lia|lia].
  assert (EcB : cur_task kB = None) by (rewrite HkB; exact Ec).
  assert (Z1 : UTEXT_SZ kB = to_uint32 (UTEXT_end cfg - UTEXT_start cfg))
    by (rewrite HkB; reflexivity).
  assert (Z2 : UDATA_SZ kB = to_uint32 (UDATA_end cfg - UDATA_start cfg))
    by (rewrite HkB; reflexivity).
  assert (Z3 : UBSS_SZ kB = to_uint32 (UBSS_end cfg - UBSS_start cfg))
    by (rewrite HkB; reflexivity).
  assert (Z4 : URODATA_SZ kB = to_uint32 (URODATA_end cfg - URODATA_start cfg))
    by (rewrite HkB; reflexivity).
  clear HkB. revert E. do 3 step_update.
  match goal with |- bind _ _ ?k = _ -> _ => set (kC := k) end.
  assert (HtC : tasks kC = tasks kB) by reflexivity.
  assert (EcC : cur_task kC = None) by exact EcB.
  assert (Y1 : UTEXT_SZ kC = to_uint32 (UTEXT_end cfg - UTEXT_start cfg)) by exact Z1.
  assert (Y2 : UDATA_SZ kC = to_uint32 (UDATA_end cfg - UDATA_start cfg)) by exact Z2.
  assert (Y3 : UBSS_SZ kC = to_uint32 (UBSS_end cfg - UBSS_start cfg)) by exact Z3.
  assert (Y4 : URODATA_SZ kC = to_uint32 (URODATA_end cfg - URODATA_start cfg))
    by exact Z4.
  assert (Y5 : tss kC = mkTss (to_uint32 (bootstack cfg + KSTKSIZE cfg)) GD_KD
                              (Z.lor GD_UD 3) (Z.lor GD_UD 3)) by reflexivity.
  assert (Y6 : gdt_tss0 kC = mkSegdesc (STS_T32A cfg) (to_uint32 (tss_addr cfg))
                                       (sizeof_tss cfg) 0 0) by reflexivity.
  clearbody kC. rewrite <- HtC in Hzero, HlB. clear HtC EcB Z1 Z2 Z3 Z4 kB.
  intros E. apply bind_Done_inv in E as (i & kD & Hcreate & E).
  revert E. step_update. intros E.
  apply bind_Done_inv in E as (cur & kE & Hget & E).
  assert (Hi : i <> -1).
  { intros ->. unfold get_task in Hget. cbn in Hget. discriminate. }
  destruct (task_create_inv cfg _ _ _ Hcreate Hi)
    as (t0 & pd & m1 & m2 & Hrange & (S & F & Hmin) & Hkvm & Hpd & Hmap & Hcur & ->).
  assert (i = 0) as ->.
  { destruct (Z.eq_dec i 0) as [|Ne]; [assumption|].
    specialize (Hmin 0 zero_task ltac:(lia) (Hzero 0 ltac:(lia))). discriminate. }
  pose proof (slot_insert_eq _ 0 _ (created_task cfg kC 0 pd) S) as Sc.
  match type of Hget with
  | get_task 0 ?k = _ => rewrite (run_get_task k 0 _ Sc) in Hget
  end.
  injection Hget as <- <-.
  revert E. step_exec. norm. do 4 (step_read; step_exec; norm).
  step_modify Sc. norm. do 3 (step_exec; norm).
  unfold modify_task. norm.
  rewrite (slot_insert_eq _ 0 _ _ S). intros E. injection E as <-.
  norm. exists pd.
  split; [assumption|]. split; [reflexivity|]. split.
  { rewrite (slot_insert_eq _ 0 _ _ S). unfold created_task, parent_for, boot_task.
    norm. rewrite EcC. reflexivity. }
  split.
  { intros j Hj. rewrite slot_insert_ne by lia. apply Hzero. lia. }
  split; [rewrite length_insert; assumption|].
  repeat split; assumption.
Qed.

Lemma slot_of_nat (ts : list Task) (n : nat) : slot ts (Z.of_nat n) = ts !! n.
Proof.
  unfold slot. destruct (0 <=? Z.of_nat n) eqn:G.
  - now rewrite Nat2Z.id.
  - apply Z.leb_gt in G. lia.
Qed.

Lemma count_free_replicate n : count_free (replicate n zero_task) = Z.of_nat n.
Proof.
  unfold count_free. induction n as [|n IH]; [reflexivity|].
  cbn [replicate]. rewrite filter_cons. case_decide as D.
  - cbn [length]. rewrite !Nat2Z.inj_succ. lia.
  - exfalso. apply D. reflexivity.
Qed.

(** X10: After [task_init] on a table of [NR_TASKS] slots, the table is task
    0, RUNNING with parent id -1, followed by [NR_TASKS - 1] zeroed FREE
    slots and nothing else; task 0 is current, the ids are in order, and
    [NR_TASKS - 1] slots are free for [task_create]. *)
Theorem task_init_table (k0 k1 : Kernel M) :
  cur_task k0 = None -> table_ok cfg (tasks k0) ->
  task_init cfg k0 = Done tt k1 ->
  exists pd,
    pd <> NULL /\
    tasks k1 = boot_task cfg pd :: replicate (Z.to_nat (NR_TASKS cfg - 1)) zero_task /\
    cur_task k1 = Some 0 /\
    table_ok cfg (tasks k1) /\ ids_ok (tasks k1) /\
    count_free (tasks k1) = NR_TASKS cfg - 1.
Proof.
  intros Ec Hok E.
  destruct (task_init_result k0 k1 Ec E)
    as (pd & Hpd & Ec1 & S0 & Hzero & Hlen & _).
  pose proof (slot_range _ _ _ S0) as R0. unfold table_ok in Hok.
  assert (Hl : tasks k1
               = boot_task cfg pd :: replicate (Z.to_nat (NR_TASKS cfg - 1)) zero_task).
  { apply list_eq. intros [|i].
    - exact S0.
    - change ((boot_task cfg pd :: replicate (Z.to_nat (NR_TASKS cfg - 1)) zero_task)
                !! S i)
        with (replicate (Z.to_nat (NR_TASKS cfg - 1)) zero_task !! i).
      destruct (Z_lt_le_dec (Z.of_nat (S i)) (NR_TASKS cfg)) as [L|L].
      + specialize (Hzero (Z.of_nat (S i)) ltac:(lia)).
        rewrite slot_of_nat in Hzero. rewrite Hzero.
        symmetry. apply lookup_replicate_2. lia.
      + rewrite (lookup_ge_None_2 (tasks k1)) by lia.
        symmetry. apply lookup_ge_None_2. rewrite length_replicate. lia. }
  exists pd. split; [assumption|]. split; [assumption|]. split; [assumption|].
  split; [unfold table_ok; lia|]. split.
  - intros i t Si Hs. destruct (Z.eq_dec i 0) as [->|Ne].
    + rewrite S0 in Si. injection Si as <-. reflexivity.
    + pose proof (slot_range _ _ _ Si) as Ri.
      rewrite (Hzero i) in Si by lia. injection Si as <-. contradiction Hs. reflexivity.
  - rewrite Hl. unfold count_free. rewrite filter_cons.
    case_decide as D; [discriminate D|].
    fold (count_free (replicate (Z.to_nat (NR_TASKS cfg - 1)) zero_task)).
    rewrite count_free_replicate. lia.
Qed.

(** X11: After [task_init], task 0 is set to start in user mode at
    [user_entry] with its stack pointer at [USTACKTOP - PGSIZE] (as a
    32-bit value); the section sizes are the differences of the linker
    symbols; and the TSS sends traps to the kernel stack
    [bootstack + KSTKSIZE] in the kernel data segment. *)
Theorem task_init_globals (k0 k1 : Kernel M) :
  cur_task k0 = None -> task_init cfg k0 = Done tt k1 ->
  (exists t, slot (tasks k1) 0 = Some t /\
             tf_eip (tf t) = to_uint32 (user_entry cfg) /\
             tf_esp (tf t) = to_uint32 (USTACKTOP cfg - PGSIZE cfg) /\
             tf_cs (tf t) = 0x1b /\ tf_ss (tf t) = 0x23 /\
             remind_ticks t = TIME_QUANT cfg /\ pgdir t <> NULL) /\
  UTEXT_SZ k1 = to_uint32 (UTEXT_end cfg - UTEXT_start cfg) /\
  UDATA_SZ k1 = to_uint32 (UDATA_end cfg - UDATA_start cfg) /\
  UBSS_SZ k1 = to_uint32 (UBSS_end cfg - UBSS_start cfg) /\
  URODATA_SZ k1 = to_uint32 (URODATA_end cfg - URODATA_start cfg) /\
  ts_esp0 (tss k1) = to_uint32 (bootstack cfg + KSTKSIZE cfg) /\
  ts_ss0 (tss k1) = 0x10 /\ ts_fs (tss k1) = 0x23 /\ ts_gs (tss k1) = 0x23 /\
  sd_base (gdt_tss0 k1) = to_uint32 (tss_addr cfg) /\ sd_s (gdt_tss0 k1) = 0.
Proof.
  intros Ec E.
  destruct (task_init_result k0 k1 Ec E)
    as (pd & Hpd & Ec1 & S0 & Hzero & Hlen & Z1 & Z2 & Z3 & Z4 & Ht & Hg).
  split.
  { exists (boot_task cfg pd). split; [assumption|]. repeat split. assumption. }
  rewrite Ht, Hg. repeat split; assumption.
Qed.

End MoreInit.

(** ** A stopped slot is claimed again *)

Section Reuse.

Context {M : Type} `{Machine M}.
Variable cfg : Config.

(** X12: Termination and creation compose: when task [pid] is killed and no
    slot below it is FREE or STOP, its slot is afterwards the lowest FREE
    or STOP one, so that the next [task_create] whose allocations succeed
    returns [pid] again.  The scheduler is one that keeps the slots. *)
Theorem killed_slot_is_claimed_again (k k1 : Kernel M) pid t :
  config_ok cfg -> sched_keeps_slots M ->
  table_ok cfg (tasks k) -> cur_ok k ->
  0 < pid < NR_TASKS cfg -> slot (tasks k) pid = Some t ->
  free_or_stop (state t) = false ->
  (forall j u, 0 <= j < pid -> slot (tasks k) j = Some u ->
               free_or_stop (state u) = false) ->
  sys_kill cfg pid k = Done tt k1 ->
  table_ok cfg (tasks k1) /\
  (exists t', lowest_free (tasks k1) pid t') /\
  forall pd m1 m2,
    setupkvm (mach k1) = (pd, m1) -> pd <> NULL ->
    map_ustack cfg pd (ustack_pages cfg) (printk (Msg_pgdir_num (PADDR pd)) m1)
    = (true, m2) ->
    exists k2, task_create cfg k1 = Done pid k2.
Proof.
  intros Hcfg [Hlen Hfs Hco] Hok Hcur R S F Hlive E.
  rewrite (sys_kill_run cfg k pid t R S F) in E. injection E as <-.
  set (kS := set_mach (free_address_space cfg (pgdir t) (mach k))
               (set_tasks (<[Z.to_nat pid := set_state TASK_STOP t]> (tasks k)) k)).
  assert (SS : slot (tasks kS) pid = Some (set_state TASK_STOP t))
    by (cbn [tasks kS set_tasks set_mach]; eapply slot_insert_eq; eassumption).
  assert (Hok1 : table_ok cfg (tasks (sched_yield kS))).
  { unfold table_ok in *. rewrite Hlen. cbn [tasks kS set_tasks set_mach].
    rewrite length_insert. assumption. }
  destruct (Hfs kS pid _ SS) as (t' & S' & F').
  assert (Hlow : lowest_free (tasks (sched_yield kS)) pid t').
  { split; [assumption|]. split; [rewrite F'; reflexivity|].
    intros j u' Hj Sj.
    destruct (slot_exists (tasks k) j) as [u Su]; [unfold table_ok in Hok; lia|].
    assert (SjS : slot (tasks kS) j = Some u).
    { cbn [tasks kS set_tasks set_mach]. rewrite slot_insert_ne by lia. assumption. }
    destruct (Hfs kS j u SjS) as (u'' & Su'' & Fu'').
    rewrite Sj in Su''. injection Su'' as <-.
    rewrite Fu''. eapply Hlive; eassumption. }
  split; [assumption|]. split; [eauto|].
  intros pd m1 m2 Hkvm Hpd Hmap.
  rewrite <- (ustack_vas_pages cfg Hcfg) in Hmap.
  destruct (find_free_lowest cfg _ pid t' Hok1 Hlow) as [Hscan Hlt].
  eexists. apply (task_create_at_ok cfg _ pid t' pd m1 m2 Hscan Hlt S' Hkvm Hpd Hmap).
  apply Hco. intros c Ec. cbn [tasks cur_task kS set_tasks set_mach] in *.
  destruct (Hcur c Ec) as [p Sp].
  destruct (Z.eq_dec c pid) as [->|Ne].
  - rewrite (slot_insert_eq _ _ _ _ S). eauto.
  - rewrite slot_insert_ne by lia. eauto.
Qed.

End Reuse.

(** The simulated scheduler keeps the slots. *)
Lemma sim_demote_free_or_stop t :
  free_or_stop (state (Sim.demote t)) = free_or_stop (state t).
Proof. unfold Sim.demote. destruct (state t) eqn:E; cbn; rewrite ?E; reflexivity. Qed.

Lemma sim_yield_keeps_slots : sched_keeps_slots Sim.machine.
Proof.
  split.
  - intros k. cbn [sched_yield Sim.sim_machine]. unfold Sim.yield.
    destruct (Sim.first_runnable _ 0); cbn [tasks set_tasks set_cur_task];
      rewrite ?length_alter, length_fmap; reflexivity.
  - intros k i t S. cbn [sched_yield Sim.sim_machine]. unfold Sim.yield.
    unfold slot in *. destruct (0 <=? i) eqn:Hi; [|discriminate].
    assert (D : (Sim.demote <$> tasks k) !! Z.to_nat i = Some (Sim.demote t))
      by (rewrite list_lookup_fmap, S; reflexivity).
    destruct (Sim.first_runnable (Sim.demote <$> tasks k) 0) as [r|] eqn:E.
    + apply sim_first_runnable in E as (L & u & Su & Ru).
      rewrite Z.sub_0_r in Su. cbn [tasks set_tasks set_cur_task].
      destruct (decide (Z.to_nat r = Z.to_nat i)) as [Heq|Hne].
      * rewrite Heq, list_lookup_alter_eq, D. cbn.
        eexists. split; [reflexivity|]. cbn [state set_state].
        rewrite Heq, D in Su. injection Su as <-.
        rewrite <- sim_demote_free_or_stop, Ru. reflexivity.
      * rewrite list_lookup_alter_ne by assumption. rewrite D.
        eexists. split; [reflexivity|]. apply sim_demote_free_or_stop.
    + cbn [tasks set_tasks]. rewrite D.
      eexists. split; [reflexivity|]. apply sim_demote_free_or_stop.
  - intros k Hcur. cbn [sched_yield Sim.sim_machine]. unfold Sim.yield.
    destruct (Sim.first_runnable (Sim.demote <$> tasks k) 0) as [r|] eqn:E.
    + apply sim_first_runnable in E as (L & u & Su & Ru).
      rewrite Z.sub_0_r in Su.
      intros c Ec. cbn [tasks cur_task set_tasks set_cur_task] in *.
      injection Ec as <-. unfold slot. destruct (0 <=? r) eqn:G; [|lia].
      rewrite list_lookup_alter_eq, Su. cbn. eauto.
    + intros c Ec. cbn [tasks cur_task set_tasks] in *.
      destruct (Hcur c Ec) as [p Sp]. unfold slot in *.
      destruct (0 <=? c); [|discriminate].
      rewrite list_lookup_fmap, Sp. cbn. eauto.
Qed.

(** The simulated scheduler keeps the ids. *)
Lemma sim_demote_id t : task_id (Sim.demote t) = task_id t.
Proof. unfold Sim.demote. destruct (state t); reflexivity. Qed.

Lemma sim_demote_not_free t : state (Sim.demote t) <> TASK_FREE -> state t <> TASK_FREE.
Proof. unfold Sim.demote. destruct (state t) eqn:E; cbn; rewrite ?E; congruence. Qed.

Lemma sim_yield_keeps_ids (k : Kernel Sim.machine) :
  ids_ok (tasks k) -> ids_ok (tasks (sched_yield k)).
Proof.
  intros Hids i t' S' Hs'. cbn [sched_yield Sim.sim_machine] in S'.
  unfold Sim.yield in S'.
  pose proof (slot_range _ _ _ S') as R.
  unfold slot in S'. destruct (0 <=? i) eqn:Hi; [|discriminate].
  destruct (Sim.first_runnable (Sim.demote <$> tasks k) 0) as [r|] eqn:E.
  - apply sim_first_runnable in E as (L & u & Su & Ru).
    rewrite Z.sub_0_r in Su. cbn [tasks set_tasks set_cur_task] in S'.
    destruct (decide (Z.to_nat r = Z.to_nat i)) as [Heq|Hne].
    + rewrite Heq, list_lookup_alter_eq in S'. rewrite Heq in Su. rewrite Su in S'.
      injection S' as <-. cbn [task_id set_state].
      rewrite list_lookup_fmap in Su.
      destruct (tasks k !! Z.to_nat i) as [t|] eqn:St; [|discriminate].
      injection Su as <-. rewrite sim_demote_id.
      apply (Hids i t); [unfold slot; rewrite Hi; assumption|].
      apply sim_demote_not_free. rewrite Ru. discriminate.
    + rewrite list_lookup_alter_ne in S' by assumption.
      rewrite list_lookup_fmap in S'.
      destruct (tasks k !! Z.to_nat i) as [t|] eqn:St; [|discriminate].
      injection S' as <-. rewrite sim_demote_id.
      apply (Hids i t); [unfold slot; rewrite Hi; assumption|].
      apply sim_demote_not_free. assumption.
  - cbn [tasks set_tasks] in S'. rewrite list_lookup_fmap in S'.
    destruct (tasks k !! Z.to_nat i) as [t|] eqn:St; [|discriminate].
    injection S' as <-. rewrite sim_demote_id.
    apply (Hids i t); [unfold slot; rewrite Hi; assumption|].
    apply sim_demote_not_free. assumption.
Qed.

(** The ids of a table of three tasks with the ids 0, 1 and 2. *)
Lemma sim_ids_ok s0 s1 s2 :
  ids_ok [Sim.task_in s0 0; Sim.task_in s1 1; Sim.task_in s2 2].
Proof.
  intros i t S _. pose proof (slot_range _ _ _ S) as R. cbn in R.
  assert (i = 0 \/ i = 1 \/ i = 2) as [->|[->| ->]] by lia;
    injection S as <-; reflexivity.
Qed.

(** ** The further properties on concrete inputs *)

(** A creation that fails for lack of a stack page leaves the live tasks
    0 and 2 as they were. *)
Lemma task_create_keeps_live_tasks_witness :
  task_create Sim.cfg3 Sim.tight
  = Done (-1) (Sim.final (task_create Sim.cfg3 Sim.tight)) /\
  cur_task (Sim.final (task_create Sim.cfg3 Sim.tight)) = cur_task Sim.tight /\
  length (tasks (Sim.final (task_create Sim.cfg3 Sim.tight))) = length (tasks Sim.tight) /\
  forall j u, slot (tasks Sim.tight) j = Some u -> free_or_stop (state u) = false ->
              slot (tasks (Sim.final (task_create Sim.cfg3 Sim.tight))) j = Some u.
Proof.
  assert (E : task_create Sim.cfg3 Sim.tight
              = Done (-1) (Sim.final (task_create Sim.cfg3 Sim.tight)))
    by (vm_compute; reflexivity).
  split; [exact E|].
  exact (task_create_keeps_live_tasks Sim.cfg3 Sim.tight _ (-1) E).
Defined.

(** The frame of the task created in the stopped slot 1. *)
Lemma task_create_user_mode_frame_witness :
  task_create Sim.cfg3 Sim.roomy
  = Done 1 (Sim.final (task_create Sim.cfg3 Sim.roomy)) /\
  1 <> -1 /\
  0 <= 1 < NR_TASKS Sim.cfg3 /\
  (exists old, slot (tasks Sim.roomy) 1 = Some old /\ free_or_stop (state old) = true) /\
  exists t,
    slot (tasks (Sim.final (task_create Sim.cfg3 Sim.roomy))) 1 = Some t /\
    tf_cs (tf t) = 0x1b /\ tf_ds (tf t) = 0x23 /\ tf_es (tf t) = 0x23 /\
    tf_ss (tf t) = 0x23 /\
    Z.land (tf_cs (tf t)) 3 = 3 /\ Z.land (tf_ss (tf t)) 3 = 3 /\
    tf_regs (tf t) = zero_regs /\ tf_eip (tf t) = 0 /\ tf_eflags (tf t) = 0.
Proof.
  assert (E : task_create Sim.cfg3 Sim.roomy
              = Done 1 (Sim.final (task_create Sim.cfg3 Sim.roomy)))
    by (vm_compute; reflexivity).
  split; [exact E|]. split; [lia|].
  exact (task_create_user_mode_frame Sim.cfg3 Sim.roomy _ 1 E ltac:(lia)).
Defined.

(** Three creations fill a table of three free slots; the fourth returns
    -1. *)
Lemma creations_use_up_the_table_witness :
  creations Sim.cfg3 3 Inputs.empty Inputs.three /\
  table_ok Sim.cfg3 (tasks Inputs.empty) /\
  count_free (tasks Inputs.empty) = 3 /\
  table_ok Sim.cfg3 (tasks Inputs.three) /\
  count_free (tasks Inputs.three) = count_free (tasks Inputs.empty) - 3 /\
  3 <= count_free (tasks Inputs.empty) /\
  task_create Sim.cfg3 Inputs.three = Done (-1) Inputs.three.
Proof.
  assert (C : creations Sim.cfg3 3 Inputs.empty Inputs.three).
  { apply (creations_more Sim.cfg3 2 Inputs.empty Inputs.one Inputs.three 0);
      [vm_compute; reflexivity|lia|].
    apply (creations_more Sim.cfg3 1 Inputs.one Inputs.two Inputs.three 1);
      [vm_compute; reflexivity|lia|].
    apply (creations_more Sim.cfg3 0 Inputs.two Inputs.three Inputs.three 2);
      [vm_compute; reflexivity|lia|].
    apply creations_none. }
  destruct (creations_use_up_the_table Sim.cfg3 3 Inputs.empty Inputs.three C eq_refl)
    as (Hok & Hc & Hle & Hfull).
  split; [exact C|]. split; [reflexivity|]. split; [reflexivity|].
  split; [exact Hok|]. split; [exact Hc|]. split; [exact Hle|].
  apply Hfull. reflexivity.
Defined.

(** The record of task 1, forked by task 0 after boot. *)
Lemma sys_fork_child_record_witness :
  cur_task (Sim.booted 10) = Some 0 /\
  (exists p0, slot (tasks (Sim.booted 10)) 0 = Some p0 /\
              free_or_stop (state p0) = false /\ task_id p0 = 0) /\
  sys_fork Sim.cfg3 (Sim.booted 10) = Done 1 (Sim.forked 10) /\
  (exists child,
      slot (tasks (Sim.forked 10)) 1 = Some child /\
      state child = TASK_RUNNABLE /\
      parent_id child = 0 /\
      remind_ticks child = 100) /\
  (forall j, j <> 1 -> slot (tasks (Sim.forked 10)) j = slot (tasks (Sim.booted 10)) j) /\
  cur_task (Sim.forked 10) = cur_task (Sim.booted 10) /\
  count_state TASK_RUNNABLE (tasks (Sim.forked 10))
  = count_state TASK_RUNNABLE (tasks (Sim.booted 10)) + 1.
Proof.
  assert (E : sys_fork Sim.cfg3 (Sim.booted 10) = Done 1 (Sim.forked 10))
    by (vm_compute; reflexivity).
  assert (S0 : slot (tasks (Sim.booted 10)) 0
               = Some (boot_task Sim.cfg3 (Sim.KERNBASE + 0x100000)))
    by (vm_compute; reflexivity).
  destruct (sys_fork_child_record Sim.cfg3 (Sim.booted 10) (Sim.forked 10) 0 1 _
              eq_refl S0 eq_refl E ltac:(lia))
    as (_ & _ & _ & Hchild & Hother & Hcur & Hcount).
  split; [reflexivity|]. split; [eexists; split; [exact S0|split; reflexivity]|].
  split; [exact E|]. split; [exact Hchild|]. split; [exact Hother|].
  split; [exact Hcur|exact Hcount].
Defined.

(** A fork that fails after the creation: with slot 0 stopped and task 1
    current the creation returns 0, and on the machine without page tables
    the child has no stack page; both forks return -1 and leave the new
    task RUNNABLE. *)
Lemma sys_fork_failure_keeps_task_witness :
  (task_create Sim.cfg3 Inputs.zero_stopped
   = Done 0 (Sim.final (task_create Sim.cfg3 Inputs.zero_stopped)) /\
   exists k' t',
     sys_fork Sim.cfg3 Inputs.zero_stopped = Done (-1) k' /\
     slot (tasks k') 0 = Some t' /\ state t' = TASK_RUNNABLE /\
     exists old, slot (tasks Inputs.zero_stopped) 0 = Some old /\
                 free_or_stop (state old) = true) /\
  (task_create Sim.cfg3 Bare.plain
   = Done 1 (outcome_state (task_create Sim.cfg3 Bare.plain)) /\
   exists k' t',
     sys_fork Sim.cfg3 Bare.plain = Done (-1) k' /\
     slot (tasks k') 1 = Some t' /\ state t' = TASK_RUNNABLE /\
     exists old, slot (tasks Bare.plain) 1 = Some old /\
                 free_or_stop (state old) = true).
Proof.
  split.
  - assert (E : task_create Sim.cfg3 Inputs.zero_stopped
                = Done 0 (Sim.final (task_create Sim.cfg3 Inputs.zero_stopped)))
      by (vm_compute; reflexivity).
    split; [exact E|].
    apply (sys_fork_failure_keeps_task Sim.cfg3 Inputs.zero_stopped _ 1 0 eq_refl E);
      [lia|]. left. reflexivity.
  - assert (E : task_create Sim.cfg3 Bare.plain
                = Done 1 (outcome_state (task_create Sim.cfg3 Bare.plain)))
      by (vm_compute; reflexivity).
    split; [exact E|].
    apply (sys_fork_failure_keeps_task Sim.cfg3 Bare.plain _ 0 1 eq_refl E);
      [lia|]. right. eexists. split; vm_compute; reflexivity.
Defined.

(** The write system call, and a call with an unknown number, leave the
    table alone. *)
Lemma do_syscall_keeps_table_witness :
  syscall_of_number Sim.cfg3 0 = Some SYS_puts /\
  (let k' := outcome_state (do_syscall Sim.cfg3 0 65 3 0 0 0 Sim.tight) in
   k' = set_mach (mach k') Sim.tight /\ tasks k' = tasks Sim.tight /\
   cur_task k' = cur_task Sim.tight) /\
  Sim.out (mach (outcome_state (do_syscall Sim.cfg3 0 65 3 0 0 0 Sim.tight))) = [0; 0; 0].
Proof.
  split; [reflexivity|]. split; [|vm_compute; reflexivity].
  apply (do_syscall_keeps_table Sim.cfg3 Sim.tight 0 65 3 0 0 0); discriminate.
Defined.

(** The ids stay in order when task 1 is killed by the kill system
    call. *)
Lemma do_syscall_keeps_ids_witness :
  (forall k0 : Kernel Sim.machine, ids_ok (tasks k0) -> ids_ok (tasks (sched_yield k0))) /\
  ids_ok (tasks Inputs.busy) /\
  do_syscall Sim.cfg3 4 1 0 0 0 0 Inputs.busy
  = Done 0 (Sim.final (do_syscall Sim.cfg3 4 1 0 0 0 0 Inputs.busy)) /\
  ids_ok (tasks (Sim.final (do_syscall Sim.cfg3 4 1 0 0 0 0 Inputs.busy))).
Proof.
  assert (E : do_syscall Sim.cfg3 4 1 0 0 0 0 Inputs.busy
              = Done 0 (Sim.final (do_syscall Sim.cfg3 4 1 0 0 0 0 Inputs.busy)))
    by (vm_compute; reflexivity).
  split; [exact sim_yield_keeps_ids|]. split; [apply sim_ids_ok|].
  split; [exact E|].
  exact (do_syscall_keeps_ids Sim.cfg3 Inputs.busy _ 4 1 0 0 0 0 0
           sim_yield_keeps_ids (sim_ids_ok _ _ _) E).
Defined.

(** [sys_getpid] for the running task 0, and with no current task. *)
Lemma sys_getpid_slot_index_witness :
  (ids_ok (tasks Sim.tight) /\ cur_task Sim.tight = Some 0 /\
   sys_getpid Sim.tight = Done 0 Sim.tight) /\
  (cur_task Sim.idle = None /\ sys_getpid Sim.idle = Done (-1) Sim.idle).
Proof.
  split.
  - split; [apply sim_ids_ok|]. split; [reflexivity|].
    apply (proj1 (sys_getpid_slot_index Sim.tight) 0 (Sim.task_in TASK_RUNNING 0));
      [apply sim_ids_ok|reflexivity|reflexivity|discriminate].
  - split; [reflexivity|].
    exact (proj2 (sys_getpid_slot_index Sim.idle) eq_refl).
Defined.

(** On the machine whose memory holds at each address its low byte, the
    three characters at 65, 66 and 67 are written in this order. *)
Lemma do_puts_emits_in_order_witness :
  (forall c a (m : Bare.machine), load_char a (k_putch c m) = load_char a m) /\
  chars_at 65 3 (mach Bare.plain) = [65; 66; 67] /\
  do_puts 65 3 Bare.plain = Done tt (set_mach [65; 66; 67] Bare.plain) /\
  do_syscall Sim.cfg3 0 65 3 0 0 0 Bare.plain
  = Done 0 (set_mach [65; 66; 67] Bare.plain).
Proof.
  assert (Hmem : forall c a (m : Bare.machine),
             load_char a (k_putch c m) = load_char a m) by reflexivity.
  destruct (do_puts_emits_in_order Sim.cfg3 Hmem Bare.plain 65 3) as (E & _ & D).
  split; [exact Hmem|]. split; [reflexivity|]. split; [exact E|].
  exact (D 0 0 0 0 eq_refl).
Defined.

(** The table and the globals after boot, on a machine with three slots
    and ten frames. *)
Lemma task_init_table_witness :
  cur_task (Sim.boot 3 10) = None /\
  table_ok Sim.cfg3 (tasks (Sim.boot 3 10)) /\
  task_init Sim.cfg3 (Sim.boot 3 10) = Done tt (Sim.booted 10) /\
  exists pd,
    pd <> NULL /\
    tasks (Sim.booted 10) = [boot_task Sim.cfg3 pd; zero_task; zero_task] /\
    cur_task (Sim.booted 10) = Some 0 /\
    table_ok Sim.cfg3 (tasks (Sim.booted 10)) /\ ids_ok (tasks (Sim.booted 10)) /\
    count_free (tasks (Sim.booted 10)) = 2.
Proof.
  assert (I : task_init Sim.cfg3 (Sim.boot 3 10) = Done tt (Sim.booted 10))
    by (vm_compute; reflexivity).
  split; [reflexivity|]. split; [reflexivity|]. split; [exact I|].
  exact (task_init_table Sim.cfg3 (Sim.boot 3 10) (Sim.booted 10) eq_refl eq_refl I).
Defined.

Lemma task_init_globals_witness :
  cur_task (Sim.boot 3 10) = None /\
  task_init Sim.cfg3 (Sim.boot 3 10) = Done tt (Sim.booted 10) /\
  (exists t, slot (tasks (Sim.booted 10)) 0 = Some t /\
             tf_eip (tf t) = 0x800020 /\
             tf_esp (tf t) = 0xeebfd000 /\
             tf_cs (tf t) = 0x1b /\ tf_ss (tf t) = 0x23 /\
             remind_ticks t = 100 /\ pgdir t <> NULL) /\
  UTEXT_SZ (Sim.booted 10) = 0x1000 /\
  ts_esp0 (tss (Sim.booted 10)) = 0xf0118000 /\
  ts_ss0 (tss (Sim.booted 10)) = 0x10.
Proof.
  assert (I : task_init Sim.cfg3 (Sim.boot 3 10) = Done tt (Sim.booted 10))
    by (vm_compute; reflexivity).
  destruct (task_init_globals Sim.cfg3 (Sim.boot 3 10) (Sim.booted 10) eq_refl I)
    as (T & Z1 & _ & _ & _ & E0 & S0 & _).
  split; [reflexivity|]. split; [exact I|]. split; [exact T|].
  split; [exact Z1|]. split; [exact E0|exact S0].
Defined.

(** Task 1 is killed and the next creation returns 1 again. *)
Lemma killed_slot_is_claimed_again_witness :
  config_ok Sim.cfg3 /\ sched_keeps_slots Sim.machine /\
  table_ok Sim.cfg3 (tasks Inputs.busy) /\ cur_ok Inputs.busy /\
  sys_kill Sim.cfg3 1 Inputs.busy = Done tt Inputs.busy_killed /\
  table_ok Sim.cfg3 (tasks Inputs.busy_killed) /\
  (exists t', lowest_free (tasks Inputs.busy_killed) 1 t') /\
  exists k2, task_create Sim.cfg3 Inputs.busy_killed = Done 1 k2.
Proof.
  assert (Hcur : cur_ok Inputs.busy) by (eapply sim_cur_ok; reflexivity).
  assert (E : sys_kill Sim.cfg3 1 Inputs.busy = Done tt Inputs.busy_killed)
    by (vm_compute; reflexivity).
  assert (Hlive : forall j u, 0 <= j < 1 -> slot (tasks Inputs.busy) j = Some u ->
                              free_or_stop (state u) = false).
  { intros j u Hj S. assert (j = 0) as -> by lia. injection S as <-. reflexivity. }
  destruct (killed_slot_is_claimed_again Sim.cfg3 Inputs.busy Inputs.busy_killed 1
              (Sim.task_in TASK_RUNNABLE 1)
              sim_config_ok sim_yield_keeps_slots eq_refl Hcur
              ltac:(split; reflexivity) eq_refl eq_refl Hlive E)
    as (Hok & Hlow & Hcreate).
  split; [exact sim_config_ok|]. split; [exact sim_yield_keeps_slots|].
  split; [reflexivity|]. split; [exact Hcur|]. split; [exact E|].
  split; [exact Hok|]. split; [exact Hlow|].
  eapply Hcreate.
  - vm_compute. reflexivity.
  - vm_compute. discriminate.
  - vm_compute. reflexivity.
Defined.

(** The fork of task 0 after boot returns 1; with no current task
    [sys_fork] returns -1. *)
Lemma sys_fork_result_range_witness :
  (sys_fork Sim.cfg3 (Sim.booted 10) = Done 1 (Sim.forked 10) /\
   (1 = -1 \/ 0 < 1 < NR_TASKS Sim.cfg3)) /\
  (cur_task Sim.idle = None /\ sys_fork Sim.cfg3 Sim.idle = Done (-1) Sim.idle).
Proof.
  assert (E : sys_fork Sim.cfg3 (Sim.booted 10) = Done 1 (Sim.forked 10))
    by (vm_compute; reflexivity).
  split.
  - split; [exact E|].
    exact (proj1 (sys_fork_result_range Sim.cfg3 (Sim.booted 10)) 1 (Sim.forked 10) E).
  - split; [reflexivity|].
    exact (proj2 (sys_fork_result_range Sim.cfg3 Sim.idle) eq_refl).
Defined.
